(** * PlasmidFlow (plass_apps29.py): a shallow embedding and its properties

    The development follows the layout of the Python module:

    - [Py]        the Python values and library calls the module relies on
                  (exceptions, [str] methods, [base64.b64decode],
                  [bytes.decode('utf-8')], [json.loads], [json.dump]);
    - [Pandas]    the fragment of pandas the helpers use (a frame built from
                  records, boolean indexing, the [.str] accessor, [melt],
                  [pivot], [pd.unique], [Series.map]);
    - [Networkx]  the graph [create_network] builds;
    - [Upload]    what [dcc.Upload] hands to a callback for a file;
    - [App]       the helpers and callbacks of the module, one definition per
                  Python function, under the name the function has there;
    - [Notions], [Samples]  what the statements need besides;
    - the facts about the library models and about the helpers;
    - the properties of the specification in [Properties], and further
      properties of the helpers and callbacks, callback by callback, in
      [UploadProperties], [FilterProperties], [FlowProperties],
      [MatrixProperties], [NetworkProperties], [CallbackProperties] and
      [StyleProperties].

    Conventions.  A Python [str] is the list of its code points, a [bytes]
    value the list of its octets, both as [Z].  A call that may raise returns
    a [result]; [Raise e] stands for the exception leaving the call.  The
    module's [try ... except Exception] blocks are written as [try_except].

    The library models follow CPython 3.11 (the C scanner of [json], the
    non-strict loop of [binascii.a2b_base64]), pandas 2 and networkx 3.
    What is outside the module and what no property below depends on is
    kept abstract or delimited, and said so where it happens: a float read
    by [json.loads] is kept as the literal it was read from (Python rounds
    it to a double); the interpreter's recursion limit and its limit on the
    length of integers are not part of the model of [json.loads] and
    [json.dump], and the properties that would meet them are stated for an
    arbitrary parser or for values within these limits
    ([Notions.within_limits]); an integer and a float cell share one
    constructor; a missing value is [None] or one NaN, and the model keeps
    the two apart and every NaN equal to itself, where the pivot of pandas
    takes all missing labels for one and lists it first, and where every
    row hands networkx a NaN of its own: the properties of the matrix and
    of the graph of a whole dataset are stated for datasets without a
    missing identifier or environment; regular expressions, the CSV reader,
    the force-directed layout, plotly's property validators and the
    rendering of a figure to an image file are parameters. *)

From Stdlib Require Import ZArith List Bool String Ascii Lia.
From Stdlib Require Import DecimalPos DecimalZ.
Import ListNotations.
Open Scope Z_scope.

Set Implicit Arguments.

(* ================================================================= *)
(** * Python values and library calls *)

Module Py.

(** ** Exceptions and results *)

(** The exception classes the module can meet.  All of them derive from
    [Exception]; [JSONDecodeError], [UnicodeDecodeError] and
    [binascii.Error] are subclasses of [ValueError] in Python and are kept
    apart here only for readability. *)
Inductive exn : Type :=
| ValueError
| KeyError
| TypeError
| AttributeError
| JSONDecodeError
| UnicodeDecodeError
| BinasciiError
| ReError
| OtherError.

Inductive result (A : Type) : Type :=
| Return (a : A)
| Raise (e : exn).

Arguments Return {A} a.
Arguments Raise {A} e.

Definition bind {A B : Type} (r : result A) (k : A -> result B) : result B :=
  match r with
  | Return a => k a
  | Raise e => Raise e
  end.

Notation "x <- e ;; k" := (bind e (fun x => k))
  (at level 61, e at next level, right associativity).
Notation "' p <- e ;; k" := (bind e (fun p => k))
  (at level 61, p pattern, e at next level, right associativity).

(** [try: body  except Exception: handler]. *)
Definition try_except {A : Type} (body : result A) (handler : exn -> result A)
  : result A :=
  match body with
  | Return a => Return a
  | Raise e => handler e
  end.

(** ** Strings and bytes *)

Definition pystr : Type := list Z.
Definition bytes : Type := list Z.

Definition is_byte (b : Z) : Prop := 0 <= b < 256.
Definition is_ascii (c : Z) : Prop := 0 <= c < 128.

(** An ASCII literal of the source, as a Python [str]. *)
Definition py (s : string) : pystr :=
  map (fun a => Z.of_N (N_of_ascii a)) (list_ascii_of_string s).

Definition str_eqb (s t : pystr) : bool :=
  if list_eq_dec Z.eq_dec s t then true else false.

(** [str.split(sep)] for a separator of one character. *)
Fixpoint split_on (sep : Z) (s : pystr) : list pystr :=
  match s with
  | [] => [[]]
  | c :: r =>
    if c =? sep then [] :: split_on sep r
    else match split_on sep r with
         | h :: t => (c :: h) :: t
         | [] => [[c]]
         end
  end.

(** [a, b = parts]: unpacking into exactly two names. *)
Definition unpack2 {A : Type} (parts : list A) : result (A * A) :=
  match parts with
  | [a; b] => Return (a, b)
  | _ => Raise ValueError
  end.

(** [str.lower()] on the ASCII letters.  On other code points Python's
    lowering never produces the letters [n] or [o], so the comparisons with
    ['no'] made by the module are the ones made here. *)
Definition lower_char (c : Z) : Z :=
  if (65 <=? c) && (c <=? 90) then c + 32 else c.

Definition lower (s : pystr) : pystr := map lower_char s.

(** [str.isspace()] on one character, the set [str.strip()] removes. *)
Definition is_space (c : Z) : bool :=
  ((9 <=? c) && (c <=? 13)) || ((28 <=? c) && (c <=? 32))
  || (c =? 133) || (c =? 160) || (c =? 5760)
  || ((8192 <=? c) && (c <=? 8202))
  || (c =? 8232) || (c =? 8233) || (c =? 8239) || (c =? 8287) || (c =? 12288).

Fixpoint lstrip (s : pystr) : pystr :=
  match s with
  | c :: r => if is_space c then lstrip r else s
  | [] => []
  end.

Definition strip (s : pystr) : pystr := rev (lstrip (rev (lstrip s))).

(** ** base64.b64decode *)

(** The decoding table of [binascii]: the value of an alphabet character. *)
Definition b64_value (c : Z) : option Z :=
  if (65 <=? c) && (c <=? 90) then Some (c - 65)
  else if (97 <=? c) && (c <=? 122) then Some (c - 71)
  else if (48 <=? c) && (c <=? 57) then Some (c + 4)
  else if c =? 43 then Some 62
  else if c =? 47 then Some 63
  else None.

(** The loop of [binascii.a2b_base64] in its default, non-strict mode:
    characters outside the alphabet are skipped, a complete pad sequence
    ends the decoding, and data left in an unfinished quad is an error. *)
Fixpoint a2b_loop (s : list Z) (quad_pos leftchar pads : Z) (out : list Z)
  : result bytes :=
  match s with
  | [] => if quad_pos =? 0 then Return (rev out) else Raise BinasciiError
  | c :: rest =>
    if c =? 61 then
      if (2 <=? quad_pos) && (4 <=? quad_pos + (pads + 1)) then Return (rev out)
      else a2b_loop rest quad_pos leftchar
             (if 2 <=? quad_pos then pads + 1 else pads) out
    else
      match b64_value c with
      | None => a2b_loop rest quad_pos leftchar pads out
      | Some v =>
        if quad_pos =? 0 then a2b_loop rest 1 v 0 out
        else if quad_pos =? 1 then
          a2b_loop rest 2 (Z.land v 15) 0
            (Z.land (Z.lor (Z.shiftl leftchar 2) (Z.shiftr v 4)) 255 :: out)
        else if quad_pos =? 2 then
          a2b_loop rest 3 (Z.land v 3) 0
            (Z.land (Z.lor (Z.shiftl leftchar 4) (Z.shiftr v 2)) 255 :: out)
        else
          a2b_loop rest 0 0 0
            (Z.land (Z.lor (Z.shiftl leftchar 6) v) 255 :: out)
      end
  end.

(** [base64.b64decode(s)] for a [str] argument: the string is first encoded
    as ASCII ([ValueError] otherwise), then handed to [a2b_base64]. *)
Definition b64decode (s : pystr) : result bytes :=
  if forallb (fun c => (0 <=? c) && (c <? 128)) s
  then a2b_loop s 0 0 0 []
  else Raise ValueError.

(** ** bytes.decode('utf-8') *)

Definition cont (b : Z) : bool := (128 <=? b) && (b <=? 191).
Definition low6 (b : Z) : Z := Z.land b 63.

(** The strict UTF-8 decoder: shortest forms only, no surrogates, nothing
    above U+10FFFF. *)
Fixpoint utf8_decode (bs : bytes) : result pystr :=
  match bs with
  | [] => Return []
  | b0 :: r =>
    if (0 <=? b0) && (b0 <? 128) then
      s <- utf8_decode r ;; Return (b0 :: s)
    else if (194 <=? b0) && (b0 <=? 223) then
      match r with
      | b1 :: r1 =>
        if cont b1 then
          s <- utf8_decode r1 ;;
          Return (Z.lor (Z.shiftl (Z.land b0 31) 6) (low6 b1) :: s)
        else Raise UnicodeDecodeError
      | _ => Raise UnicodeDecodeError
      end
    else if (224 <=? b0) && (b0 <=? 239) then
      match r with
      | b1 :: b2 :: r2 =>
        if cont b1 && cont b2
           && (negb (b0 =? 224) || (160 <=? b1))
           && (negb (b0 =? 237) || (b1 <=? 159)) then
          s <- utf8_decode r2 ;;
          Return (Z.lor (Z.shiftl (Z.land b0 15) 12)
                    (Z.lor (Z.shiftl (low6 b1) 6) (low6 b2)) :: s)
        else Raise UnicodeDecodeError
      | _ => Raise UnicodeDecodeError
      end
    else if (240 <=? b0) && (b0 <=? 244) then
      match r with
      | b1 :: b2 :: b3 :: r3 =>
        if cont b1 && cont b2 && cont b3
           && (negb (b0 =? 240) || (144 <=? b1))
           && (negb (b0 =? 244) || (b1 <=? 143)) then
          s <- utf8_decode r3 ;;
          Return (Z.lor (Z.shiftl (Z.land b0 7) 18)
                    (Z.lor (Z.shiftl (low6 b1) 12)
                       (Z.lor (Z.shiftl (low6 b2) 6) (low6 b3))) :: s)
        else Raise UnicodeDecodeError
      | _ => Raise UnicodeDecodeError
      end
    else Raise UnicodeDecodeError
  end.

(** ** json *)

(** The values [json.loads] produces.  A [dict] keeps its keys in insertion
    order, as Python's does.  A float is kept as the literal it was read
    from. *)
#[warnings="-register-all"]
Inductive json : Type :=
| JNull
| JBool (b : bool)
| JInt (z : Z)
| JFloat (lit : pystr)
| JStr (s : pystr)
| JList (l : list json)
| JDict (d : list (pystr * json)).

(** [d[k] = v] on a dict: an existing key keeps its place. *)
Fixpoint dict_set (d : list (pystr * json)) (k : pystr) (v : json)
  : list (pystr * json) :=
  match d with
  | [] => [(k, v)]
  | (k', v') :: r =>
    if str_eqb k' k then (k', v) :: r else (k', v') :: dict_set r k v
  end.

Fixpoint dict_get (d : list (pystr * json)) (k : pystr) : option json :=
  match d with
  | [] => None
  | (k', v) :: r => if str_eqb k' k then Some v else dict_get r k
  end.

(** [obj[key]] with a string key: [KeyError] on a dict without the key,
    [TypeError] on anything that is not a dict. *)
Definition subscript (obj : json) (key : pystr) : result json :=
  match obj with
  | JDict d =>
    match dict_get d key with
    | Some v => Return v
    | None => Raise KeyError
    end
  | _ => Raise TypeError
  end.

(** *** json.dump *)

Fixpoint uint_chars (d : Decimal.uint) : pystr :=
  match d with
  | Decimal.Nil => []
  | Decimal.D0 r => 48 :: uint_chars r
  | Decimal.D1 r => 49 :: uint_chars r
  | Decimal.D2 r => 50 :: uint_chars r
  | Decimal.D3 r => 51 :: uint_chars r
  | Decimal.D4 r => 52 :: uint_chars r
  | Decimal.D5 r => 53 :: uint_chars r
  | Decimal.D6 r => 54 :: uint_chars r
  | Decimal.D7 r => 55 :: uint_chars r
  | Decimal.D8 r => 56 :: uint_chars r
  | Decimal.D9 r => 57 :: uint_chars r
  end.

(** [int.__repr__]. *)
Definition int_repr (z : Z) : pystr :=
  match Z.to_int z with
  | Decimal.Pos d => uint_chars d
  | Decimal.Neg d => 45 :: uint_chars d
  end.

Definition hexdigit (n : Z) : Z := if n <? 10 then 48 + n else 87 + n.

(** ['\\u{0:04x}'.format(n)]. *)
Definition u_escape (n : Z) : pystr :=
  [92; 117;
   hexdigit (Z.land (Z.shiftr n 12) 15); hexdigit (Z.land (Z.shiftr n 8) 15);
   hexdigit (Z.land (Z.shiftr n 4) 15); hexdigit (Z.land n 15)].

(** The replacement [py_encode_basestring_ascii] makes for one character:
    printable ASCII is kept, the quote, the backslash and five control
    characters have short escapes, everything else is written as one or two
    [\uXXXX] escapes. *)
Definition escape_char (c : Z) : pystr :=
  if c =? 92 then [92; 92]
  else if c =? 34 then [92; 34]
  else if (32 <=? c) && (c <=? 126) then [c]
  else if c =? 8 then [92; 98]
  else if c =? 12 then [92; 102]
  else if c =? 10 then [92; 110]
  else if c =? 13 then [92; 114]
  else if c =? 9 then [92; 116]
  else if c <? 65536 then u_escape c
  else
    let n := c - 65536 in
    u_escape (Z.lor 55296 (Z.land (Z.shiftr n 10) 1023))
      ++ u_escape (Z.lor 56320 (Z.land n 1023)).

Definition escape_body (s : pystr) : pystr := flat_map escape_char s.

Definition encode_basestring_ascii (s : pystr) : pystr :=
  34 :: escape_body s ++ [34].

(** [json.dumps(v)] with the default separators [', '] and [': '], which is
    the text [json.dump(v, fp)] writes. *)
Fixpoint json_dumps (v : json) : pystr :=
  match v with
  | JNull => py "null"
  | JBool true => py "true"
  | JBool false => py "false"
  | JInt z => int_repr z
  | JFloat lit => lit
  | JStr s => encode_basestring_ascii s
  | JList l =>
    91 :: (fix items (l : list json) : pystr :=
             match l with
             | [] => []
             | [x] => json_dumps x
             | x :: r => json_dumps x ++ [44; 32] ++ items r
             end) l ++ [93]
  | JDict d =>
    123 :: (fix items (d : list (pystr * json)) : pystr :=
              match d with
              | [] => []
              | [(k, x)] =>
                encode_basestring_ascii k ++ [58; 32] ++ json_dumps x
              | (k, x) :: r =>
                encode_basestring_ascii k ++ [58; 32] ++ json_dumps x
                  ++ [44; 32] ++ items r
              end) d ++ [125]
  end.

(** *** json.loads *)

Definition is_ws (c : Z) : bool :=
  (c =? 32) || (c =? 9) || (c =? 10) || (c =? 13).

Fixpoint skip_ws (s : pystr) : pystr :=
  match s with
  | c :: r => if is_ws c then skip_ws r else s
  | [] => []
  end.

Definition hexval (c : Z) : option Z :=
  if (48 <=? c) && (c <=? 57) then Some (c - 48)
  else if (97 <=? c) && (c <=? 102) then Some (c - 87)
  else if (65 <=? c) && (c <=? 70) then Some (c - 55)
  else None.

(** Four hexadecimal digits, most significant first. *)
Definition hex4 (s : pystr) : option (Z * pystr) :=
  match s with
  | a :: b :: c :: d :: r =>
    match hexval a, hexval b, hexval c, hexval d with
    | Some x, Some y, Some z, Some w =>
      Some (Z.lor (Z.shiftl (Z.lor (Z.shiftl (Z.lor (Z.shiftl x 4) y) 4) z) 4) w, r)
    | _, _, _, _ => None
    end
  | _ => None
  end.

(** [s.startswith(p)], returning what follows the prefix. *)
Fixpoint strip_prefix (p s : pystr) : option pystr :=
  match p, s with
  | [], _ => Some s
  | a :: p', b :: s' => if a =? b then strip_prefix p' s' else None
  | _ :: _, [] => None
  end.

Definition is_high_surrogate (u : Z) : bool := (55296 <=? u) && (u <=? 56319).
Definition is_low_surrogate (u : Z) : bool := (56320 <=? u) && (u <=? 57343).

(** What follows a backslash inside a string: the character it denotes and
    the rest of the input.  A [\uXXXX] naming a high surrogate joins with a
    following [\uXXXX] that names a low one. *)
Definition scan_escape (s : pystr) : option (Z * pystr) :=
  match s with
  | [] => None
  | e :: r =>
    if e =? 117 then
      match hex4 r with
      | None => None
      | Some (uni, r1) =>
        if is_high_surrogate uni then
          match strip_prefix [92; 117] r1 with
          | Some r2 =>
            match hex4 r2 with
            | None => None
            | Some (uni2, r3) =>
              if is_low_surrogate uni2
              then Some (65536 + Z.lor (Z.shiftl (uni - 55296) 10) (uni2 - 56320), r3)
              else Some (uni, r1)
            end
          | None => Some (uni, r1)
          end
        else Some (uni, r1)
      end
    else if e =? 34 then Some (34, r)
    else if e =? 92 then Some (92, r)
    else if e =? 47 then Some (47, r)
    else if e =? 98 then Some (8, r)
    else if e =? 102 then Some (12, r)
    else if e =? 110 then Some (10, r)
    else if e =? 114 then Some (13, r)
    else if e =? 116 then Some (9, r)
    else None
  end.

(** The loop of [scanstring] in strict mode, entered after the opening
    quote; [fuel] bounds the number of characters and escapes read. *)
Fixpoint scan_chars (fuel : nat) (s : pystr) (acc : pystr)
  : option (pystr * pystr) :=
  match fuel with
  | O => None
  | S f =>
    match s with
    | [] => None
    | c :: r =>
      if c =? 34 then Some (rev acc, r)
      else if c =? 92 then
        match scan_escape r with
        | Some (u, r') => scan_chars f r' (u :: acc)
        | None => None
        end
      else if c <? 32 then None
      else scan_chars f r (c :: acc)
    end
  end.

Definition scanstring (s : pystr) : option (pystr * pystr) :=
  scan_chars (S (List.length s)) s [].

Definition is_digit (c : Z) : bool := (48 <=? c) && (c <=? 57).

Fixpoint span_digits (s : pystr) : pystr * pystr :=
  match s with
  | c :: r =>
    if is_digit c then let (d, r') := span_digits r in (c :: d, r')
    else ([], s)
  | [] => ([], [])
  end.

(** The integer part of a number: an optional minus sign, then either a
    single zero or a non-zero digit followed by any digits. *)
Definition scan_int (s : pystr) : option (pystr * pystr) :=
  let (sign, s1) := match s with
                    | 45 :: r => ([45], r)
                    | _ => ([], s)
                    end in
  match s1 with
  | c :: r =>
    if c =? 48 then Some (sign ++ [48], r)
    else if is_digit c then
      let (d, r') := span_digits r in Some (sign ++ c :: d, r')
    else None
  | [] => None
  end.

(** The optional fraction: a dot followed by at least one digit. *)
Definition scan_frac (s : pystr) : pystr * pystr :=
  match s with
  | 46 :: r =>
    match span_digits r with
    | ([], _) => ([], s)
    | (d, r') => (46 :: d, r')
    end
  | _ => ([], s)
  end.

(** The optional exponent: [e] or [E], an optional sign, at least one
    digit. *)
Definition scan_exp (s : pystr) : pystr * pystr :=
  match s with
  | c :: r =>
    if (c =? 101) || (c =? 69) then
      let (sg, r1) := match r with
                      | c2 :: r2 =>
                        if (c2 =? 43) || (c2 =? 45) then ([c2], r2) else ([], r)
                      | [] => ([], r)
                      end in
      match span_digits r1 with
      | ([], _) => ([], s)
      | (d, r') => (c :: sg ++ d, r')
      end
    else ([], s)
  | [] => ([], s)
  end.

Fixpoint uint_of_chars (s : pystr) : Decimal.uint :=
  match s with
  | [] => Decimal.Nil
  | c :: r =>
    let d := uint_of_chars r in
    if c =? 48 then Decimal.D0 d else if c =? 49 then Decimal.D1 d
    else if c =? 50 then Decimal.D2 d else if c =? 51 then Decimal.D3 d
    else if c =? 52 then Decimal.D4 d else if c =? 53 then Decimal.D5 d
    else if c =? 54 then Decimal.D6 d else if c =? 55 then Decimal.D7 d
    else if c =? 56 then Decimal.D8 d else Decimal.D9 d
  end.

(** [int(text)] on text matched by [scan_int]. *)
Definition int_of_text (s : pystr) : Z :=
  match s with
  | 45 :: r => Z.of_int (Decimal.Neg (uint_of_chars r))
  | _ => Z.of_int (Decimal.Pos (uint_of_chars s))
  end.

Definition scan_number (s : pystr) : option (json * pystr) :=
  match scan_int s with
  | None => None
  | Some (i, r) =>
    let (f, r1) := scan_frac r in
    let (e, r2) := scan_exp r1 in
    match f, e with
    | [], [] => Some (JInt (int_of_text i), r2)
    | _, _ => Some (JFloat (i ++ f ++ e), r2)
    end
  end.

(** The values [scan_once] reads without recursion, in the order it tries
    them: [null], [true], [false], a number, [NaN], [Infinity],
    [-Infinity]. *)
Definition scan_atom (s : pystr) : option (json * pystr) :=
  match strip_prefix (py "null") s with
  | Some r' => Some (JNull, r')
  | None =>
  match strip_prefix (py "true") s with
  | Some r' => Some (JBool true, r')
  | None =>
  match strip_prefix (py "false") s with
  | Some r' => Some (JBool false, r')
  | None =>
  match scan_number s with
  | Some res => Some res
  | None =>
  match strip_prefix (py "NaN") s with
  | Some r' => Some (JFloat (py "NaN"), r')
  | None =>
  match strip_prefix (py "Infinity") s with
  | Some r' => Some (JFloat (py "Infinity"), r')
  | None =>
  match strip_prefix (py "-Infinity") s with
  | Some r' => Some (JFloat (py "-Infinity"), r')
  | None => None
  end end end end end end end.

(** [scan_once] with the loops of [JSONArray] and [JSONObject].  [None] is
    a [JSONDecodeError]; [fuel] bounds the nesting and the number of items,
    and the length of the text is always enough of it
    ([JsonFuel.scan_once_adequate]). *)
Fixpoint scan_once (fuel : nat) (s : pystr) {struct fuel}
  : option (json * pystr) :=
  match fuel with
  | O => None
  | S f =>
    match s with
    | [] => None
    | c :: r =>
      if c =? 34 then
        match scanstring r with
        | Some (str, r') => Some (JStr str, r')
        | None => None
        end
      else if c =? 123 then
        match skip_ws r with
        | 125 :: r' => Some (JDict [], r')
        | 34 :: r' => object_items f r' []
        | _ => None
        end
      else if c =? 91 then
        match skip_ws r with
        | 93 :: r' => Some (JList [], r')
        | r' => array_items f r' []
        end
      else scan_atom s
    end
  end

with array_items (fuel : nat) (s : pystr) (acc : list json) {struct fuel}
  : option (json * pystr) :=
  match fuel with
  | O => None
  | S f =>
    match scan_once f s with
    | None => None
    | Some (v, r) =>
      match skip_ws r with
      | 93 :: r' => Some (JList (rev (v :: acc)), r')
      | 44 :: r' => array_items f (skip_ws r') (v :: acc)
      | _ => None
      end
    end
  end

with object_items (fuel : nat) (s : pystr) (acc : list (pystr * json))
       {struct fuel} : option (json * pystr) :=
  match fuel with
  | O => None
  | S f =>
    match scanstring s with
    | None => None
    | Some (key, r) =>
      match skip_ws r with
      | 58 :: r1 =>
        match scan_once f (skip_ws r1) with
        | None => None
        | Some (v, r2) =>
          match skip_ws r2 with
          | 125 :: r3 => Some (JDict (dict_set acc key v), r3)
          | 44 :: r3 =>
            match skip_ws r3 with
            | 34 :: r4 => object_items f r4 (dict_set acc key v)
            | _ => None
            end
          | _ => None
          end
        end
      | _ => None
      end
    end
  end.

(** [json.loads(s)] for a [str]: a leading byte-order mark is refused, one
    value is read, and only white space may follow it. *)
Definition json_loads (s : pystr) : result json :=
  match s with
  | 65279 :: _ => Raise JSONDecodeError
  | _ =>
    match scan_once (S (List.length s)) (skip_ws s) with
    | Some (v, r) =>
      match skip_ws r with
      | [] => Return v
      | _ => Raise JSONDecodeError
      end
    | None => Raise JSONDecodeError
    end
  end.

End Py.

(* ================================================================= *)
(** * The fragment of pandas used by the helpers *)

Module Pandas.
Import Py.

(** ** Cells *)

(** What a cell of the table can hold: text, a number, a boolean, [None],
    or NaN.  Integers and floats share [CNum]: the operations below treat
    them alike (the [.str] methods give NaN on both, neither prints as
    ['no'], and Python compares them by value). *)
Inductive cell : Type :=
| CStr (s : pystr)
| CNum (z : Z)
| CBool (b : bool)
| CNone
| CNaN.

Definition isna (v : cell) : bool :=
  match v with
  | CNone | CNaN => true
  | _ => false
  end.

(** Python's [==] and [hash] identify [True] with [1] and [False] with [0];
    the hash tables of pandas moreover identify all NaN.  [cell_key] picks
    one representative per class. *)
Definition cell_key (v : cell) : cell :=
  match v with
  | CBool true => CNum 1
  | CBool false => CNum 0
  | _ => v
  end.

Definition cell_eq_dec (a b : cell) : {a = b} + {a <> b}.
Proof.
  decide equality.
  - apply (list_eq_dec Z.eq_dec).
  - apply Z.eq_dec.
  - apply Bool.bool_dec.
Defined.

Definition cell_eqb (a b : cell) : bool :=
  if cell_eq_dec (cell_key a) (cell_key b) then true else false.

(** [str(x)]. *)
Definition py_str (v : cell) : pystr :=
  match v with
  | CStr s => s
  | CNum z => int_repr z
  | CBool true => py "True"
  | CBool false => py "False"
  | CNone => py "None"
  | CNaN => py "nan"
  end.

(** ** Records and frames *)

(** A record is one row as a dict from column name to cell; a missing key
    reads as NaN, as it does when pandas builds a frame from records. *)
Definition record : Type := list (pystr * cell).

Fixpoint cell_at (r : record) (c : pystr) : cell :=
  match r with
  | [] => CNaN
  | (k, v) :: r' => if str_eqb k c then v else cell_at r' c
  end.

Inductive dtype : Type := DObject | DNumeric | DBool.

(** A frame: its columns with their dtype, and its rows.  The row labels
    (the index) are left out, no helper reads them. *)
Record DataFrame : Type := mkDF {
  columns : list (pystr * dtype);
  rows : list record
}.

Record Series : Type := mkSeries {
  s_dtype : dtype;
  s_values : list cell
}.

(** [df.empty]: one of the two axes has length zero. *)
Definition df_empty (df : DataFrame) : bool :=
  match columns df, rows df with
  | [], _ => true
  | _, [] => true
  | _, _ => false
  end.

Fixpoint col_dtype (cols : list (pystr * dtype)) (c : pystr) : option dtype :=
  match cols with
  | [] => None
  | (k, d) :: r => if str_eqb k c then Some d else col_dtype r c
  end.

Definition has_column (df : DataFrame) (c : pystr) : bool :=
  match col_dtype (columns df) c with
  | Some _ => true
  | None => false
  end.

(** [df[c]] for a column name: [KeyError] when the frame has no such
    column. *)
Definition getitem (df : DataFrame) (c : pystr) : result Series :=
  match col_dtype (columns df) c with
  | Some d => Return (mkSeries d (map (fun r => cell_at r c) (rows df)))
  | None => Raise KeyError
  end.

(** [s.tolist()]. *)
Definition tolist (s : Series) : list cell := s_values s.

(** ** Building a frame from records: [pd.DataFrame(data)] *)

Definition is_num (v : cell) : bool :=
  match v with CNum _ => true | _ => false end.
Definition is_bool (v : cell) : bool :=
  match v with CBool _ => true | _ => false end.
Definition is_str (v : cell) : bool :=
  match v with CStr _ => true | _ => false end.

(** The dtype pandas infers for a column of Python objects: numbers, with
    or without missing values, make a numeric column; booleans alone make a
    boolean one; anything else stays a column of objects. *)
Definition infer_column_dtype (vals : list cell) : dtype :=
  if forallb (fun v => is_num v || isna v) vals
     && existsb (fun v => is_num v || match v with CNaN => true | _ => false end) vals
  then DNumeric
  else if forallb is_bool vals && negb (match vals with [] => true | _ => false end)
  then DBool
  else DObject.

(** In a numeric column [None] becomes NaN. *)
Definition convert_cell (d : dtype) (v : cell) : cell :=
  match d, v with
  | DNumeric, CNone => CNaN
  | _, _ => v
  end.

Fixpoint add_keys (seen : list pystr) (r : record) : list pystr :=
  match r with
  | [] => seen
  | (k, _) :: r' =>
    if existsb (str_eqb k) seen then add_keys seen r'
    else add_keys (seen ++ [k]) r'
  end.

(** The column names: the keys of the records in order of first
    appearance. *)
Definition record_keys (data : list record) : list pystr :=
  fold_left add_keys data [].

Definition DataFrame_of_records (data : list record) : DataFrame :=
  let names := record_keys data in
  let cols :=
    map (fun c => (c, infer_column_dtype (map (fun r => cell_at r c) data)))
        names in
  mkDF cols
       (map (fun r => map (fun cd => (fst cd, convert_cell (snd cd) (cell_at r (fst cd))))
                          cols)
            data).

(** [df.to_dict('records')]. *)
Definition to_dict_records (df : DataFrame) : list record :=
  map (fun r => map (fun cd => (fst cd, cell_at r (fst cd))) (columns df))
      (rows df).

(** ** Boolean indexing and the [.str] accessor *)

(** [df[mask]]: the rows whose entry in the mask is [True]. *)
Fixpoint select_rows (rs : list record) (mask : list bool) : list record :=
  match rs, mask with
  | r :: rs', b :: mask' =>
    if b then r :: select_rows rs' mask' else select_rows rs' mask'
  | _, _ => []
  end.

Definition boolean_index (df : DataFrame) (mask : list bool) : DataFrame :=
  mkDF (columns df) (select_rows (rows df) mask).

(** The type [lib.infer_dtype(values, skipna=True)] reports is one the
    [.str] accessor allows: no value left after dropping the missing ones
    (["empty"]), or values that are neither all numbers nor all booleans
    (["string"], ["mixed"], ["mixed-integer"]). *)
Definition str_values_allowed (vals : list cell) : bool :=
  match filter (fun v => negb (isna v)) vals with
  | [] => true
  | nn => negb (forallb is_num nn) && negb (forallb is_bool nn)
  end.

(** [s.str]: [AttributeError] unless the series holds objects of an allowed
    inferred type. *)
Definition str_accessor (s : Series) : result (list cell) :=
  match s_dtype s with
  | DObject =>
    if str_values_allowed (s_values s) then Return (s_values s)
    else Raise AttributeError
  | _ => Raise AttributeError
  end.

(** [s.str.lower()]: strings are lowered, every other value gives NaN. *)
Definition str_lower (vals : list cell) : list cell :=
  map (fun v => match v with
                | CStr s => CStr (lower s)
                | _ => CNaN
                end) vals.

(** [values != text], element by element; a value that is not a string
    differs from the text. *)
Definition ne_text (vals : list cell) (text : pystr) : list bool :=
  map (fun v => match v with
                | CStr s => negb (str_eqb s text)
                | _ => true
                end) vals.

(** ** [pd.unique] and [Series.map] *)

(** [pd.unique(values)]: first occurrences, in order. *)
Fixpoint unique_acc (seen : list cell) (vals : list cell) : list cell :=
  match vals with
  | [] => []
  | v :: r =>
    if existsb (cell_eqb v) seen then unique_acc seen r
    else v :: unique_acc (v :: seen) r
  end.

Definition unique (vals : list cell) : list cell := unique_acc [] vals.

Fixpoint index_from (n : nat) (labels : list cell) (v : cell) : option nat :=
  match labels with
  | [] => None
  | l :: r => if cell_eqb l v then Some n else index_from (S n) r v
  end.

(** [s.map(label_map)] for [label_map = {label: i for i, label in
    enumerate(labels)}]: the position of each value among the labels, NaN
    ([None] here) for a value that is not a key. *)
Definition map_labels (labels : list cell) (vals : list cell)
  : list (option nat) :=
  map (index_from 0 labels) vals.

(** ** [melt] and [pivot] *)

(** One row of the melted frame: the identifier, the trait name, and the
    value the trait column held. *)
Record melted_row : Type := mkMelted {
  m_id : cell;
  m_var : pystr;
  m_value : cell
}.

(** [df.melt(id_vars=[id_var], value_vars=value_vars, var_name=...,
    value_name=value_name)], as pandas 2 does it: [ValueError] when the
    frame already has a column called [value_name], [KeyError] when one of
    the named columns is absent; the rows come trait by trait. *)
Definition melt (df : DataFrame) (id_var : pystr) (value_vars : list pystr)
  (value_name : pystr) : result (list melted_row) :=
  if has_column df value_name then Raise ValueError
  else if negb (forallb (has_column df) (id_var :: value_vars))
  then Raise KeyError
  else Return (flat_map (fun v => map (fun r => mkMelted (cell_at r id_var) v
                                               (cell_at r v)) (rows df))
                        value_vars).

(** The order in which pandas sorts the labels of an axis: numbers by
    value, then strings by code points, then missing values. *)
Fixpoint str_leb (s t : pystr) : bool :=
  match s, t with
  | [], _ => true
  | _ :: _, [] => false
  | a :: s', b :: t' => (a <? b) || ((a =? b) && str_leb s' t')
  end.

Definition cell_leb (a b : cell) : bool :=
  match cell_key a, cell_key b with
  | CNum x, CNum y => x <=? y
  | CNum _, _ => true
  | CStr _, CNum _ => false
  | CStr s, CStr t => str_leb s t
  | CStr _, _ => true
  | _, CNum _ => false
  | _, CStr _ => false
  | _, _ => true
  end.

Section Sorting.
Variable A : Type.
Variable leb : A -> A -> bool.

Fixpoint insert_sorted (x : A) (l : list A) : list A :=
  match l with
  | [] => [x]
  | y :: r => if leb x y then x :: l else y :: insert_sorted x r
  end.

Fixpoint sort (l : list A) : list A :=
  match l with
  | [] => []
  | x :: r => insert_sorted x (sort r)
  end.
End Sorting.

Fixpoint unique_str_acc (seen : list pystr) (vals : list pystr) : list pystr :=
  match vals with
  | [] => []
  | v :: r =>
    if existsb (str_eqb v) seen then unique_str_acc seen r
    else v :: unique_str_acc (v :: seen) r
  end.

Definition same_entry (i : cell) (c : pystr) (m : melted_row * Z) : bool :=
  cell_eqb (m_id (fst m)) i && str_eqb (m_var (fst m)) c.

(** Two rows of the melted frame with the same identifier and trait. *)
Fixpoint has_duplicates (ms : list (melted_row * Z)) : bool :=
  match ms with
  | [] => false
  | m :: r =>
    existsb (same_entry (m_id (fst m)) (m_var (fst m))) r || has_duplicates r
  end.

Definition entry (ms : list (melted_row * Z)) (i : cell) (c : pystr)
  : option Z :=
  match find (same_entry i c) ms with
  | Some m => Some (snd m)
  | None => None
  end.

(** A pivoted frame: row labels, column labels, and the grid of values, NaN
    ([None]) where no row of the input supplies one. *)
Record Pivoted : Type := mkPivoted {
  p_index : list cell;
  p_columns : list pystr;
  p_values : list (list (option Z))
}.

(** [frame.pivot(index=id, columns=var, values=...)]: [ValueError] ("Index
    contains duplicate entries, cannot reshape") when two rows share
    identifier and trait; otherwise one row per identifier and one column
    per trait, both sorted. *)
Definition pivot (ms : list (melted_row * Z)) : result Pivoted :=
  if has_duplicates ms then Raise ValueError
  else
    let idx := sort cell_leb (unique (map (fun m => m_id (fst m)) ms)) in
    let cols := sort str_leb (unique_str_acc [] (map (fun m => m_var (fst m)) ms)) in
    Return (mkPivoted idx cols
              (map (fun i => map (fun c => entry ms i c) cols) idx)).

(** [frame.fillna(0)]. *)
Definition fillna0 (p : Pivoted) : list (list Z) :=
  map (map (fun v => match v with Some z => z | None => 0 end)) (p_values p).

End Pandas.

(* ================================================================= *)
(** * The fragment of networkx used by [create_network] *)

Module Networkx.
Import Py Pandas.

(** A node of [nx.Graph()]: its key, its [type] attribute, and its
    neighbours in the order the edges were added. *)
Record node : Type := mkNode {
  n_key : cell;
  n_type : option pystr;
  n_nbrs : list cell
}.

(** The graph: its nodes in insertion order. *)
Definition Graph : Type := list node.

Definition has_node (G : Graph) (v : cell) : bool :=
  existsb (fun n => cell_eqb (n_key n) v) G.

(** [G.add_node(v, type=t)]: [None] cannot be a node; a node already there
    has its attribute updated. *)
Definition add_node (G : Graph) (v : cell) (t : pystr) : result Graph :=
  if has_node G v then
    Return (map (fun n => if cell_eqb (n_key n) v
                          then mkNode (n_key n) (Some t) (n_nbrs n) else n) G)
  else
    match v with
    | CNone => Raise ValueError
    | _ => Return (G ++ [mkNode v (Some t) []])
    end.

Definition add_nbr (G : Graph) (u v : cell) : Graph :=
  map (fun n => if cell_eqb (n_key n) u
                then mkNode (n_key n) (n_type n)
                       (if existsb (cell_eqb v) (n_nbrs n) then n_nbrs n
                        else n_nbrs n ++ [v])
                else n) G.

Definition ensure_node (G : Graph) (v : cell) : result Graph :=
  if has_node G v then Return G
  else match v with
       | CNone => Raise ValueError
       | _ => Return (G ++ [mkNode v None []])
       end.

(** [G.add_edge(u, v)]: both ends are added when missing, and each becomes
    a neighbour of the other; an edge already there is not repeated. *)
Definition add_edge (G : Graph) (u v : cell) : result Graph :=
  G1 <- ensure_node G u ;;
  G2 <- ensure_node G1 v ;;
  Return (add_nbr (add_nbr G2 u v) v u).

(** [G.edges()]: every node in turn with those of its neighbours that have
    not been visited yet. *)
Fixpoint edges_from (G : Graph) (seen : list cell) : list (cell * cell) :=
  match G with
  | [] => []
  | n :: r =>
    map (fun v => (n_key n, v))
        (filter (fun v => negb (existsb (cell_eqb v) seen)) (n_nbrs n))
      ++ edges_from r (n_key n :: seen)
  end.

Definition edges (G : Graph) : list (cell * cell) := edges_from G [].

Definition nodes (G : Graph) : list cell := map n_key G.

(** The repulsion parameter [k] handed to the layout: [0.3 / n] or [0.3]. *)
Inductive repulsion : Type :=
| KOver (n : nat)
| KDefault.

End Networkx.

(* ================================================================= *)
(** * What the upload component hands to a callback *)

Module Upload.
Import Py.

Definition b64_char (v : Z) : Z :=
  if v <? 26 then 65 + v
  else if v <? 52 then 71 + v
  else if v <? 62 then v - 4
  else if v =? 62 then 43
  else 47.

(** Base64 with padding, the encoding of a [data:] URL. *)
Fixpoint b64encode (bs : bytes) : pystr :=
  match bs with
  | [] => []
  | [b0] =>
    [b64_char (Z.shiftr b0 2); b64_char (Z.shiftl (Z.land b0 3) 4); 61; 61]
  | [b0; b1] =>
    [b64_char (Z.shiftr b0 2);
     b64_char (Z.lor (Z.shiftl (Z.land b0 3) 4) (Z.shiftr b1 4));
     b64_char (Z.shiftl (Z.land b1 15) 2); 61]
  | b0 :: b1 :: b2 :: r =>
    b64_char (Z.shiftr b0 2)
    :: b64_char (Z.lor (Z.shiftl (Z.land b0 3) 4) (Z.shiftr b1 4))
    :: b64_char (Z.lor (Z.shiftl (Z.land b1 15) 2) (Z.shiftr b2 6))
    :: b64_char (Z.land b2 63)
    :: b64encode r
  end.

(** The [contents] property of [dcc.Upload] for a file of the given media
    type and bytes: the file as a [data:] URL. *)
Definition contents_of (mime : pystr) (file : bytes) : pystr :=
  py "data:" ++ mime ++ py ";base64," ++ b64encode file.

(** The bytes of a text file that holds ASCII text, in any of the
    ASCII-compatible encodings the locale may select. *)
Definition written_bytes (text : pystr) : bytes := text.

End Upload.

(* ================================================================= *)
(** * The application: helpers and callbacks of plass_apps29.py *)

Module App.
Import Py Pandas Networkx.

(** The four trait columns the application knows. *)
Definition trait_columns : list pystr :=
  [py "ARGs"; py "Virulence"; py "T4SS"; py "MGEs"].

(** The initial content of the [custom-style] store. *)
Definition default_style : json :=
  JDict [(py "node_color", JStr (py "dodgerblue"));
         (py "edge_color", JStr (py "gray"));
         (py "node_size", JInt 12);
         (py "bg_color", JStr (py "white"));
         (py "font_size", JInt 14)].

Section Application.

(** ** External collaborators *)

(** A coordinate computed by the layout (a float). *)
Variable coord : Type.

(** The state of a numpy random generator, the generator seeded with an
    integer, and the force-directed layout of networkx run with a given
    generator: it returns a position for every node and the generator's
    state afterwards. *)
Variable rng : Type.
Variable RandomState : Z -> rng.
Variable fruchterman_reingold :
  Graph -> repulsion -> rng -> (cell -> coord * coord) * rng.

(** Regular expressions: [re.compile(pat, flags=re.IGNORECASE)], with
    [None] for a pattern that does not compile, and [regex.search]. *)
Variable regex : Type.
Variable re_compile : pystr -> option regex.
Variable re_search : regex -> pystr -> bool.

(** [pd.read_csv] on the text of an upload. *)
Variable read_csv : pystr -> result DataFrame.

(** ** Chart specifications *)

(** The traces the builders create, with the properties that depend on the
    inputs. *)
Inductive Trace : Type :=
| Sankey (label : list cell) (thickness color : json)
         (source target : list (option nat)) (value : list Z)
         (link_color : json)
| ScatterLines (x y : list (option coord)) (line_color : json)
| ScatterMarkers (x y : list coord) (text : list cell) (size color : json)
| Heatmap (y : list cell) (x : list pystr) (z : list (list Z))
          (colorscale : json).

(** The keyword arguments of one [update_layout] call. *)
Record Layout : Type := mkLayout {
  title : pystr;
  font_size : json;
  paper_bgcolor : json;
  dragmode_pan : bool
}.

(** A figure: its traces and its layout; [go.Figure()] has neither. *)
Record Figure : Type := mkFigure {
  fig_data : list Trace;
  fig_layout : option Layout
}.

Definition empty_figure : Figure := mkFigure [] None.

(** plotly validates every property it is given and raises [ValueError] on
    a value it does not accept. *)
Variable valid_trace : Trace -> bool.
Variable valid_layout : Layout -> bool.

Definition new_trace (t : Trace) : result Trace :=
  if valid_trace t then Return t else Raise ValueError.

Definition update_layout (l : Layout) : result Layout :=
  if valid_layout l then Return l else Raise ValueError.

(** ** Helper functions *)

(** [parse_contents(contents)]. *)
Definition parse_contents (contents : pystr) : result DataFrame :=
  ' (content_type, content_string) <- unpack2 (split_on 44 contents) ;;
  decoded <- b64decode content_string ;;
  text <- utf8_decode decoded ;;
  read_csv text.

(** [filter_by_traits(df, traits)]: one pass per trait, each keeping the
    rows whose lowered value differs from ['no']. *)
Fixpoint filter_by_traits (df : DataFrame) (traits : list pystr)
  : result DataFrame :=
  match traits with
  | [] => Return df
  | t :: rest =>
    col <- getitem df t ;;
    strs <- str_accessor col ;;
    filter_by_traits (boolean_index df (ne_text (str_lower strs) (py "no")))
                     rest
  end.

(** [create_sankey(df, style)]. *)
Definition create_sankey (df : DataFrame) (style : json) : result Figure :=
  if df_empty df then Return empty_figure
  else
    host <- getitem df (py "Host_Genome") ;;
    plasmid <- getitem df (py "Plasmid_ID") ;;
    environment <- getitem df (py "Environment") ;;
    let labels := unique (tolist host ++ tolist plasmid ++ tolist environment) in
    host' <- getitem df (py "Host_Genome") ;;
    let source := map_labels labels (s_values host') in
    plasmid' <- getitem df (py "Plasmid_ID") ;;
    let target := map_labels labels (s_values plasmid') in
    plasmid'' <- getitem df (py "Plasmid_ID") ;;
    let env_source := map_labels labels (s_values plasmid'') in
    environment' <- getitem df (py "Environment") ;;
    let env_target := map_labels labels (s_values environment') in
    let link_source := source ++ env_source in
    let link_target := target ++ env_target in
    thickness <- subscript style (py "node_size") ;;
    color <- subscript style (py "node_color") ;;
    link_color <- subscript style (py "edge_color") ;;
    trace <- new_trace (Sankey labels thickness color link_source link_target
                          (repeat 1 (List.length link_source)) link_color) ;;
    fs <- subscript style (py "font_size") ;;
    bg <- subscript style (py "bg_color") ;;
    layout <- update_layout
                (mkLayout (py "Flow of Genetic Material via Plasmids") fs bg false) ;;
    Return (mkFigure [trace] (Some layout)).

(** The loop [for _, row in df.iterrows()] of [create_network]. *)
Fixpoint add_rows (df : DataFrame) (rs : list record) (G : Graph)
  : result Graph :=
  match rs with
  | [] => Return G
  | row :: rest =>
    if negb (has_column df (py "Plasmid_ID")) then Raise KeyError
    else
      G1 <- add_node G (cell_at row (py "Plasmid_ID")) (py "plasmid") ;;
      if negb (has_column df (py "Environment")) then Raise KeyError
      else
        G2 <- add_node G1 (cell_at row (py "Environment")) (py "environment") ;;
        G3 <- add_edge G2 (cell_at row (py "Plasmid_ID"))
                          (cell_at row (py "Environment")) ;;
        add_rows df rest G3
  end.

(** [nx.spring_layout(G, seed=seed, k=k)]: with an integer seed the layout
    runs on a generator of its own, without a seed on the generator of the
    process, whose state it advances. *)
Definition spring_layout (G : Graph) (seed : option Z) (k : repulsion)
  (global : rng) : (cell -> coord * coord) * rng :=
  match seed with
  | Some s => (fst (fruchterman_reingold G k (RandomState s)), global)
  | None => fruchterman_reingold G k global
  end.

(** [create_network(df, style)], run in a process whose random generator is
    in state [global]: the figure and the state afterwards. *)
Definition create_network (df : DataFrame) (style : json) (global : rng)
  : result Figure * rng :=
  if df_empty df then (Return empty_figure, global)
  else
    match add_rows df (rows df) [] with
    | Raise e => (Raise e, global)
    | Return G =>
      let n := List.length (nodes G) in
      let (pos, global') :=
        spring_layout G (Some 42) (if (0 <? n)%nat then KOver n else KDefault)
                      global in
      let edge_x :=
        flat_map (fun e => [Some (fst (pos (fst e))); Some (fst (pos (snd e))); None])
                 (edges G) in
      let edge_y :=
        flat_map (fun e => [Some (snd (pos (fst e))); Some (snd (pos (snd e))); None])
                 (edges G) in
      let node_x := map (fun v => fst (pos v)) (nodes G) in
      let node_y := map (fun v => snd (pos v)) (nodes G) in
      let node_text := nodes G in
      (line_color <- subscript style (py "edge_color") ;;
       lines <- new_trace (ScatterLines edge_x edge_y line_color) ;;
       size <- subscript style (py "node_size") ;;
       color <- subscript style (py "node_color") ;;
       markers <- new_trace (ScatterMarkers node_x node_y node_text size color) ;;
       bg <- subscript style (py "bg_color") ;;
       fs <- subscript style (py "font_size") ;;
       layout <- update_layout
                   (mkLayout (py "Network of Shared Plasmids Across Environments")
                             fs bg false) ;;
       layout' <- update_layout
                    (mkLayout (title layout) (font_size layout)
                              (paper_bgcolor layout) true) ;;
       Return (mkFigure [lines; markers] (Some layout')),
       global')
    end.

(** [1 if str(x).lower() != 'no' else 0]. *)
Definition binary (x : cell) : Z :=
  if negb (str_eqb (lower (py_str x)) (py "no")) then 1 else 0.

(** [create_heatmap(df, scale, style)]. *)
Definition create_heatmap (df : DataFrame) (scale : json) (style : json)
  : result Figure :=
  if df_empty df then Return empty_figure
  else
    df_melted <- melt df (py "Plasmid_ID") trait_columns (py "Presence") ;;
    let with_binary := map (fun m => (m, binary (m_value m))) df_melted in
    pivoted <- pivot with_binary ;;
    let heat_df := fillna0 pivoted in
    trace <- new_trace (Heatmap (p_index pivoted) (p_columns pivoted)
                                heat_df scale) ;;
    fs <- subscript style (py "font_size") ;;
    bg <- subscript style (py "bg_color") ;;
    layout <- update_layout
                (mkLayout (py "Presence of Plasmid-Associated Traits") fs bg false) ;;
    Return (mkFigure [trace] (Some layout)).

(** ** Callbacks *)

(** What [update_output] shows under the upload box: a prompt, one of its
    two error messages, or the preview table. *)
Inductive Preview : Type :=
| PleaseUploadCsv
| InvalidFile
| ErrorReadingFile (e : exn)
| DataTable (cols : list pystr) (data : list record).

(** What [render_content] puts into the tab: a prompt, a graph, or nothing
    ([None]). *)
Inductive Content : Type :=
| PleaseUploadDataset
| GraphOf (figure : Figure)
| NoContent.

(** [update_output(contents)]: the preview and the data for the store.
    [if contents:] holds for a string that is not empty. *)
Definition update_output (contents : option pystr)
  : result (Preview * option (list record)) :=
  match contents with
  | Some (c :: cs) =>
    try_except
      (df <- parse_contents (c :: cs) ;;
       if df_empty df || negb (has_column df (py "Plasmid_ID"))
       then Return (InvalidFile, None)
       else Return (DataTable (map fst (columns df)) (to_dict_records df),
                    Some (to_dict_records df)))
      (fun e => Return (ErrorReadingFile e, None))
  | _ => Return (PleaseUploadCsv, None)
  end.

(** [df[df['Environment'].str.contains(pat, case=False, na=False)]]. *)
Definition filter_environment (df : DataFrame) (selected_env : pystr)
  : result DataFrame :=
  col <- getitem df (py "Environment") ;;
  strs <- str_accessor col ;;
  match re_compile (strip selected_env) with
  | None => Raise ReError
  | Some re =>
    Return (boolean_index df
              (map (fun v => match v with
                             | CStr s => re_search re s
                             | _ => false
                             end) strs))
  end.

(** [render_content(tab, style, data, selected_env, sankey_traits,
    network_traits, heatmap_traits, scale)].  [if not data:] holds for
    [None] and for the empty list, [if selected_env:] for a string that is
    not empty; a tab other than the three named ones falls off the end of
    the function. *)
Definition render_content (tab : pystr) (style : json)
  (data : option (list record)) (selected_env : option pystr)
  (sankey_traits network_traits heatmap_traits : list pystr) (scale : json)
  (global : rng) : result Content * rng :=
  match data with
  | None | Some [] => (Return PleaseUploadDataset, global)
  | Some records =>
    let df := DataFrame_of_records records in
    match (match selected_env with
           | Some (c :: cs) => filter_environment df (c :: cs)
           | _ => Return df
           end) with
    | Raise e => (Raise e, global)
    | Return df =>
      if str_eqb tab (py "sankey") then
        (filtered <- filter_by_traits df sankey_traits ;;
         fig <- create_sankey filtered style ;;
         Return (GraphOf fig), global)
      else if str_eqb tab (py "network") then
        match filter_by_traits df network_traits with
        | Raise e => (Raise e, global)
        | Return filtered =>
          let (fig, global') := create_network filtered style global in
          (fig <- fig ;; Return (GraphOf fig), global')
        end
      else if str_eqb tab (py "heatmap") then
        (filtered <- filter_by_traits df heatmap_traits ;;
         fig <- create_heatmap filtered scale style ;;
         Return (GraphOf fig), global)
      else (Return NoContent, global)
    end
  end.

(** [update_style(node_color, edge_color, node_size, bg_color,
    font_size)]. *)
Definition update_style (node_color edge_color node_size bg_color font_size : json)
  : json :=
  JDict [(py "node_color", node_color);
         (py "edge_color", edge_color);
         (py "node_size", node_size);
         (py "bg_color", bg_color);
         (py "font_size", font_size)].

(** [save_style(n, style)]: the text [json.dump] writes to the file that is
    sent for download. *)
Definition save_style (style : json) : pystr := json_dumps style.

(** [load_style(contents, current)], whatever [json.loads] does: the parser
    is an argument, as the interpreter configures it (its recursion limit
    and its limit on the length of integers are settings of the process). *)
Definition load_style_with (loads : pystr -> result json)
  (contents : option pystr) (current : json) : result json :=
  match contents with
  | Some (c :: cs) =>
    ' (content_type, content_string) <- unpack2 (split_on 44 (c :: cs)) ;;
    decoded <- b64decode content_string ;;
    try_except
      (text <- utf8_decode decoded ;; loads text)
      (fun _ => Return current)
  | _ => Return current
  end.

(** [load_style(contents, current)] with the parser of this development. *)
Definition load_style (contents : option pystr) (current : json)
  : result json :=
  load_style_with json_loads contents current.

(** ** Export of the current plot *)

(** The [try] block of [download_plot] before it reads [fig]: the import
    of kaleido and the temporary file with the suffix of the format; it
    gives the name of the file. *)
Variable open_export : pystr -> result pystr.

(** [pio.write_image(fig, name, format=fmt, ...)], and the reading of the
    file by [dcc.send_file(name)]. *)
Variable write_image : Figure -> pystr -> pystr -> result unit.

(** What the [except] clause of [download_plot] can catch: [fig] was never
    assigned (an [UnboundLocalError]), or the export raised. *)
Inductive ExportError : Type :=
| FigUnbound
| ExportRaised (e : exn).

(** What [download_plot] hands to the browser: the image file, or the text
    file [error.txt] holding the message of the exception. *)
Inductive Download : Type :=
| SendFile (path : pystr)
| SendString (e : ExportError).

(** [download_plot(n, tab, fmt, data, scale, style)].  [pd.DataFrame(None)]
    is the frame without rows and columns that [pd.DataFrame([])] is; the
    builders run before the [try]; a tab other than the three named ones
    leaves [fig] unassigned, which shows when [write_image] is called
    with it. *)
Definition download_plot (tab : pystr) (fmt : pystr)
  (data : option (list record)) (scale style : json) (global : rng)
  : result Download * rng :=
  let df := DataFrame_of_records (match data with
                                  | Some records => records
                                  | None => []
                                  end) in
  let (built, global') :=
    if str_eqb tab (py "sankey") then
      (fig <- create_sankey df style ;; Return (Some fig), global)
    else if str_eqb tab (py "network") then
      let (fig, global') := create_network df style global in
      (fig <- fig ;; Return (Some fig), global')
    else if str_eqb tab (py "heatmap") then
      (fig <- create_heatmap df scale style ;; Return (Some fig), global)
    else (Return None, global) in
  (fig <- built ;;
   Return (match open_export fmt with
           | Raise e => SendString (ExportRaised e)
           | Return name =>
             match fig with
             | None => SendString FigUnbound
             | Some fig =>
               match write_image fig name fmt with
               | Return _ => SendFile name
               | Raise e => SendString (ExportRaised e)
               end
             end
           end),
   global').

End Application.

Arguments Sankey {coord}.
Arguments Heatmap {coord}.
Arguments empty_figure {coord}.

(** The [custom-style] store after a callback that outputs to it has run:
    a callback that raises leaves its outputs as they were. *)
Definition store_after (current : json) (outcome : result json) : json :=
  match outcome with
  | Return v => v
  | Raise _ => current
  end.

End App.

(* ================================================================= *)
(** * Notions used to state the properties *)

Module Notions.
Import Py Pandas Networkx Upload App.

(** Checking a decidable property on an interval of integers by running
    through it. *)
Fixpoint all_from (fuel : nat) (z : Z) (P : Z -> bool) : bool :=
  match fuel with
  | O => true
  | S f => P z && all_from f (z + 1) P
  end.

(** A string as a JSON document or a browser delivers it: a sequence of
    code points in which a surrogate pair is one character, so that no high
    surrogate is directly followed by a low one. *)
Fixpoint well_formed (s : pystr) : bool :=
  match s with
  | [] => true
  | c :: r =>
    (0 <=? c) && (c <? 1114112)
    && (negb (is_high_surrogate c)
        || match r with
           | c' :: _ => negb (is_low_surrogate c')
           | [] => true
           end)
    && well_formed r
  end.

(** The values a control of the page can hold: text, an integer, a
    boolean, or nothing. *)
Definition scalar (v : json) : bool :=
  match v with
  | JNull | JBool _ | JInt _ => true
  | JStr s => well_formed s
  | _ => false
  end.

(** The text [json.dumps] writes between the braces of a dict. *)
Fixpoint members (d : list (pystr * json)) : pystr :=
  match d with
  | [] => []
  | [(k, x)] => encode_basestring_ascii k ++ [58; 32] ++ json_dumps x
  | (k, x) :: r =>
    encode_basestring_ascii k ++ [58; 32] ++ json_dumps x ++ [44; 32] ++ members r
  end.

(** The five fields of a style. *)
Definition style_fields : list pystr :=
  [py "node_color"; py "edge_color"; py "node_size"; py "bg_color";
   py "font_size"].

Definition has_field (v : json) (k : pystr) : bool :=
  match subscript v k with
  | Return _ => true
  | Raise _ => false
  end.

(** The keys of a dict are pairwise different. *)
Fixpoint unique_keys (d : list (pystr * json)) : bool :=
  match d with
  | [] => true
  | (k, _) :: r => negb (existsb (fun kv => str_eqb (fst kv) k) r) && unique_keys r
  end.

(** A valid style: a dict with the five fields and no other, the three
    colours text and the two sizes integers. *)
Definition valid_style (v : json) : bool :=
  match v with
  | JDict d =>
    unique_keys d
    && forallb (fun kv => existsb (str_eqb (fst kv)) style_fields) d
    && match subscript v (py "node_color"), subscript v (py "edge_color"),
             subscript v (py "bg_color"), subscript v (py "node_size"),
             subscript v (py "font_size") with
       | Return (JStr a), Return (JStr b), Return (JStr c),
         Return (JInt _), Return (JInt _) =>
         well_formed a && well_formed b && well_formed c
       | _, _, _, _, _ => false
       end
  | _ => false
  end.

(** What may follow a number: anything but a digit, a dot or an exponent
    mark. *)
Definition ends_number (rest : pystr) : bool :=
  match rest with
  | c :: _ => negb (is_digit c) && negb (c =? 46) && negb (c =? 101) && negb (c =? 69)
  | [] => true
  end.

(** What follows a value inside a dict: the remaining members, then the
    closing brace. *)
Fixpoint items_tail (d : list (pystr * json)) (tail : pystr) : pystr :=
  match d with
  | [] => 125 :: tail
  | (k, v) :: r =>
    44 :: 32 :: 34 :: escape_body k ++ 34 :: 58 :: 32 :: json_dumps v
       ++ items_tail r tail
  end.

(** The columns of the presence matrix, in the order [pivot] puts them. *)
Definition matrix_columns : list pystr :=
  [py "ARGs"; py "MGEs"; py "T4SS"; py "Virulence"].

Fixpoint index_str (n : nat) (labels : list pystr) (t : pystr) : option nat :=
  match labels with
  | [] => None
  | l :: r => if str_eqb l t then Some n else index_str (S n) r t
  end.

(** [r[t] = v] on a record. *)
Fixpoint set_cell (r : record) (t : pystr) (v : cell) : record :=
  match r with
  | [] => [(t, v)]
  | (k, x) :: r' =>
    if str_eqb k t then (k, v) :: r' else (k, x) :: set_cell r' t v
  end.

Section Figures.
Variable coord : Type.

(** The presence matrix a figure shows: its row labels, its column labels
    and its grid. *)
Definition matrix_of (fig : Figure coord)
  : option (list cell * list pystr * list (list Z)) :=
  match fig_data fig with
  | [Heatmap y x z _] => Some (y, x, z)
  | _ => None
  end.

(** The cell of the presence matrix for an element and a trait. *)
Definition heat_cell (fig : Figure coord) (id : cell) (t : pystr) : option Z :=
  match matrix_of fig with
  | Some (y, x, z) =>
    match index_from 0 y id, index_str 0 x t with
    | Some i, Some j =>
      match nth_error z i with
      | Some row => nth_error row j
      | None => None
      end
    | _, _ => None
    end
  | None => None
  end.

(** The node labels of a flow diagram, and its links as source, target and
    weight. *)
Definition flow_labels (fig : Figure coord) : option (list cell) :=
  match fig_data fig with
  | [Sankey label _ _ _ _ _ _] => Some label
  | _ => None
  end.

Definition flow_links (fig : Figure coord)
  : option (list (option nat * option nat * Z)) :=
  match fig_data fig with
  | [Sankey _ _ _ source target value _] =>
    Some (combine (combine source target) value)
  | _ => None
  end.

(** What the [try] block of [download_plot] makes of a figure: the file
    written, or the report of the exception that the preparation or the
    export raised. *)
Definition exported (open_export : pystr -> result pystr)
  (write_image : Figure coord -> pystr -> pystr -> result unit)
  (fig : Figure coord) (fmt : pystr) : Download :=
  match open_export fmt with
  | Raise e => SendString (ExportRaised e)
  | Return name =>
    match write_image fig name fmt with
    | Return _ => SendFile name
    | Raise e => SendString (ExportRaised e)
    end
  end.

End Figures.

(** The rows [melt] makes of a frame, and the same rows with their
    presence value. *)
Definition melted_of (df : DataFrame) : list melted_row :=
  flat_map (fun v => map (fun r => mkMelted (cell_at r (py "Plasmid_ID")) v
                                     (cell_at r v)) (rows df))
           trait_columns.

Definition with_binary (ms : list melted_row) : list (melted_row * Z) :=
  map (fun m => (m, binary (m_value m))) ms.

(** A value is a case-insensitive match for the negative marker. *)
Definition matches_no (v : cell) : bool :=
  match v with
  | CStr s => str_eqb (lower s) (py "no")
  | _ => false
  end.

(** A row passes the filter for a set of traits. *)
Definition passes (traits : list pystr) (r : record) : bool :=
  forallb (fun t => negb (matches_no (cell_at r t))) traits.

(** A column the [.str] accessor works on whatever rows are kept: a column
    of objects holding only text and missing values. *)
Definition text_column (df : DataFrame) (t : pystr) : Prop :=
  col_dtype (columns df) t = Some DObject /\
  forall r, In r (rows df) -> is_str (cell_at r t) || isna (cell_at r t) = true.

Definition sextet_ok (v : Z) : bool :=
  match b64_value (b64_char v) with
  | Some w => (w =? v)
  | None => false
  end
  && negb (b64_char v =? 61) && negb (b64_char v =? 44)
  && (0 <=? b64_char v) && (b64_char v <? 128).

(** The bit arithmetic of one group, checked on all pairs of octets. *)
Definition first_ok (b0 b1 : Z) : bool :=
  let v0 := Z.shiftr b0 2 in
  let v1 := Z.lor (Z.shiftl (Z.land b0 3) 4) (Z.shiftr b1 4) in
  (0 <=? v0) && (v0 <? 64) && (0 <=? v1) && (v1 <? 64)
  && (Z.land (Z.lor (Z.shiftl v0 2) (Z.shiftr v1 4)) 255 =? b0)
  && (Z.land v1 15 =? Z.shiftr b1 4).

Definition second_ok (b1 b2 : Z) : bool :=
  let v2 := Z.lor (Z.shiftl (Z.land b1 15) 2) (Z.shiftr b2 6) in
  let v3 := Z.land b2 63 in
  (0 <=? v2) && (v2 <? 64) && (0 <=? v3) && (v3 <? 64)
  && (Z.land (Z.lor (Z.shiftl (Z.shiftr b1 4) 4) (Z.shiftr v2 2)) 255 =? b1)
  && (Z.land v2 3 =? Z.shiftr b2 6)
  && (Z.land (Z.lor (Z.shiftl (Z.shiftr b2 6) 6) v3) 255 =? b2).

Definition hex_digits (n : Z) : pystr :=
  [hexdigit (Z.land (Z.shiftr n 12) 15); hexdigit (Z.land (Z.shiftr n 8) 15);
   hexdigit (Z.land (Z.shiftr n 4) 15); hexdigit (Z.land n 15)].

Definition hex_ok (n : Z) : bool :=
  match hex4 (hex_digits n) with
  | Some (m, []) => m =? n
  | _ => false
  end.

(** What follows a [\uXXXX] escape does not start with the escape of a
    low surrogate. *)
Definition next_ok (rest : pystr) : bool :=
  match strip_prefix [92; 117] rest with
  | Some r2 =>
    match hex4 r2 with
    | Some (u2, _) => negb (is_low_surrogate u2)
    | None => false
    end
  | None => true
  end.

(** The arithmetic of a surrogate, checked on the ten bits it carries. *)
Definition surrogate_ok (h : Z) : bool :=
  (Z.lor 55296 h =? 55296 + h) && (Z.lor 56320 h =? 56320 + h).

(** No two cells of the list are equal. *)
Fixpoint distinct_cells (l : list cell) : bool :=
  match l with
  | [] => true
  | x :: r => negb (existsb (cell_eqb x) r) && distinct_cells r
  end.

(** The element every row names. *)
Definition plasmid_ids (df : DataFrame) : list cell :=
  map (fun r => cell_at r (py "Plasmid_ID")) (rows df).

(** The entries [melt] and the presence value make for one trait. *)
Definition trait_block (t : pystr) (rs : list record)
  : list (melted_row * Z) :=
  map (fun r => (mkMelted (cell_at r (py "Plasmid_ID")) t (cell_at r t),
                 binary (cell_at r t))) rs.

(** The plasmid and the environment of every row, row by row: the order in
    which [create_network] meets the nodes. *)
Definition endpoints (df : DataFrame) : list cell :=
  flat_map (fun r => [cell_at r (py "Plasmid_ID"); cell_at r (py "Environment")])
           (rows df).

(** [v] is among the neighbours of the node [u] of the graph. *)
Definition adjacent (G : Graph) (u v : cell) : bool :=
  existsb (fun n => cell_eqb (n_key n) u && existsb (cell_eqb v) (n_nbrs n)) G.

(** The pair [(a, b)] joins [u] and [v], in one direction or the other. *)
Definition joins (ab : cell * cell) (u v : cell) : bool :=
  (cell_eqb (fst ab) u && cell_eqb (snd ab) v)
  || (cell_eqb (fst ab) v && cell_eqb (snd ab) u).

(** The text [json.dumps] writes between the brackets of a list. *)
Fixpoint elements (l : list json) : pystr :=
  match l with
  | [] => []
  | [x] => json_dumps x
  | x :: r => json_dumps x ++ [44; 32] ++ elements r
  end.

(** What follows a value inside a list: the remaining elements, then the
    closing bracket. *)
Fixpoint elements_tail (l : list json) (tail : pystr) : pystr :=
  match l with
  | [] => 93 :: tail
  | x :: r => 44 :: 32 :: json_dumps x ++ elements_tail r tail
  end.

(** The scanner reads the text of the value back, given fuel for its
    length, and stops where the text ends. *)
Definition reads_back (v : json) : Prop :=
  forall (tail : pystr) (f : nat),
  ends_number tail = true -> (List.length (json_dumps v) <= f)%nat ->
  scan_once f (json_dumps v ++ tail) = Some (v, tail).

(** The values [json.dump] and [json.loads] exchange without loss: [null],
    booleans, integers, well-formed text, lists of such values, and dicts
    of such values under well-formed keys that are pairwise different. *)
Fixpoint plain_json (v : json) : bool :=
  match v with
  | JNull | JBool _ | JInt _ => true
  | JFloat _ => false
  | JStr s => well_formed s
  | JList l => forallb plain_json l
  | JDict d =>
    unique_keys d
    && forallb (fun kv : pystr * json =>
                  let (k, x) := kv in well_formed k && plain_json x) d
  end.

(** The limits the interpreter sets to [json.dump] and [json.loads].
    CPython 3.11 converts no integer of more than 4300 digits to or from
    text, and raises [RecursionError] when the nesting of a value, added
    to the frames already on the stack, passes the recursion limit (1000
    by default; a callback runs a few dozen frames deep in the server).
    [within_limits n v]: every integer of [v] has at most 4300 digits,
    and [v] is nested at most [n] lists and dicts deep. *)
Fixpoint within_limits (levels : nat) (v : json) : bool :=
  match v with
  | JInt z => (List.length (int_repr (Z.abs z)) <=? 4300)%nat
  | JList l =>
    match levels with
    | O => false
    | S n => forallb (within_limits n) l
    end
  | JDict d =>
    match levels with
    | O => false
    | S n => forallb (fun kv : pystr * json =>
                        let (_, x) := kv in within_limits n x) d
    end
  | _ => true
  end.

(** A nesting that stays far inside the recursion limit. *)
Definition nesting_bound : nat := 100.

(** No row of the dataset lacks its identifier. *)
Definition ids_present (df : DataFrame) : Prop :=
  forall r, In r (rows df) -> isna (cell_at r (py "Plasmid_ID")) = false.

(** No row of the dataset lacks its identifier or its environment. *)
Definition endpoints_present (df : DataFrame) : Prop :=
  forall r, In r (rows df) ->
            isna (cell_at r (py "Plasmid_ID")) = false /\
            isna (cell_at r (py "Environment")) = false.

End Notions.


(* ================================================================= *)
(** * Sample inputs *)

Module Samples.
Import Py Pandas Networkx Upload App Notions.

Definition json_mime : pystr := py "application/json".

(** A style whose node colour is a number. *)
Definition malformed_style : json :=
  JDict [(py "node_color", JInt 5);
         (py "edge_color", JStr (py "gray"));
         (py "node_size", JInt 12);
         (py "bg_color", JStr (py "white"));
         (py "font_size", JInt 14)].

(** Two plasmids, the second without resistance genes. *)
Definition row_p1 : record :=
  [(py "Plasmid_ID", CStr (py "P1")); (py "Host_Genome", CStr (py "H1"));
   (py "Environment", CStr (py "Soil")); (py "ARGs", CStr (py "yes"));
   (py "Virulence", CStr (py "no")); (py "T4SS", CStr (py "no"));
   (py "MGEs", CStr (py "no"))].

Definition row_p2 : record :=
  [(py "Plasmid_ID", CStr (py "P2")); (py "Host_Genome", CStr (py "H2"));
   (py "Environment", CStr (py "Water")); (py "ARGs", CStr (py "No"));
   (py "Virulence", CStr (py "yes")); (py "T4SS", CStr (py "no"));
   (py "MGEs", CStr (py "no"))].

Definition text_columns : list (pystr * dtype) :=
  [(py "Plasmid_ID", DObject); (py "Host_Genome", DObject);
   (py "Environment", DObject); (py "ARGs", DObject);
   (py "Virulence", DObject); (py "T4SS", DObject); (py "MGEs", DObject)].

Definition two_plasmids : DataFrame := mkDF text_columns [row_p1; row_p2].

(** A second row for plasmid P1, found in another environment. *)
Definition row_p1_water : record :=
  [(py "Plasmid_ID", CStr (py "P1")); (py "Host_Genome", CStr (py "H3"));
   (py "Environment", CStr (py "Water")); (py "ARGs", CStr (py "yes"));
   (py "Virulence", CStr (py "no")); (py "T4SS", CStr (py "no"));
   (py "MGEs", CStr (py "no"))].

(** A row of a table that has the identifier but no trait column. *)
Definition row_bare : record :=
  [(py "Plasmid_ID", CStr (py "P1")); (py "Host_Genome", CStr (py "H1"));
   (py "Environment", CStr (py "Soil"))].

(** A stand-in for the CSV reader: no text is an error, text starting with
    [e] is a table without rows, any other text is the two plasmids. *)
Definition toy_reader (text : pystr) : result DataFrame :=
  match text with
  | [] => Raise OtherError
  | c :: _ => if c =? 101 then Return (mkDF text_columns [])
              else Return two_plasmids
  end.

Definition csv_mime : pystr := py "text/csv".

Definition one_plasmid : DataFrame := mkDF text_columns [row_p1].

(** A plasmid with every trait marked absent. *)
Definition row_all_no : record :=
  [(py "Plasmid_ID", CStr (py "P3")); (py "Host_Genome", CStr (py "H3"));
   (py "Environment", CStr (py "Gut")); (py "ARGs", CStr (py "no"));
   (py "Virulence", CStr (py "NO")); (py "T4SS", CStr (py "No"));
   (py "MGEs", CStr (py "no"))].

Definition one_absent : DataFrame := mkDF text_columns [row_all_no].

(** A plasmid whose [ARGs] cell was left empty. *)
Definition row_missing : record :=
  [(py "Plasmid_ID", CStr (py "P4")); (py "Host_Genome", CStr (py "H4"));
   (py "Environment", CStr (py "Soil")); (py "ARGs", CNone);
   (py "Virulence", CStr (py "no")); (py "T4SS", CStr (py "yes"));
   (py "MGEs", CStr (py "no"))].

Definition with_missing : DataFrame := mkDF text_columns [row_missing; row_p2].

(** Validators that accept every property. *)
Definition accept_trace (t : Trace Z) : bool := true.
Definition accept_layout (l : Layout) : bool := true.

Definition blues : json := JStr (py "Blues").

(** Stand-ins for the random generator and the layout: the state is a
    counter, and the layout puts every node at the point the counter names
    and advances it. *)
Definition toy_seed (seed : Z) : Z := seed.
Definition toy_spring (G : Graph) (k : repulsion) (state : Z)
  : (cell -> Z * Z) * Z :=
  (fun _ => (state, state), state + 1).

(** Stand-ins for regular expressions: a pattern is its own compiled form,
    a pattern starting with an opening parenthesis does not compile, and a
    search succeeds when the pattern is a prefix of the text. *)
Definition toy_compile (pat : pystr) : option pystr :=
  match pat with
  | 40 :: _ => None
  | _ => Some pat
  end.
Definition toy_search (pat : pystr) (text : pystr) : bool :=
  match strip_prefix pat text with
  | Some _ => true
  | None => false
  end.

(** Stand-ins for the image export: the file is named after the format,
    the format [pdf] cannot be prepared, and the format [svg] cannot be
    written. *)
Definition toy_open (fmt : pystr) : result pystr :=
  if str_eqb fmt (py "pdf") then Raise OtherError
  else Return (py "/tmp/plot." ++ fmt).
Definition toy_export (fig : Figure Z) (name fmt : pystr) : result unit :=
  if str_eqb fmt (py "svg") then Raise ValueError else Return tt.

(** A plasmid whose environment was left empty. *)
Definition row_nowhere : record :=
  [(py "Plasmid_ID", CStr (py "P5")); (py "Host_Genome", CStr (py "H5"));
   (py "Environment", CNone); (py "ARGs", CStr (py "yes"));
   (py "Virulence", CStr (py "no")); (py "T4SS", CStr (py "no"));
   (py "MGEs", CStr (py "no"))].

(** The figures the builders return on the samples. *)
Definition figure_or_empty (r : result (Figure Z)) : Figure Z :=
  match r with
  | Return fig => fig
  | Raise _ => empty_figure
  end.

End Samples.

(* ================================================================= *)
(** * Facts about the library models *)

Module PyFacts.
Import Py Notions.

Lemma str_eqb_eq (s t : pystr) : str_eqb s t = true <-> s = t.
Proof.
  unfold str_eqb. destruct (list_eq_dec Z.eq_dec s t); split; congruence.
Qed.

Lemma str_eqb_refl (s : pystr) : str_eqb s s = true.
Proof. apply str_eqb_eq. reflexivity. Qed.

Lemma str_eqb_neq (s t : pystr) : str_eqb s t = false <-> s <> t.
Proof.
  unfold str_eqb. destruct (list_eq_dec Z.eq_dec s t); split; congruence.
Qed.

Lemma bind_Return {A B : Type} (r : result A) (k : A -> result B) (b : B) :
  bind r k = Return b -> exists a, r = Return a /\ k a = Return b.
Proof.
  destruct r as [a|e]; simpl; intros H; [exists a; auto | discriminate].
Qed.

Lemma all_from_spec (P : Z -> bool) (fuel : nat) :
  forall z, all_from fuel z P = true ->
  forall v, z <= v < z + Z.of_nat fuel -> P v = true.
Proof.
  induction fuel as [|f IH]; intros z H v Hv.
  - simpl in Hv. lia.
  - simpl in H. apply andb_true_iff in H. destruct H as [Hz Hr].
    destruct (Z.eq_dec v z) as [->|Hne]; [exact Hz|].
    apply (IH (z + 1) Hr). lia.
Qed.

(** Case analysis on a character by its bits, up to seven of them. *)
Ltac by_bits c tac :=
  let q := fresh "q" in
  destruct c as [|q|q]; try tac;
  do 7 (try (destruct q as [q|q|]; try tac)).

End PyFacts.

Module Base64Facts.
Import Py Upload Notions PyFacts.

Lemma sextet_ok_all : all_from 64 0 sextet_ok = true.
Proof. vm_compute. reflexivity. Qed.

Lemma sextet_facts (v : Z) :
  0 <= v < 64 ->
  b64_value (b64_char v) = Some v /\ b64_char v <> 61 /\ b64_char v <> 44 /\
  0 <= b64_char v < 128.
Proof.
  intros Hv. pose proof (@all_from_spec sextet_ok 64 0 sextet_ok_all v) as H.
  specialize (H ltac:(simpl; lia)). unfold sextet_ok in H.
  repeat (apply andb_true_iff in H; destruct H as [H ?]).
  destruct (b64_value (b64_char v)) as [w|]; [|discriminate].
  apply Z.eqb_eq in H. subst w.
  repeat match goal with
         | h : negb _ = true |- _ => apply negb_true_iff in h; apply Z.eqb_neq in h
         end.
  repeat split; auto; lia.
Qed.

(** One alphabet character read by the decoding loop. *)
Lemma a2b_char (v : Z) (rest : list Z) (q l p : Z) (out : list Z) :
  0 <= v < 64 ->
  a2b_loop (b64_char v :: rest) q l p out =
  if q =? 0 then a2b_loop rest 1 v 0 out
  else if q =? 1 then
    a2b_loop rest 2 (Z.land v 15) 0
      (Z.land (Z.lor (Z.shiftl l 2) (Z.shiftr v 4)) 255 :: out)
  else if q =? 2 then
    a2b_loop rest 3 (Z.land v 3) 0
      (Z.land (Z.lor (Z.shiftl l 4) (Z.shiftr v 2)) 255 :: out)
  else
    a2b_loop rest 0 0 0 (Z.land (Z.lor (Z.shiftl l 6) v) 255 :: out).
Proof.
  intros Hv. destruct (sextet_facts Hv) as [Hval [Hpad _]].
  cbn [a2b_loop]. apply Z.eqb_neq in Hpad. rewrite Hpad, Hval. reflexivity.
Qed.

Lemma first_ok_all :
  all_from 256 0 (fun b0 => all_from 256 0 (first_ok b0)) = true.
Proof. vm_compute. reflexivity. Qed.

Lemma second_ok_all :
  all_from 256 0 (fun b1 => all_from 256 0 (second_ok b1)) = true.
Proof. vm_compute. reflexivity. Qed.

Lemma first_facts (b0 b1 : Z) :
  is_byte b0 -> is_byte b1 ->
  let v0 := Z.shiftr b0 2 in
  let v1 := Z.lor (Z.shiftl (Z.land b0 3) 4) (Z.shiftr b1 4) in
  0 <= v0 < 64 /\ 0 <= v1 < 64 /\
  Z.land (Z.lor (Z.shiftl v0 2) (Z.shiftr v1 4)) 255 = b0 /\
  Z.land v1 15 = Z.shiftr b1 4.
Proof.
  unfold is_byte. intros H0 H1.
  pose proof (@all_from_spec _ 256 0 first_ok_all b0 ltac:(simpl; lia)) as H.
  pose proof (@all_from_spec _ 256 0 H b1 ltac:(simpl; lia)) as H'.
  unfold first_ok in H'. cbv zeta in *.
  repeat (apply andb_true_iff in H'; destruct H' as [H' ?]).
  repeat match goal with
         | h : (_ =? _) = true |- _ => apply Z.eqb_eq in h
         | h : (_ <=? _) = true |- _ => apply Z.leb_le in h
         | h : (_ <? _) = true |- _ => apply Z.ltb_lt in h
         end.
  repeat split; auto.
Qed.

Lemma second_facts (b1 b2 : Z) :
  is_byte b1 -> is_byte b2 ->
  let v2 := Z.lor (Z.shiftl (Z.land b1 15) 2) (Z.shiftr b2 6) in
  let v3 := Z.land b2 63 in
  0 <= v2 < 64 /\ 0 <= v3 < 64 /\
  Z.land (Z.lor (Z.shiftl (Z.shiftr b1 4) 4) (Z.shiftr v2 2)) 255 = b1 /\
  Z.land v2 3 = Z.shiftr b2 6 /\
  Z.land (Z.lor (Z.shiftl (Z.shiftr b2 6) 6) v3) 255 = b2.
Proof.
  unfold is_byte. intros H1 H2.
  pose proof (@all_from_spec _ 256 0 second_ok_all b1 ltac:(simpl; lia)) as H.
  pose proof (@all_from_spec _ 256 0 H b2 ltac:(simpl; lia)) as H'.
  unfold second_ok in H'. cbv zeta in *.
  repeat (apply andb_true_iff in H'; destruct H' as [H' ?]).
  repeat match goal with
         | h : (_ =? _) = true |- _ => apply Z.eqb_eq in h
         | h : (_ <=? _) = true |- _ => apply Z.leb_le in h
         | h : (_ <? _) = true |- _ => apply Z.ltb_lt in h
         end.
  repeat split; auto.
Qed.

Lemma byte0 : is_byte 0.
Proof. unfold is_byte. lia. Qed.

(** Decoding a full group of four characters gives back the three octets. *)
Lemma a2b_group (b0 b1 b2 : Z) (rest out : list Z) :
  is_byte b0 -> is_byte b1 -> is_byte b2 ->
  a2b_loop (b64_char (Z.shiftr b0 2)
            :: b64_char (Z.lor (Z.shiftl (Z.land b0 3) 4) (Z.shiftr b1 4))
            :: b64_char (Z.lor (Z.shiftl (Z.land b1 15) 2) (Z.shiftr b2 6))
            :: b64_char (Z.land b2 63) :: rest) 0 0 0 out
  = a2b_loop rest 0 0 0 (b2 :: b1 :: b0 :: out).
Proof.
  intros H0 H1 H2.
  destruct (first_facts H0 H1) as [R0 [R1 [E0 L1]]].
  destruct (second_facts H1 H2) as [R2 [R3 [E1 [L2 E2]]]].
  rewrite (a2b_char _ _ _ _ _ R0). cbn [Z.eqb].
  rewrite (a2b_char _ _ _ _ _ R1). cbn [Z.eqb Pos.eqb]. rewrite E0, L1.
  rewrite (a2b_char _ _ _ _ _ R2). cbn [Z.eqb Pos.eqb]. rewrite E1, L2.
  rewrite (a2b_char _ _ _ _ _ R3). cbn [Z.eqb Pos.eqb]. rewrite E2.
  reflexivity.
Qed.

Lemma a2b_tail1 (b0 : Z) (out : list Z) :
  is_byte b0 ->
  a2b_loop [b64_char (Z.shiftr b0 2); b64_char (Z.shiftl (Z.land b0 3) 4); 61; 61]
           0 0 0 out
  = Return (rev (b0 :: out)).
Proof.
  intros H0.
  destruct (first_facts H0 byte0) as [R0 [R1 [E0 L1]]].
  change (Z.shiftr 0 4) with 0 in *. rewrite Z.lor_0_r in *.
  rewrite (a2b_char _ _ _ _ _ R0). cbn [Z.eqb].
  rewrite (a2b_char _ _ _ _ _ R1). cbn [Z.eqb Pos.eqb].
  replace (Z.shiftr (Z.shiftl (Z.land b0 3) 4) 4)
    with (Z.shiftr (Z.shiftl (Z.land b0 3) 4) 4) by reflexivity.
  rewrite E0. reflexivity.
Qed.

Lemma a2b_tail2 (b0 b1 : Z) (out : list Z) :
  is_byte b0 -> is_byte b1 ->
  a2b_loop [b64_char (Z.shiftr b0 2);
            b64_char (Z.lor (Z.shiftl (Z.land b0 3) 4) (Z.shiftr b1 4));
            b64_char (Z.shiftl (Z.land b1 15) 2); 61] 0 0 0 out
  = Return (rev (b1 :: b0 :: out)).
Proof.
  intros H0 H1.
  destruct (first_facts H0 H1) as [R0 [R1 [E0 L1]]].
  destruct (second_facts H1 byte0) as [R2 [_ [E1 _]]].
  change (Z.shiftr 0 6) with 0 in *. rewrite Z.lor_0_r in *.
  rewrite (a2b_char _ _ _ _ _ R0). cbn [Z.eqb].
  rewrite (a2b_char _ _ _ _ _ R1). cbn [Z.eqb Pos.eqb]. rewrite E0, L1.
  rewrite (a2b_char _ _ _ _ _ R2). cbn [Z.eqb Pos.eqb]. rewrite E1.
  reflexivity.
Qed.

(** Induction on a list three elements at a time. *)
Lemma list_ind3 {A : Type} (P : list A -> Prop) :
  P [] -> (forall a, P [a]) -> (forall a b, P [a; b]) ->
  (forall a b c l, P l -> P (a :: b :: c :: l)) ->
  forall l, P l.
Proof.
  intros H0 H1 H2 H3.
  assert (H : forall l, P l /\ (forall a, P (a :: l)) /\ (forall a b, P (a :: b :: l))).
  { induction l as [|x l [IH0 [IH1 IH2]]].
    - auto.
    - repeat split; auto. }
  intros l. apply H.
Qed.

Lemma a2b_encode (bs : bytes) :
  Forall is_byte bs ->
  forall out, a2b_loop (b64encode bs) 0 0 0 out = Return (rev out ++ bs).
Proof.
  induction bs as [|b0|b0 b1|b0 b1 b2 r IH] using list_ind3; intros Hb out.
  - simpl. rewrite app_nil_r. reflexivity.
  - inversion Hb; subst. cbn [b64encode]. rewrite a2b_tail1 by assumption.
    reflexivity.
  - inversion Hb as [|? ? ? Hr]; subst. inversion Hr; subst.
    cbn [b64encode]. rewrite a2b_tail2 by assumption.
    simpl. rewrite <- !app_assoc. reflexivity.
  - inversion Hb as [|? ? ? Hr]; subst. inversion Hr as [|? ? ? Hr']; subst.
    inversion Hr'; subst.
    cbn [b64encode]. rewrite a2b_group by assumption.
    rewrite IH by assumption. simpl. rewrite <- !app_assoc. reflexivity.
Qed.

Lemma b64encode_chars (bs : bytes) :
  Forall is_byte bs ->
  Forall (fun c => 0 <= c < 128 /\ c <> 44) (b64encode bs).
Proof.
  induction bs as [|b0|b0 b1|b0 b1 b2 r IH] using list_ind3; intros Hb.
  - constructor.
  - inversion Hb; subst.
    destruct (first_facts H1 byte0) as [R0 [R1 _]].
    change (Z.shiftr 0 4) with 0 in *. rewrite Z.lor_0_r in *.
    cbn [b64encode].
    repeat constructor; try lia;
      try (apply (sextet_facts R0)); try (apply (sextet_facts R1)).
  - inversion Hb as [|? ? Hb0 Hr]; subst. inversion Hr as [|? ? Hb1 ?]; subst.
    destruct (first_facts Hb0 Hb1) as [R0 [R1 _]].
    destruct (second_facts Hb1 byte0) as [R2 _].
    change (Z.shiftr 0 6) with 0 in *. rewrite Z.lor_0_r in *.
    cbn [b64encode].
    repeat constructor; try lia;
      try (apply (sextet_facts R0)); try (apply (sextet_facts R1));
      try (apply (sextet_facts R2)).
  - inversion Hb as [|? ? Hb0 Hr]; subst. inversion Hr as [|? ? Hb1 Hr']; subst.
    inversion Hr' as [|? ? Hb2 Hr'']; subst.
    destruct (first_facts Hb0 Hb1) as [R0 [R1 _]].
    destruct (second_facts Hb1 Hb2) as [R2 [R3 _]].
    cbn [b64encode].
    repeat (constructor; [split; [apply sextet_facts; assumption
                                 |apply sextet_facts; assumption]|]).
    apply IH. assumption.
Qed.

(** [b64decode] undoes the encoding of the upload. *)
Lemma b64decode_encode (bs : bytes) :
  Forall is_byte bs -> b64decode (b64encode bs) = Return bs.
Proof.
  intros Hb. unfold b64decode.
  replace (forallb _ (b64encode bs)) with true.
  - rewrite a2b_encode by assumption. reflexivity.
  - symmetry. apply forallb_forall. intros c Hc.
    pose proof (b64encode_chars Hb) as H. rewrite Forall_forall in H.
    specialize (H c Hc). apply andb_true_iff. split; [apply Z.leb_le|apply Z.ltb_lt]; lia.
Qed.

Lemma split_on_none (sep : Z) (s : pystr) :
  ~ In sep s -> split_on sep s = [s].
Proof.
  induction s as [|c r IH]; intros H; simpl; [reflexivity|].
  destruct (Z.eqb_spec c sep) as [->|Hne].
  - exfalso. apply H. left. reflexivity.
  - rewrite IH; [reflexivity|]. intros Hin. apply H. right. exact Hin.
Qed.

Lemma split_on_app (sep : Z) (a b : pystr) :
  ~ In sep a -> split_on sep (a ++ sep :: b) = a :: split_on sep b.
Proof.
  induction a as [|c r IH]; intros H; simpl.
  - rewrite Z.eqb_refl. reflexivity.
  - destruct (Z.eqb_spec c sep) as [->|Hne].
    + exfalso. apply H. left. reflexivity.
    + rewrite IH; [reflexivity|]. intros Hin. apply H. right. exact Hin.
Qed.

(** The two parts [contents.split(',')] finds in the contents of an
    upload. *)
Lemma split_contents (mime : pystr) (file : bytes) :
  ~ In 44 mime -> Forall is_byte file ->
  unpack2 (split_on 44 (contents_of mime file))
  = Return (py "data:" ++ mime ++ py ";base64", b64encode file).
Proof.
  intros Hm Hf. unfold contents_of.
  replace (py "data:" ++ mime ++ py ";base64," ++ b64encode file)
    with ((py "data:" ++ mime ++ py ";base64") ++ 44 :: b64encode file).
  2:{ rewrite <- !app_assoc. reflexivity. }
  rewrite split_on_app.
  - rewrite split_on_none; [reflexivity|].
    intros Hin. pose proof (b64encode_chars Hf) as H.
    rewrite Forall_forall in H. apply H in Hin. lia.
  - intros Hin. apply in_app_or in Hin. destruct Hin as [Hin|Hin].
    + simpl in Hin. intuition discriminate.
    + apply in_app_or in Hin. destruct Hin as [Hin|Hin]; [contradiction|].
      simpl in Hin. intuition discriminate.
Qed.

End Base64Facts.

Module JsonFacts.
Import Py Upload App Notions PyFacts.

(** ** Decoding UTF-8 *)

Lemma utf8_decode_ascii (bs : bytes) :
  Forall is_ascii bs -> utf8_decode bs = Return bs.
Proof.
  induction 1 as [|b r Hb Hr IH]; [reflexivity|].
  unfold is_ascii in Hb. cbn [utf8_decode].
  replace ((0 <=? b) && (b <? 128)) with true.
  - rewrite IH. reflexivity.
  - symmetry. apply andb_true_iff. split; [apply Z.leb_le|apply Z.ltb_lt]; lia.
Qed.

(** ** Hexadecimal escapes *)

Lemma hex_ok_all : all_from (Z.to_nat 65536) 0 hex_ok = true.
Proof. vm_compute. reflexivity. Qed.

Lemma hex4_rest (a b c d : Z) (r : pystr) :
  hex4 (a :: b :: c :: d :: r)
  = match hex4 [a; b; c; d] with
    | Some (m, _) => Some (m, r)
    | None => None
    end.
Proof.
  unfold hex4.
  destruct (hexval a), (hexval b), (hexval c), (hexval d); reflexivity.
Qed.

Lemma hex4_digits (n : Z) (r : pystr) :
  0 <= n < 65536 -> hex4 (hex_digits n ++ r) = Some (n, r).
Proof.
  intros Hn.
  pose proof (@all_from_spec hex_ok _ 0 hex_ok_all n) as H.
  specialize (H ltac:(rewrite Z2Nat.id; lia)).
  unfold hex_ok in H. unfold hex_digits in *. cbn [app].
  rewrite hex4_rest.
  destruct (hex4 _) as [[m l]|]; [|discriminate].
  destruct l; [|discriminate]. apply Z.eqb_eq in H. subst. reflexivity.
Qed.

Lemma u_escape_eq (n : Z) : u_escape n = 92 :: 117 :: hex_digits n.
Proof. reflexivity. Qed.

(** ** Surrogate pairs *)

Lemma surrogate_ok_all : all_from 1024 0 surrogate_ok = true.
Proof. vm_compute. reflexivity. Qed.

Lemma surrogate_add (h : Z) :
  0 <= h < 1024 -> Z.lor 55296 h = 55296 + h /\ Z.lor 56320 h = 56320 + h.
Proof.
  intros Hh.
  pose proof (@all_from_spec surrogate_ok 1024 0 surrogate_ok_all h) as H.
  specialize (H ltac:(simpl; lia)). unfold surrogate_ok in H.
  apply andb_true_iff in H. destruct H as [H1 H2].
  apply Z.eqb_eq in H1, H2. auto.
Qed.

Lemma testbit_small (n k m : Z) :
  0 <= n < 2 ^ m -> m <= k -> Z.testbit n k = false.
Proof.
  intros Hn Hk. destruct (Z.eq_dec n 0) as [->|Hz]; [apply Z.bits_0|].
  apply Z.bits_above_log2; [lia|].
  assert (H : Z.log2 n < m) by (apply Z.log2_lt_pow2; lia). lia.
Qed.

Lemma ten_bits (n : Z) : 0 <= Z.land n 1023 < 1024.
Proof.
  change 1023 with (Z.ones 10). rewrite Z.land_ones by lia.
  change (2 ^ 10) with 1024. apply Z.mod_pos_bound. lia.
Qed.

(** The two halves of a number of twenty bits put together again. *)
Lemma halves_join (n : Z) :
  0 <= n < 1048576 ->
  Z.lor (Z.shiftl (Z.land (Z.shiftr n 10) 1023) 10) (Z.land n 1023) = n.
Proof.
  intros Hn. change 1023 with (Z.ones 10).
  apply Z.bits_inj'. intros k Hk.
  rewrite Z.lor_spec, Z.land_spec.
  destruct (Z.ltb_spec k 10) as [Hlt|Hge].
  - rewrite Z.shiftl_spec_low by lia.
    rewrite Z.ones_spec_low by lia. rewrite andb_true_r. reflexivity.
  - rewrite Z.shiftl_spec by lia. rewrite Z.land_spec.
    rewrite Z.shiftr_spec by lia.
    replace (k - 10 + 10) with k by lia.
    rewrite (Z.ones_spec_high 10 k) by lia. rewrite andb_false_r, orb_false_r.
    destruct (Z.ltb_spec k 20) as [Hlt|Hge2].
    + rewrite Z.ones_spec_low by lia. apply andb_true_r.
    + rewrite Z.ones_spec_high by lia. rewrite andb_false_r.
      symmetry. apply (@testbit_small n k 20); [change (2 ^ 20) with 1048576|]; lia.
Qed.

Lemma pair_facts (c : Z) :
  65536 <= c < 1114112 ->
  let s1 := Z.lor 55296 (Z.land (Z.shiftr (c - 65536) 10) 1023) in
  let s2 := Z.lor 56320 (Z.land (c - 65536) 1023) in
  0 <= s1 < 65536 /\ 0 <= s2 < 65536 /\
  is_high_surrogate s1 = true /\ is_low_surrogate s2 = true /\
  65536 + Z.lor (Z.shiftl (s1 - 55296) 10) (s2 - 56320) = c.
Proof.
  intros Hc s1 s2.
  pose proof (ten_bits (Z.shiftr (c - 65536) 10)) as Hh.
  pose proof (ten_bits (c - 65536)) as Hl.
  destruct (surrogate_add Hh) as [E1 _].
  destruct (surrogate_add Hl) as [_ E2].
  subst s1 s2. rewrite E1, E2.
  replace (55296 + Z.land (Z.shiftr (c - 65536) 10) 1023 - 55296)
    with (Z.land (Z.shiftr (c - 65536) 10) 1023) by lia.
  replace (56320 + Z.land (c - 65536) 1023 - 56320)
    with (Z.land (c - 65536) 1023) by lia.
  rewrite halves_join by lia.
  unfold is_high_surrogate, is_low_surrogate.
  repeat split; try lia;
    apply andb_true_iff; split; apply Z.leb_le; lia.
Qed.

(** ** Strings *)

Lemma scan_escape_u (c : Z) (rest : pystr) :
  0 <= c < 65536 ->
  (is_high_surrogate c = true -> next_ok rest = true) ->
  scan_escape (117 :: hex_digits c ++ rest) = Some (c, rest).
Proof.
  intros Hc Hnext. unfold scan_escape. cbv beta iota.
  change (117 =? 117) with true. cbv iota.
  rewrite hex4_digits by assumption.
  destruct (is_high_surrogate c); [|reflexivity].
  specialize (Hnext eq_refl). unfold next_ok in Hnext.
  destruct (strip_prefix [92; 117] rest) as [r2|]; [|reflexivity].
  destruct (hex4 r2) as [[u2 r3]|]; [|discriminate].
  apply negb_true_iff in Hnext. rewrite Hnext. reflexivity.
Qed.

Lemma scan_escape_pair (c : Z) (rest : pystr) :
  65536 <= c < 1114112 ->
  scan_escape
    (117 :: hex_digits (Z.lor 55296 (Z.land (Z.shiftr (c - 65536) 10) 1023))
         ++ 92 :: 117
         :: hex_digits (Z.lor 56320 (Z.land (c - 65536) 1023)) ++ rest)
  = Some (c, rest).
Proof.
  intros Hc. destruct (pair_facts Hc) as [R1 [R2 [Hh [Hl E]]]].
  cbv zeta in *.
  unfold scan_escape. cbv beta iota.
  change (117 =? 117) with true. cbv iota.
  rewrite hex4_digits by assumption. rewrite Hh.
  cbn [strip_prefix]. change (92 =? 92) with true.
  change (117 =? 117) with true. cbv iota.
  rewrite hex4_digits by assumption. rewrite Hl, E. reflexivity.
Qed.

Lemma next_ok_quote (tail : pystr) : next_ok (34 :: tail) = true.
Proof. reflexivity. Qed.

Lemma next_ok_escape (c : Z) (rest : pystr) :
  0 <= c < 1114112 -> is_low_surrogate c = false ->
  next_ok (escape_char c ++ rest) = true.
Proof.
  intros Hc Hlow. unfold escape_char.
  destruct (Z.eqb_spec c 92) as [->|H92]; [reflexivity|].
  destruct (Z.eqb_spec c 34) as [->|H34]; [reflexivity|].
  destruct ((32 <=? c) && (c <=? 126)) eqn:Hp.
  { unfold next_ok. cbn [app strip_prefix].
    replace (92 =? c) with false; [reflexivity|].
    symmetry. apply Z.eqb_neq. congruence. }
  destruct (Z.eqb_spec c 8) as [->|H8]; [reflexivity|].
  destruct (Z.eqb_spec c 12) as [->|H12]; [reflexivity|].
  destruct (Z.eqb_spec c 10) as [->|H10]; [reflexivity|].
  destruct (Z.eqb_spec c 13) as [->|H13]; [reflexivity|].
  destruct (Z.eqb_spec c 9) as [->|H9]; [reflexivity|].
  destruct (Z.ltb_spec c 65536) as [Hlt|Hge].
  - rewrite u_escape_eq. unfold next_ok.
    change ((92 :: 117 :: hex_digits c) ++ rest)
      with (92 :: 117 :: (hex_digits c ++ rest)).
    cbn [strip_prefix]. change (92 =? 92) with true.
    change (117 =? 117) with true. cbv iota.
    rewrite hex4_digits by lia. rewrite Hlow. reflexivity.
  - destruct (@pair_facts c ltac:(lia)) as [R1 [R2 [Hh [Hl E]]]].
    cbv zeta in *. rewrite !u_escape_eq. unfold next_ok.
    rewrite <- app_assoc.
    match goal with
    | |- context [(92 :: 117 :: hex_digits ?a) ++ ?r] =>
      change ((92 :: 117 :: hex_digits a) ++ r)
        with (92 :: 117 :: (hex_digits a ++ r))
    end.
    cbn [strip_prefix]. change (92 =? 92) with true.
    change (117 =? 117) with true. cbv iota.
    rewrite hex4_digits by assumption.
    unfold is_high_surrogate in Hh. unfold is_low_surrogate.
    apply andb_true_iff in Hh. destruct Hh as [_ Hh]. apply Z.leb_le in Hh.
    replace (56320 <=? _) with false; [reflexivity|].
    symmetry. apply Z.leb_gt. lia.
Qed.

(** The scanner reads back the escape of one character. *)
Lemma scan_chars_step (c : Z) (rest acc : pystr) (f : nat) :
  0 <= c < 1114112 ->
  (is_high_surrogate c = true -> next_ok rest = true) ->
  scan_chars (S f) (escape_char c ++ rest) acc = scan_chars f rest (c :: acc).
Proof.
  intros Hc Hnext. unfold escape_char.
  destruct (Z.eqb_spec c 92) as [->|H92]; [reflexivity|].
  destruct (Z.eqb_spec c 34) as [->|H34]; [reflexivity|].
  destruct ((32 <=? c) && (c <=? 126)) eqn:Hp.
  { apply andb_true_iff in Hp. destruct Hp as [Hlo Hhi].
    apply Z.leb_le in Hlo, Hhi.
    cbn [app scan_chars].
    replace (c =? 34) with false by (symmetry; apply Z.eqb_neq; assumption).
    replace (c =? 92) with false by (symmetry; apply Z.eqb_neq; assumption).
    replace (c <? 32) with false by (symmetry; apply Z.ltb_ge; lia).
    reflexivity. }
  destruct (Z.eqb_spec c 8) as [->|H8]; [reflexivity|].
  destruct (Z.eqb_spec c 12) as [->|H12]; [reflexivity|].
  destruct (Z.eqb_spec c 10) as [->|H10]; [reflexivity|].
  destruct (Z.eqb_spec c 13) as [->|H13]; [reflexivity|].
  destruct (Z.eqb_spec c 9) as [->|H9]; [reflexivity|].
  destruct (Z.ltb_spec c 65536) as [Hlt|Hge].
  - rewrite u_escape_eq.
    change ((92 :: 117 :: hex_digits c) ++ rest)
      with (92 :: 117 :: (hex_digits c ++ rest)).
    cbn [scan_chars]. change (92 =? 34) with false.
    change (92 =? 92) with true. cbv iota.
    rewrite scan_escape_u by (assumption || lia). reflexivity.
  - rewrite !u_escape_eq. rewrite <- app_assoc.
    match goal with
    | |- context [(92 :: 117 :: hex_digits ?a) ++ ?r] =>
      change ((92 :: 117 :: hex_digits a) ++ r)
        with (92 :: 117 :: (hex_digits a ++ r))
    end.
    match goal with
    | |- context [(92 :: 117 :: hex_digits ?a) ++ ?r] =>
      change ((92 :: 117 :: hex_digits a) ++ r)
        with (92 :: 117 :: (hex_digits a ++ r))
    end.
    cbn [scan_chars]. change (92 =? 34) with false.
    change (92 =? 92) with true. cbv iota.
    rewrite scan_escape_pair by lia. reflexivity.
Qed.

Lemma escape_char_length (c : Z) : (1 <= List.length (escape_char c))%nat.
Proof.
  unfold escape_char.
  repeat match goal with
         | |- context [if ?b then _ else _] => destruct b
         end; simpl; lia.
Qed.

Lemma escape_body_length (s : pystr) :
  (List.length s <= List.length (escape_body s))%nat.
Proof.
  induction s as [|c r IH]; simpl; [lia|].
  unfold escape_body in *. rewrite length_app.
  pose proof (escape_char_length c). lia.
Qed.

(** The scanner reads back an escaped string up to its closing quote. *)
Lemma scan_chars_body (s : pystr) :
  forall (tail acc : pystr) (f : nat),
  well_formed s = true -> (List.length s < f)%nat ->
  scan_chars f (escape_body s ++ 34 :: tail) acc = Some (rev acc ++ s, tail).
Proof.
  induction s as [|c r IH]; intros tail acc f Hwf Hf.
  - destruct f as [|f]; [simpl in Hf; lia|].
    simpl. rewrite app_nil_r. reflexivity.
  - destruct f as [|f]; [simpl in Hf; lia|].
    cbn [well_formed] in Hwf.
    apply andb_true_iff in Hwf. destruct Hwf as [Hwf Hr].
    apply andb_true_iff in Hwf. destruct Hwf as [Hwf Hpair].
    apply andb_true_iff in Hwf. destruct Hwf as [Hlo Hhi].
    apply Z.leb_le in Hlo. apply Z.ltb_lt in Hhi.
    unfold escape_body. cbn [flat_map]. fold (escape_body r).
    rewrite <- app_assoc.
    rewrite scan_chars_step.
    + rewrite IH; [|assumption|simpl in Hf; lia].
      simpl. rewrite <- app_assoc. reflexivity.
    + lia.
    + intros Hh. rewrite Hh in Hpair. simpl in Hpair.
      destruct r as [|c' r'].
      * apply next_ok_quote.
      * unfold escape_body. cbn [flat_map]. rewrite <- app_assoc.
        cbn [well_formed] in Hr.
        apply andb_true_iff in Hr. destruct Hr as [Hr _].
        apply andb_true_iff in Hr. destruct Hr as [Hr _].
        apply andb_true_iff in Hr. destruct Hr as [Hlo' Hhi'].
        apply Z.leb_le in Hlo'. apply Z.ltb_lt in Hhi'.
        apply next_ok_escape; [lia|].
        apply negb_true_iff. exact Hpair.
Qed.

Lemma scanstring_encoded (s tail : pystr) :
  well_formed s = true ->
  scanstring (escape_body s ++ 34 :: tail) = Some (s, tail).
Proof.
  intros Hwf. unfold scanstring.
  rewrite scan_chars_body; [reflexivity|assumption|].
  rewrite length_app. pose proof (escape_body_length s). simpl. lia.
Qed.

(** ** Numbers *)

Lemma span_digits_uint (d : Decimal.uint) (rest : pystr) :
  ends_number rest = true ->
  span_digits (uint_chars d ++ rest) = (uint_chars d, rest).
Proof.
  intros Hrest.
  induction d; cbn [uint_chars app span_digits];
    try (rewrite IHd; reflexivity).
  destruct rest as [|c r]; [reflexivity|].
  cbn [span_digits]. unfold ends_number in Hrest.
  destruct (is_digit c); [discriminate|reflexivity].
Qed.

Lemma uint_of_chars_uint (d : Decimal.uint) : uint_of_chars (uint_chars d) = d.
Proof.
  induction d; cbn [uint_chars uint_of_chars]; try rewrite IHd; reflexivity.
Qed.

Lemma to_uint_head (p : positive) :
  exists c cs, uint_chars (Pos.to_uint p) = c :: cs /\
               is_digit c = true /\ c <> 48 /\ c <> 45.
Proof.
  assert (Hn : Decimal.unorm (Pos.to_uint p) = Pos.to_uint p).
  { rewrite <- (Unsigned.to_of (Pos.to_uint p)), Unsigned.of_to. reflexivity. }
  pose proof (Unsigned.to_uint_nonzero p) as Hz.
  pose proof (Unsigned.to_uint_nonnil p) as Hnil.
  destruct (Pos.to_uint p) as [|d|d|d|d|d|d|d|d|d|d] eqn:E;
    try (eexists; eexists; split; [reflexivity|];
         repeat split; (reflexivity || discriminate)).
  - congruence.
  - exfalso. rewrite DecimalFacts.unorm_D0 in Hn.
    unfold Decimal.unorm in Hn.
    destruct (Decimal.nzhead d) as [|d'|d'|d'|d'|d'|d'|d'|d'|d'|d'] eqn:Ed;
      try discriminate.
    + injection Hn as <-. apply Hz. reflexivity.
    + apply (@DecimalFacts.nzhead_nonzero d d'). exact Ed.
Qed.

Lemma digit_cases (c : Z) :
  is_digit c = true ->
  c = 48 \/ c = 49 \/ c = 50 \/ c = 51 \/ c = 52 \/ c = 53 \/ c = 54 \/
  c = 55 \/ c = 56 \/ c = 57.
Proof.
  unfold is_digit. intros H. apply andb_true_iff in H. destruct H as [H1 H2].
  apply Z.leb_le in H1, H2. lia.
Qed.

Lemma scan_int_digit (c : Z) (r : pystr) :
  is_digit c = true ->
  scan_int (c :: r)
  = if c =? 48 then Some ([48], r)
    else let (d, r') := span_digits r in Some (c :: d, r').
Proof.
  intros H. apply digit_cases in H.
  repeat (destruct H as [->|H]; [reflexivity|]). subst. reflexivity.
Qed.

Lemma int_of_text_digit (c : Z) (cs : pystr) :
  is_digit c = true ->
  int_of_text (c :: cs) = Z.of_int (Decimal.Pos (uint_of_chars (c :: cs))).
Proof.
  intros H. apply digit_cases in H.
  repeat (destruct H as [->|H]; [reflexivity|]). subst. reflexivity.
Qed.

Lemma scan_int_pos (p : positive) (rest : pystr) :
  ends_number rest = true ->
  scan_int (uint_chars (Pos.to_uint p) ++ rest)
  = Some (uint_chars (Pos.to_uint p), rest).
Proof.
  intros Hrest.
  pose proof (span_digits_uint (Pos.to_uint p) rest Hrest) as Hspan.
  destruct (to_uint_head p) as [c [cs [E [Hd [H48 H45]]]]].
  rewrite E in *. cbn [app] in *.
  rewrite scan_int_digit by assumption.
  replace (c =? 48) with false by (symmetry; apply Z.eqb_neq; assumption).
  cbn [span_digits] in Hspan. rewrite Hd in Hspan.
  destruct (span_digits (cs ++ rest)) as [d r'].
  injection Hspan as <- <-. reflexivity.
Qed.

Lemma scan_int_minus (c : Z) (r : pystr) :
  scan_int (45 :: c :: r)
  = if c =? 48 then Some ([45; 48], r)
    else if is_digit c then
      let (d, r') := span_digits r in Some (45 :: c :: d, r')
    else None.
Proof.
  unfold scan_int. cbv beta iota.
  destruct (c =? 48); [reflexivity|].
  destruct (is_digit c); [|reflexivity].
  destruct (span_digits r); reflexivity.
Qed.

Lemma scan_int_repr (z : Z) (rest : pystr) :
  ends_number rest = true ->
  scan_int (int_repr z ++ rest) = Some (int_repr z, rest).
Proof.
  intros Hrest. destruct z as [|p|p].
  - reflexivity.
  - unfold int_repr. cbn [Z.to_int]. apply scan_int_pos. assumption.
  - unfold int_repr. cbn [Z.to_int app].
    pose proof (span_digits_uint (Pos.to_uint p) rest Hrest) as Hspan.
    destruct (to_uint_head p) as [c [cs [E [Hd [H48 H45]]]]].
    rewrite E in *. cbn [app] in *.
    rewrite scan_int_minus.
    replace (c =? 48) with false by (symmetry; apply Z.eqb_neq; assumption).
    rewrite Hd. cbn [span_digits] in Hspan. rewrite Hd in Hspan.
    destruct (span_digits (cs ++ rest)) as [d r'].
    injection Hspan as <- <-. reflexivity.
Qed.

Lemma int_of_text_repr (z : Z) : int_of_text (int_repr z) = z.
Proof.
  destruct z as [|p|p].
  - reflexivity.
  - unfold int_repr. cbn [Z.to_int].
    destruct (to_uint_head p) as [c [cs [E [Hd [H48 H45]]]]].
    rewrite E, int_of_text_digit by assumption. rewrite <- E.
    rewrite uint_of_chars_uint.
    change (Decimal.Pos (Pos.to_uint p)) with (Z.to_int (Zpos p)).
    apply DecimalZ.of_to.
  - unfold int_repr. cbn [Z.to_int]. unfold int_of_text.
    rewrite uint_of_chars_uint.
    change (Decimal.Neg (Pos.to_uint p)) with (Z.to_int (Zneg p)).
    apply DecimalZ.of_to.
Qed.

Lemma scan_frac_none (rest : pystr) :
  ends_number rest = true -> scan_frac rest = ([], rest).
Proof.
  destruct rest as [|c r]; [reflexivity|]. unfold ends_number. intros H.
  apply andb_true_iff in H. destruct H as [H _].
  apply andb_true_iff in H. destruct H as [H _].
  apply andb_true_iff in H. destruct H as [_ H].
  apply negb_true_iff in H. apply Z.eqb_neq in H.
  unfold scan_frac.
  destruct c as [|q|q]; try reflexivity.
  do 6 (destruct q as [q|q|]; try reflexivity). contradiction.
Qed.

Lemma scan_exp_none (rest : pystr) :
  ends_number rest = true -> scan_exp rest = ([], rest).
Proof.
  destruct rest as [|c r]; [reflexivity|]. unfold ends_number. intros H.
  apply andb_true_iff in H. destruct H as [H H69].
  apply andb_true_iff in H. destruct H as [H H101].
  apply negb_true_iff in H69, H101.
  unfold scan_exp. rewrite H69, H101. reflexivity.
Qed.

Lemma scan_number_repr (z : Z) (rest : pystr) :
  ends_number rest = true ->
  scan_number (int_repr z ++ rest) = Some (JInt z, rest).
Proof.
  intros Hrest. unfold scan_number.
  rewrite scan_int_repr by assumption.
  rewrite scan_frac_none by assumption.
  rewrite scan_exp_none by assumption.
  rewrite int_of_text_repr. reflexivity.
Qed.

Lemma int_repr_head (z : Z) :
  exists c cs, int_repr z = c :: cs /\ (is_digit c = true \/ c = 45).
Proof.
  destruct z as [|p|p].
  - exists 48, []. split; [reflexivity|left; reflexivity].
  - destruct (to_uint_head p) as [c [cs [E [Hd _]]]].
    exists c, cs. split; [exact E|left; exact Hd].
  - exists 45, (uint_chars (Pos.to_uint p)). split; [reflexivity|right; reflexivity].
Qed.

(** ** Scalars *)

Lemma array_items_S (f : nat) (s : pystr) (acc : list json) :
  array_items (S f) s acc
  = match scan_once f s with
    | None => None
    | Some (v, r) =>
      match skip_ws r with
      | 93 :: r' => Some (JList (rev (v :: acc)), r')
      | 44 :: r' => array_items f (skip_ws r') (v :: acc)
      | _ => None
      end
    end.
Proof. reflexivity. Qed.

Lemma object_items_S (f : nat) (s : pystr) (acc : list (pystr * json)) :
  object_items (S f) s acc
  = match scanstring s with
    | None => None
    | Some (key, r) =>
      match skip_ws r with
      | 58 :: r1 =>
        match scan_once f (skip_ws r1) with
        | None => None
        | Some (v, r2) =>
          match skip_ws r2 with
          | 125 :: r3 => Some (JDict (dict_set acc key v), r3)
          | 44 :: r3 =>
            match skip_ws r3 with
            | 34 :: r4 => object_items f r4 (dict_set acc key v)
            | _ => None
            end
          | _ => None
          end
        end
      | _ => None
      end
    end.
Proof. reflexivity. Qed.

Lemma scan_once_S (f : nat) (c : Z) (r : pystr) :
  scan_once (S f) (c :: r)
  = if c =? 34 then
      match scanstring r with
      | Some (str, r') => Some (JStr str, r')
      | None => None
      end
    else if c =? 123 then
      match skip_ws r with
      | 125 :: r' => Some (JDict [], r')
      | 34 :: r' => object_items f r' []
      | _ => None
      end
    else if c =? 91 then
      match skip_ws r with
      | c' :: r' =>
        if c' =? 93 then Some (JList [], r')
        else array_items f (c' :: r') []
      | [] => array_items f [] []
      end
    else scan_atom (c :: r).
Proof.
  cbn [scan_once].
  destruct (c =? 34); [reflexivity|].
  destruct (c =? 123); [reflexivity|].
  destruct (c =? 91); [|reflexivity].
  destruct (skip_ws r) as [|c' r']; [reflexivity|].
  by_bits c' ltac:(reflexivity).
Qed.

Lemma scan_once_number (c : Z) (r : pystr) (f : nat) (res : json * pystr) :
  is_digit c = true \/ c = 45 ->
  scan_number (c :: r) = Some res ->
  scan_once (S f) (c :: r) = Some res.
Proof.
  intros Hc Hn. rewrite scan_once_S.
  assert (Ha : scan_atom (c :: r) = Some res).
  { unfold scan_atom. rewrite Hn.
    destruct Hc as [Hc| ->]; [|reflexivity].
    apply digit_cases in Hc.
    repeat (destruct Hc as [->|Hc]; [reflexivity|]). subst. reflexivity. }
  rewrite Ha.
  destruct Hc as [Hc| ->]; [|reflexivity].
  apply digit_cases in Hc.
  repeat (destruct Hc as [->|Hc]; [reflexivity|]). subst. reflexivity.
Qed.

Lemma scan_once_scalar (v : json) (tail : pystr) (f : nat) :
  scalar v = true -> ends_number tail = true ->
  scan_once (S f) (json_dumps v ++ tail) = Some (v, tail).
Proof.
  intros Hv Htail. destruct v as [|b|z|lit|s|l|d]; try discriminate.
  - reflexivity.
  - destruct b; reflexivity.
  - cbn [json_dumps].
    destruct (int_repr_head z) as [c [cs [E Hc]]].
    pose proof (scan_number_repr z tail Htail) as Hn.
    rewrite E in *. cbn [app] in *.
    apply scan_once_number; assumption.
  - cbn [json_dumps scalar] in *. unfold encode_basestring_ascii.
    cbn [app]. rewrite <- app_assoc. cbn [app].
    cbn [scan_once]. change (34 =? 34) with true. cbv iota.
    rewrite scanstring_encoded by assumption. reflexivity.
Qed.

Lemma scan_once_scalar_fuel (v : json) (tail : pystr) (f : nat) :
  scalar v = true -> ends_number tail = true -> (0 < f)%nat ->
  scan_once f (json_dumps v ++ tail) = Some (v, tail).
Proof.
  intros Hv Htail Hf. destruct f as [|f]; [lia|].
  apply scan_once_scalar; assumption.
Qed.


(** ** Dicts of scalars *)

Lemma dict_set_fresh (acc : list (pystr * json)) (k : pystr) (v : json) :
  existsb (fun kv => str_eqb (fst kv) k) acc = false ->
  dict_set acc k v = acc ++ [(k, v)].
Proof.
  induction acc as [|[k' v'] r IH]; intros H; [reflexivity|].
  cbn [existsb fst] in H. apply orb_false_iff in H. destruct H as [Hk Hr].
  cbn [dict_set app]. rewrite Hk, IH by assumption. reflexivity.
Qed.

Lemma unique_keys_fresh (acc d : list (pystr * json)) (k : pystr) (v : json) :
  unique_keys (acc ++ (k, v) :: d) = true ->
  existsb (fun kv => str_eqb (fst kv) k) acc = false.
Proof.
  induction acc as [|[k' v'] r IH]; intros H; [reflexivity|].
  cbn [app unique_keys] in H. apply andb_true_iff in H. destruct H as [Hk Hr].
  cbn [existsb fst]. rewrite (IH Hr), orb_false_r.
  apply negb_true_iff in Hk.
  destruct (str_eqb k' k) eqn:E; [|reflexivity].
  apply str_eqb_eq in E. subst k'.
  rewrite existsb_app in Hk. apply orb_false_iff in Hk. destruct Hk as [_ Hk].
  cbn [existsb fst] in Hk. rewrite str_eqb_refl in Hk. discriminate.
Qed.

Lemma ends_number_items (d : list (pystr * json)) (tail : pystr) :
  ends_number (items_tail d tail) = true.
Proof. destruct d as [|[k v] r]; reflexivity. Qed.



Lemma dumps_dict (d : list (pystr * json)) :
  json_dumps (JDict d) = 123 :: members d ++ [125].
Proof.
  reflexivity.
Qed.

Lemma members_tail (d : list (pystr * json)) :
  forall (k : pystr) (v : json) (tail : pystr),
  members ((k, v) :: d) ++ 125 :: tail
  = 34 :: escape_body k ++ 34 :: 58 :: 32 :: json_dumps v ++ items_tail d tail.
Proof.
  induction d as [|[k' v'] d' IH]; intros k v tail.
  - cbn [members items_tail]. unfold encode_basestring_ascii.
    cbn [app]. repeat (rewrite <- app_assoc; cbn [app]). reflexivity.
  - change (members ((k, v) :: (k', v') :: d'))
      with (encode_basestring_ascii k ++ [58; 32] ++ json_dumps v ++ [44; 32]
              ++ members ((k', v') :: d')).
    cbn [items_tail]. unfold encode_basestring_ascii at 1.
    cbn [app]. repeat (rewrite <- app_assoc; cbn [app]).
    rewrite IH. reflexivity.
Qed.


End JsonFacts.

Module JsonFuel.
Import Py Notions PyFacts JsonFacts.

(** ** The fuel of the scanner is never what stops it

    Every step of the scanner consumes input, so a value read with some
    fuel is read with any fuel beyond the number of characters consumed:
    [json_loads], which supplies the length of the text, fails only where
    the text is not JSON. *)

Lemma skip_ws_length (s : pystr) :
  (List.length (skip_ws s) <= List.length s)%nat.
Proof.
  induction s as [|c r IH]; cbn [skip_ws]; [lia|].
  destruct (is_ws c); cbn [List.length]; lia.
Qed.

Lemma strip_prefix_length (p : pystr) :
  forall s r, strip_prefix p s = Some r ->
              (List.length r + List.length p = List.length s)%nat.
Proof.
  induction p as [|a p IH]; intros s r H.
  - injection H as <-. simpl. lia.
  - destruct s as [|b s]; [discriminate H|]. cbn [strip_prefix] in H.
    destruct (a =? b); [|discriminate H].
    apply IH in H. cbn [List.length]. lia.
Qed.

Lemma hex4_length (s r : pystr) (u : Z) :
  hex4 s = Some (u, r) -> (List.length r + 4 = List.length s)%nat.
Proof.
  unfold hex4. destruct s as [|a [|b [|c [|d t]]]]; try discriminate.
  destruct (hexval a), (hexval b), (hexval c), (hexval d); try discriminate.
  intros H. injection H as _ <-. cbn [List.length]. lia.
Qed.

Lemma scan_escape_length (s r : pystr) (u : Z) :
  scan_escape s = Some (u, r) -> (List.length r < List.length s)%nat.
Proof.
  unfold scan_escape. destruct s as [|e t]; [discriminate|].
  destruct (e =? 117).
  - destruct (hex4 t) as [[uni r1]|] eqn:E1; [|discriminate].
    apply hex4_length in E1.
    destruct (is_high_surrogate uni).
    + destruct (strip_prefix [92; 117] r1) as [r2|] eqn:E2.
      * apply strip_prefix_length in E2. cbn [List.length] in E2.
        destruct (hex4 r2) as [[uni2 r3]|] eqn:E3; [|discriminate].
        apply hex4_length in E3.
        destruct (is_low_surrogate uni2); intros H; injection H as _ <-;
          cbn [List.length]; lia.
      * intros H. injection H as _ <-. cbn [List.length]. lia.
    + intros H. injection H as _ <-. cbn [List.length]. lia.
  - repeat match goal with
           | |- (if ?b then _ else _) = _ -> _ => destruct b
           end;
      try discriminate;
      intros H; injection H as _ <-; cbn [List.length]; lia.
Qed.

Lemma scan_chars_adequate (f : nat) :
  forall s acc x r,
  scan_chars f s acc = Some (x, r) ->
  (List.length r < List.length s)%nat /\
  forall f', (List.length s - List.length r <= f')%nat ->
             scan_chars f' s acc = Some (x, r).
Proof.
  induction f as [|f IH]; intros s acc x r H; [discriminate H|].
  destruct s as [|c t]; [discriminate H|].
  cbn [scan_chars] in H.
  destruct (c =? 34) eqn:Eq.
  - injection H as <- <-. split; [cbn [List.length]; lia|].
    intros f' Hf'. destruct f' as [|f']; [cbn [List.length] in Hf'; lia|].
    cbn [scan_chars]. rewrite Eq. reflexivity.
  - destruct (c =? 92) eqn:Eb.
    + destruct (scan_escape t) as [[u r']|] eqn:Ee; [|discriminate H].
      pose proof (scan_escape_length _ Ee) as Hl.
      destruct (IH _ _ _ _ H) as [Hr Hf].
      split; [cbn [List.length]; lia|].
      intros f' Hf'. destruct f' as [|f']; [cbn [List.length] in Hf'; lia|].
      cbn [scan_chars]. rewrite Eq, Eb, Ee. apply Hf.
      cbn [List.length] in Hf'. lia.
    + destruct (c <? 32) eqn:Ec; [discriminate H|].
      destruct (IH _ _ _ _ H) as [Hr Hf].
      split; [cbn [List.length]; lia|].
      intros f' Hf'. destruct f' as [|f']; [cbn [List.length] in Hf'; lia|].
      cbn [scan_chars]. rewrite Eq, Eb, Ec. apply Hf.
      cbn [List.length] in Hf'. lia.
Qed.

Lemma scanstring_length (s str r : pystr) :
  scanstring s = Some (str, r) -> (List.length r < List.length s)%nat.
Proof.
  unfold scanstring. intros H. apply (scan_chars_adequate _ _ _ H).
Qed.

Lemma span_digits_length (s : pystr) :
  (List.length (snd (span_digits s)) <= List.length s)%nat.
Proof.
  induction s as [|c r IH]; cbn [span_digits]; [simpl; lia|].
  destruct (is_digit c); [|simpl; lia].
  destruct (span_digits r) as [d r']. cbn [snd List.length] in *. lia.
Qed.

Lemma scan_int_length (s i r : pystr) :
  scan_int s = Some (i, r) -> (List.length r < List.length s)%nat.
Proof.
  unfold scan_int.
  set (pre := match s with
              | 45 :: r0 => ([45], r0)
              | _ => ([], s)
              end).
  assert (Hpre : (List.length (snd pre) <= List.length s)%nat).
  { subst pre. destruct s as [|c t]; [simpl; lia|].
    destruct c as [|q|q]; try (cbn [snd]; lia).
    do 6 (destruct q as [q|q|]; try (cbn [snd]; lia)).
    cbn [snd List.length]. lia. }
  destruct pre as [sign s1]. cbn [snd] in Hpre.
  destruct s1 as [|c r0]; [discriminate|].
  destruct (c =? 48).
  - intros H. injection H as _ <-. cbn [List.length] in Hpre. lia.
  - destruct (is_digit c); [|discriminate].
    pose proof (span_digits_length r0) as Hs.
    destruct (span_digits r0) as [d r']. cbn [snd] in Hs.
    intros H. injection H as _ <-. cbn [List.length] in Hpre. lia.
Qed.

Lemma scan_frac_length (s : pystr) :
  (List.length (snd (scan_frac s)) <= List.length s)%nat.
Proof.
  unfold scan_frac. destruct s as [|c r]; [simpl; lia|].
  pose proof (span_digits_length r) as Hs.
  destruct c as [|q|q]; try (cbn [snd List.length]; lia).
  do 6 (destruct q as [q|q|]; try (cbn [snd List.length]; lia)).
  destruct (span_digits r) as [d r']. cbn [snd] in Hs.
  destruct d; cbn [snd List.length]; lia.
Qed.

Lemma scan_exp_length (s : pystr) :
  (List.length (snd (scan_exp s)) <= List.length s)%nat.
Proof.
  unfold scan_exp. destruct s as [|c r]; [simpl; lia|].
  destruct ((c =? 101) || (c =? 69)); [|cbn [snd]; lia].
  set (pre := match r with
              | c2 :: r2 =>
                if (c2 =? 43) || (c2 =? 45) then ([c2], r2) else ([], r)
              | [] => ([], r)
              end).
  assert (Hpre : (List.length (snd pre) <= List.length r)%nat).
  { subst pre. destruct r as [|c2 r2]; [simpl; lia|].
    destruct ((c2 =? 43) || (c2 =? 45)); cbn [snd List.length]; lia. }
  destruct pre as [sg r1]. cbn [snd] in Hpre.
  pose proof (span_digits_length r1) as Hs.
  destruct (span_digits r1) as [d r']. cbn [snd] in Hs.
  destruct d; cbn [snd List.length]; lia.
Qed.

Lemma scan_number_length (s r : pystr) (v : json) :
  scan_number s = Some (v, r) -> (List.length r < List.length s)%nat.
Proof.
  unfold scan_number.
  destruct (scan_int s) as [[i r0]|] eqn:Ei; [|discriminate].
  apply scan_int_length in Ei.
  pose proof (scan_frac_length r0) as Hf.
  destruct (scan_frac r0) as [fr r1]. cbn [snd] in Hf.
  pose proof (scan_exp_length r1) as He.
  destruct (scan_exp r1) as [ex r2]. cbn [snd] in He.
  destruct fr, ex; intros H; injection H as _ <-; lia.
Qed.

Lemma scan_atom_length (s r : pystr) (v : json) :
  scan_atom s = Some (v, r) -> (List.length r < List.length s)%nat.
Proof.
  unfold scan_atom.
  destruct (strip_prefix (py "null") s) eqn:E1.
  { intros H. injection H as _ <-. apply strip_prefix_length in E1.
    simpl in E1. lia. }
  destruct (strip_prefix (py "true") s) eqn:E2.
  { intros H. injection H as _ <-. apply strip_prefix_length in E2.
    simpl in E2. lia. }
  destruct (strip_prefix (py "false") s) eqn:E3.
  { intros H. injection H as _ <-. apply strip_prefix_length in E3.
    simpl in E3. lia. }
  destruct (scan_number s) as [[v' r']|] eqn:E4.
  { intros H. injection H as _ <-. apply (scan_number_length _ E4). }
  destruct (strip_prefix (py "NaN") s) eqn:E5.
  { intros H. injection H as _ <-. apply strip_prefix_length in E5.
    simpl in E5. lia. }
  destruct (strip_prefix (py "Infinity") s) eqn:E6.
  { intros H. injection H as _ <-. apply strip_prefix_length in E6.
    simpl in E6. lia. }
  destruct (strip_prefix (py "-Infinity") s) eqn:E7; [|discriminate].
  intros H. injection H as _ <-. apply strip_prefix_length in E7.
  simpl in E7. lia.
Qed.

(** Case analysis on the delimiters the loops look for. *)

Lemma cases_93_44 {X : Type} (s : pystr) (A B : pystr -> option X) (x : X) :
  match s with
  | 93 :: r' => A r'
  | 44 :: r' => B r'
  | _ => None
  end = Some x ->
  (exists r', s = 93 :: r' /\ A r' = Some x) \/
  (exists r', s = 44 :: r' /\ B r' = Some x).
Proof.
  destruct s as [|c r']; [discriminate|]. intros H.
  by_bits c ltac:(cbv beta iota in H; discriminate H);
    first [ left; exists r'; split; [reflexivity|exact H]
          | right; exists r'; split; [reflexivity|exact H] ].
Qed.

Lemma cases_125_44 {X : Type} (s : pystr) (A B : pystr -> option X) (x : X) :
  match s with
  | 125 :: r' => A r'
  | 44 :: r' => B r'
  | _ => None
  end = Some x ->
  (exists r', s = 125 :: r' /\ A r' = Some x) \/
  (exists r', s = 44 :: r' /\ B r' = Some x).
Proof.
  destruct s as [|c r']; [discriminate|]. intros H.
  by_bits c ltac:(cbv beta iota in H; discriminate H);
    first [ left; exists r'; split; [reflexivity|exact H]
          | right; exists r'; split; [reflexivity|exact H] ].
Qed.

Lemma cases_125_34 {X : Type} (s : pystr) (A B : pystr -> option X) (x : X) :
  match s with
  | 125 :: r' => A r'
  | 34 :: r' => B r'
  | _ => None
  end = Some x ->
  (exists r', s = 125 :: r' /\ A r' = Some x) \/
  (exists r', s = 34 :: r' /\ B r' = Some x).
Proof.
  destruct s as [|c r']; [discriminate|]. intros H.
  by_bits c ltac:(cbv beta iota in H; discriminate H);
    first [ left; exists r'; split; [reflexivity|exact H]
          | right; exists r'; split; [reflexivity|exact H] ].
Qed.

Lemma cases_58 {X : Type} (s : pystr) (A : pystr -> option X) (x : X) :
  match s with
  | 58 :: r' => A r'
  | _ => None
  end = Some x ->
  exists r', s = 58 :: r' /\ A r' = Some x.
Proof.
  destruct s as [|c r']; [discriminate|]. intros H.
  by_bits c ltac:(cbv beta iota in H; discriminate H);
    exists r'; split; [reflexivity|exact H].
Qed.

Lemma cases_34 {X : Type} (s : pystr) (A : pystr -> option X) (x : X) :
  match s with
  | 34 :: r' => A r'
  | _ => None
  end = Some x ->
  exists r', s = 34 :: r' /\ A r' = Some x.
Proof.
  destruct s as [|c r']; [discriminate|]. intros H.
  by_bits c ltac:(cbv beta iota in H; discriminate H);
    exists r'; split; [reflexivity|exact H].
Qed.

Ltac ws_len t Hs :=
  let L := fresh "L" in
  pose proof (skip_ws_length t) as L; rewrite Hs in L;
  cbn [List.length] in L.

(** A value read with some fuel is read with any fuel that is at least the
    number of characters it takes. *)
Lemma scanner_adequate (f : nat) :
  (forall s v r,
     scan_once f s = Some (v, r) ->
     (List.length r < List.length s)%nat /\
     forall f', (List.length s - List.length r <= f')%nat -> scan_once f' s = Some (v, r)) /\
  (forall s acc v r,
     array_items f s acc = Some (v, r) ->
     (List.length r < List.length s)%nat /\
     forall f', (List.length s - List.length r <= f')%nat ->
                array_items f' s acc = Some (v, r)) /\
  (forall s acc v r,
     object_items f s acc = Some (v, r) ->
     (List.length r < List.length s)%nat /\
     forall f', (List.length s - List.length r <= f')%nat ->
                object_items f' s acc = Some (v, r)).
Proof.
  induction f as [|f [IHs [IHa IHo]]].
  { repeat split; intros; discriminate. }
  split; [|split].
  - intros s v r H. destruct s as [|c t]; [discriminate H|].
    rewrite scan_once_S in H. cbn [List.length].
    destruct (c =? 34) eqn:E1.
    { destruct (scanstring t) as [[str r']|] eqn:Es; [|discriminate H].
      injection H as <- <-. pose proof (scanstring_length _ Es) as Hl.
      split; [lia|]. intros [|f'] Hf'; [lia|].
      rewrite scan_once_S, E1, Es. reflexivity. }
    destruct (c =? 123) eqn:E2.
    { apply cases_125_34 in H. destruct H as [[r' [Hs H]]|[r' [Hs H]]].
      - injection H as <- <-. ws_len t Hs.
        split; [lia|]. intros [|f'] Hf'; [lia|].
        rewrite scan_once_S, E1, E2, Hs. reflexivity.
      - destruct (IHo _ _ _ _ H) as [Hr Hf]. ws_len t Hs.
        split; [lia|]. intros [|f'] Hf'; [lia|].
        rewrite scan_once_S, E1, E2, Hs. apply Hf. lia. }
    destruct (c =? 91) eqn:E3.
    { destruct (skip_ws t) as [|c' r'] eqn:Hs.
      - destruct (IHa _ _ _ _ H) as [Hr _]. cbn [List.length] in Hr. lia.
      - ws_len t Hs. destruct (c' =? 93) eqn:E4.
        + injection H as <- <-. split; [lia|]. intros [|f'] Hf'; [lia|].
          rewrite scan_once_S, E1, E2, E3, Hs, E4. reflexivity.
        + destruct (IHa _ _ _ _ H) as [Hr Hf]. cbn [List.length] in Hr.
          split; [lia|]. intros [|f'] Hf'; [lia|].
          rewrite scan_once_S, E1, E2, E3, Hs, E4. apply Hf.
          cbn [List.length]. lia. }
    pose proof (scan_atom_length _ H) as Hl. cbn [List.length] in Hl.
    split; [lia|]. intros [|f'] Hf'; [lia|].
    rewrite scan_once_S, E1, E2, E3. exact H.
  - intros s acc v r H. rewrite array_items_S in H.
    destruct (scan_once f s) as [[v1 r1]|] eqn:E1; [|discriminate H].
    destruct (IHs _ _ _ E1) as [Hr1 Hf1].
    apply cases_93_44 in H. destruct H as [[r' [Hs H]]|[r' [Hs H]]].
    + injection H as <- <-. ws_len r1 Hs.
      split; [lia|]. intros [|f'] Hf'; [lia|].
      rewrite array_items_S, (Hf1 f') by lia. rewrite Hs. reflexivity.
    + destruct (IHa _ _ _ _ H) as [Hr Hf]. ws_len r1 Hs.
      pose proof (skip_ws_length r') as L'.
      split; [lia|]. intros [|f'] Hf'; [lia|].
      rewrite array_items_S, (Hf1 f') by lia. rewrite Hs. apply Hf. lia.
  - intros s acc v r H. rewrite object_items_S in H.
    destruct (scanstring s) as [[key r1]|] eqn:Es; [|discriminate H].
    pose proof (scanstring_length _ Es) as Hl1.
    apply cases_58 in H. destruct H as [r2 [Hs1 H]].
    ws_len r1 Hs1.
    destruct (scan_once f (skip_ws r2)) as [[v1 r3]|] eqn:E1; [|discriminate H].
    destruct (IHs _ _ _ E1) as [Hr3 Hf3].
    pose proof (skip_ws_length r2) as L2.
    apply cases_125_44 in H. destruct H as [[r4 [Hs3 H]]|[r4 [Hs3 H]]].
    + injection H as <- <-. ws_len r3 Hs3.
      split; [lia|]. intros [|f'] Hf'; [lia|].
      rewrite object_items_S, Es, Hs1, (Hf3 f') by lia. rewrite Hs3.
      reflexivity.
    + apply cases_34 in H. destruct H as [r5 [Hs4 H]].
      ws_len r3 Hs3. ws_len r4 Hs4.
      destruct (IHo _ _ _ _ H) as [Hr Hf].
      split; [lia|]. intros [|f'] Hf'; [lia|].
      rewrite object_items_S, Es, Hs1, (Hf3 f') by lia. rewrite Hs3, Hs4.
      apply Hf. lia.
Qed.

(** The fuel [json_loads] supplies is enough: whatever [scan_once] reads
    from the text with some fuel, it reads with the length of the text. *)
Lemma scan_once_adequate (f : nat) (s : pystr) (v : json) (r : pystr) :
  scan_once f (skip_ws s) = Some (v, r) ->
  scan_once (S (List.length s)) (skip_ws s) = Some (v, r).
Proof.
  intros H. destruct (scanner_adequate f) as [Hs _].
  destruct (Hs _ _ _ H) as [_ Hf]. apply Hf.
  pose proof (skip_ws_length s). lia.
Qed.

Lemma scanstring_adequate (f : nat) (s str r : pystr) :
  scan_chars f s [] = Some (str, r) -> scanstring s = Some (str, r).
Proof.
  intros H. unfold scanstring.
  destruct (scan_chars_adequate _ _ _ H) as [_ Hf]. apply Hf. lia.
Qed.

End JsonFuel.

Module StyleFacts.
Import Py Upload App Notions PyFacts Base64Facts JsonFacts.

(** ** The text [json.dump] writes is ASCII *)

Lemma hexdigit_ascii (x : Z) : is_ascii (hexdigit (Z.land x 15)).
Proof.
  assert (H : 0 <= Z.land x 15 < 16).
  { change 15 with (Z.ones 4). rewrite Z.land_ones by lia.
    change (2 ^ 4) with 16. apply Z.mod_pos_bound. lia. }
  unfold hexdigit, is_ascii.
  destruct (Z.ltb_spec (Z.land x 15) 10); lia.
Qed.

Lemma u_escape_ascii (n : Z) : Forall is_ascii (u_escape n).
Proof.
  unfold u_escape.
  repeat (constructor; [first [apply hexdigit_ascii | unfold is_ascii; lia]|]).
  constructor.
Qed.

Lemma escape_char_ascii (c : Z) : Forall is_ascii (escape_char c).
Proof.
  unfold escape_char.
  destruct (c =? 92); [repeat constructor; unfold is_ascii; lia|].
  destruct (c =? 34); [repeat constructor; unfold is_ascii; lia|].
  destruct ((32 <=? c) && (c <=? 126)) eqn:Hp.
  { apply andb_true_iff in Hp. destruct Hp as [H1 H2].
    apply Z.leb_le in H1, H2. repeat constructor; unfold is_ascii; lia. }
  destruct (c =? 8); [repeat constructor; unfold is_ascii; lia|].
  destruct (c =? 12); [repeat constructor; unfold is_ascii; lia|].
  destruct (c =? 10); [repeat constructor; unfold is_ascii; lia|].
  destruct (c =? 13); [repeat constructor; unfold is_ascii; lia|].
  destruct (c =? 9); [repeat constructor; unfold is_ascii; lia|].
  destruct (c <? 65536); [apply u_escape_ascii|].
  apply Forall_app. split; apply u_escape_ascii.
Qed.

Lemma escape_body_ascii (s : pystr) : Forall is_ascii (escape_body s).
Proof.
  induction s as [|c r IH]; [constructor|].
  unfold escape_body. cbn [flat_map]. apply Forall_app. split.
  - apply escape_char_ascii.
  - exact IH.
Qed.

Lemma encode_ascii (s : pystr) : Forall is_ascii (encode_basestring_ascii s).
Proof.
  unfold encode_basestring_ascii. constructor; [unfold is_ascii; lia|].
  apply Forall_app. split; [apply escape_body_ascii|].
  repeat constructor; unfold is_ascii; lia.
Qed.

Lemma uint_chars_ascii (d : Decimal.uint) : Forall is_ascii (uint_chars d).
Proof.
  induction d; cbn [uint_chars]; constructor; auto; unfold is_ascii; lia.
Qed.

Lemma int_repr_ascii (z : Z) : Forall is_ascii (int_repr z).
Proof.
  unfold int_repr. destruct (Z.to_int z).
  - apply uint_chars_ascii.
  - constructor; [unfold is_ascii; lia|apply uint_chars_ascii].
Qed.

Lemma scalar_ascii (v : json) :
  scalar v = true -> Forall is_ascii (json_dumps v).
Proof.
  destruct v as [|b|z|lit|s|l|d]; try discriminate; intros _.
  - repeat constructor; unfold is_ascii; lia.
  - destruct b; repeat constructor; unfold is_ascii; lia.
  - apply int_repr_ascii.
  - apply encode_ascii.
Qed.



Lemma ascii_bytes (s : pystr) : Forall is_ascii s -> Forall is_byte s.
Proof.
  apply Forall_impl. unfold is_ascii, is_byte. intros; lia.
Qed.

(** ** Importing an uploaded file *)

(** On the contents of an upload, [load_style] decodes the file as UTF-8
    and parses it, falling back on the current style when either fails. *)
Lemma load_style_with_upload (loads : pystr -> result json) (mime : pystr)
  (file : bytes) (current : json) :
  ~ In 44 mime -> Forall is_byte file ->
  load_style_with loads (Some (contents_of mime file)) current
  = try_except (text <- utf8_decode file ;; loads text)
               (fun _ => Return current).
Proof.
  intros Hm Hf. unfold load_style_with.
  pose proof (@split_contents mime file Hm Hf) as Hs.
  destruct (contents_of mime file) as [|c cs] eqn:E; [discriminate E|].
  rewrite Hs. cbn [bind]. rewrite b64decode_encode by assumption.
  reflexivity.
Qed.

Lemma load_style_upload (mime : pystr) (file : bytes) (current : json) :
  ~ In 44 mime -> Forall is_byte file ->
  load_style (Some (contents_of mime file)) current
  = try_except (text <- utf8_decode file ;; json_loads text)
               (fun _ => Return current).
Proof.
  intros Hm Hf. unfold load_style.
  apply load_style_with_upload; assumption.
Qed.

(** ** Valid styles *)




End StyleFacts.

Module PandasFacts.
Import Py Pandas App Notions PyFacts JsonFacts.

(** ** Equality of cells *)

Lemma cell_eqb_eq (a b : cell) : cell_eqb a b = true <-> cell_key a = cell_key b.
Proof.
  unfold cell_eqb. destruct (cell_eq_dec (cell_key a) (cell_key b));
    split; congruence.
Qed.

Lemma cell_eqb_refl (a : cell) : cell_eqb a a = true.
Proof. apply cell_eqb_eq. reflexivity. Qed.

Lemma cell_eqb_sym (a b : cell) : cell_eqb a b = cell_eqb b a.
Proof.
  destruct (cell_eqb a b) eqn:E1, (cell_eqb b a) eqn:E2; try reflexivity.
  - apply cell_eqb_eq in E1. symmetry in E1. apply cell_eqb_eq in E1. congruence.
  - apply cell_eqb_eq in E2. symmetry in E2. apply cell_eqb_eq in E2. congruence.
Qed.

Lemma cell_eqb_trans (a b c : cell) :
  cell_eqb a b = true -> cell_eqb b c = true -> cell_eqb a c = true.
Proof.
  rewrite !cell_eqb_eq. congruence.
Qed.

(** ** The binary presence value *)

Lemma lower_digit_head (c : Z) (cs : pystr) :
  is_digit c = true \/ c = 45 ->
  str_eqb (lower (c :: cs)) (py "no") = false.
Proof.
  intros H. apply str_eqb_neq. unfold lower. cbn [map].
  intros Heq. injection Heq as Hc _. unfold lower_char in Hc.
  destruct H as [H| ->]; [|discriminate Hc].
  unfold is_digit in H. apply andb_true_iff in H. destruct H as [H1 H2].
  apply Z.leb_le in H1, H2.
  destruct ((65 <=? c) && (c <=? 90)) eqn:E; [|lia].
  apply andb_true_iff in E. destruct E as [E _]. apply Z.leb_le in E. lia.
Qed.

(** The presence value is 0 exactly on a case-insensitive match for
    ["no"]. *)
Lemma binary_matches_no (v : cell) :
  binary v = if matches_no v then 0 else 1.
Proof.
  unfold binary, matches_no. destruct v as [s|z|b| |].
  - cbn [py_str]. destruct (str_eqb (lower s) (py "no")); reflexivity.
  - cbn [py_str].
    destruct (int_repr_head z) as [c [cs [E H]]].
    rewrite E, lower_digit_head by assumption. reflexivity.
  - destruct b; reflexivity.
  - reflexivity.
  - reflexivity.
Qed.

Lemma select_rows_map (f : record -> bool) (rs : list record) :
  select_rows rs (map f rs) = filter f rs.
Proof.
  induction rs as [|r rs IH]; simpl; [reflexivity|].
  destruct (f r); rewrite IH; reflexivity.
Qed.

Lemma filter_filter {A : Type} (f g : A -> bool) (l : list A) :
  filter g (filter f l) = filter (fun x => f x && g x) l.
Proof.
  induction l as [|x l IH]; simpl; [reflexivity|].
  destruct (f x); simpl; [destruct (g x)|]; rewrite IH; reflexivity.
Qed.

Lemma ne_text_lower (vals : list cell) :
  ne_text (str_lower vals) (py "no")
  = map (fun v => negb (matches_no v)) vals.
Proof.
  unfold ne_text, str_lower. rewrite map_map. apply map_ext.
  intros [s| | | |]; reflexivity.
Qed.

Lemma filter_step (df : DataFrame) (t : pystr) (rest : list pystr)
  (df' : DataFrame) :
  filter_by_traits df (t :: rest) = Return df' ->
  filter_by_traits
    (mkDF (columns df)
          (filter (fun r => negb (matches_no (cell_at r t))) (rows df)))
    rest = Return df'.
Proof.
  simpl. unfold getitem.
  destruct (col_dtype (columns df) t) as [d|]; simpl; [|discriminate].
  unfold str_accessor; simpl.
  destruct d; simpl; try discriminate.
  destruct (str_values_allowed _); simpl; [|discriminate].
  unfold boolean_index. rewrite ne_text_lower, map_map.
  rewrite (select_rows_map (fun r => negb (matches_no (cell_at r t)))).
  auto.
Qed.

(** The filter, when it returns, keeps the columns and exactly the rows
    that pass for every trait, in their order. *)
Lemma filter_by_traits_rows (traits : list pystr) :
  forall df df',
  filter_by_traits df traits = Return df' ->
  columns df' = columns df /\
  rows df' = filter (passes traits) (rows df).
Proof.
  induction traits as [|t rest IH]; intros df df' H.
  - simpl in H. injection H as <-. split; [reflexivity|].
    unfold passes; simpl. induction (rows df) as [|r rs IHr]; simpl; congruence.
  - apply filter_step in H. apply IH in H. simpl in H.
    destruct H as [Hc Hr]. split; [exact Hc|].
    rewrite Hr, filter_filter. reflexivity.
Qed.

Lemma str_values_allowed_text (vals : list cell) :
  forallb (fun v => is_str v || isna v) vals = true ->
  str_values_allowed vals = true.
Proof.
  unfold str_values_allowed. intros H.
  assert (Hn : forall v, In v (filter (fun v => negb (isna v)) vals) ->
                         is_str v = true).
  { intros v Hv. apply filter_In in Hv. destruct Hv as [Hin Hna].
    rewrite forallb_forall in H. specialize (H v Hin).
    destruct v; simpl in *; congruence. }
  destruct (filter (fun v => negb (isna v)) vals) as [|v nn]; [reflexivity|].
  specialize (Hn v (or_introl eq_refl)).
  destruct v; simpl in *; try discriminate. reflexivity.
Qed.

(** On text columns the filter returns. *)
Lemma filter_by_traits_returns (traits : list pystr) :
  forall df,
  (forall t, In t traits -> text_column df t) ->
  exists df', filter_by_traits df traits = Return df'.
Proof.
  induction traits as [|t rest IH]; intros df H.
  - exists df. reflexivity.
  - destruct (H t (or_introl eq_refl)) as [Hd Hv].
    simpl. unfold getitem. rewrite Hd. simpl.
    unfold str_accessor; simpl.
    rewrite str_values_allowed_text.
    2:{ apply forallb_forall. intros v Hin. apply in_map_iff in Hin.
        destruct Hin as [r [<- Hr]]. apply Hv, Hr. }
    simpl. apply IH. intros t' Ht'.
    destruct (H t' (or_intror Ht')) as [Hd' Hv'].
    split; [exact Hd'|].
    intros r Hr. apply Hv'. simpl in Hr.
    rewrite ne_text_lower, map_map in Hr.
    rewrite (select_rows_map (fun r => negb (matches_no (cell_at r t)))) in Hr.
    apply filter_In in Hr. tauto.
Qed.

End PandasFacts.


Module BuilderFacts.
Import Py Pandas Networkx App Notions PyFacts JsonFacts PandasFacts.

Lemma has_column_dtype (df : DataFrame) (c : pystr) :
  has_column df c = true -> exists d, col_dtype (columns df) c = Some d.
Proof.
  unfold has_column. destruct (col_dtype (columns df) c) as [d|];
    [exists d; reflexivity|discriminate].
Qed.

Lemma getitem_single (df : DataFrame) (r : record) (c : pystr) :
  rows df = [r] -> has_column df c = true ->
  exists d, getitem df c = Return (mkSeries d [cell_at r c]).
Proof.
  intros Hr Hc. destruct (has_column_dtype df c Hc) as [d Hd].
  exists d. unfold getitem. rewrite Hd, Hr. reflexivity.
Qed.

Lemma not_empty_single (df : DataFrame) (r : record) (c : pystr) :
  rows df = [r] -> has_column df c = true -> df_empty df = false.
Proof.
  intros Hr Hc. destruct (has_column_dtype df c Hc) as [d Hd].
  unfold df_empty. rewrite Hr.
  destruct (columns df); [discriminate Hd|reflexivity].
Qed.

(** ** The flow diagram of one row *)

Lemma unique_three (h p e : cell) :
  cell_eqb h p = false -> cell_eqb h e = false -> cell_eqb p e = false ->
  unique [h; p; e] = [h; p; e].
Proof.
  intros Hhp Hhe Hpe. unfold unique. cbn [unique_acc existsb].
  rewrite (cell_eqb_sym p h), Hhp.
  rewrite (cell_eqb_sym e p), Hpe, (cell_eqb_sym e h), Hhe.
  reflexivity.
Qed.

Lemma map_labels_three (h p e : cell) :
  cell_eqb h p = false -> cell_eqb h e = false -> cell_eqb p e = false ->
  map_labels [h; p; e] [h] = [Some 0%nat] /\
  map_labels [h; p; e] [p] = [Some 1%nat] /\
  map_labels [h; p; e] [e] = [Some 2%nat].
Proof.
  intros Hhp Hhe Hpe. unfold map_labels. cbn [map index_from].
  rewrite !cell_eqb_refl, Hhp, Hhe, Hpe. repeat split; reflexivity.
Qed.

(** ** Sorting, first occurrences and positions *)

Lemma insert_sorted_in {A : Type} (leb : A -> A -> bool) (a x : A) (l : list A) :
  In x (insert_sorted leb a l) <-> x = a \/ In x l.
Proof.
  induction l as [|y r IH]; cbn [insert_sorted].
  - simpl. intuition.
  - destruct (leb a y); simpl in *; intuition.
Qed.

Lemma sort_in {A : Type} (leb : A -> A -> bool) (x : A) (l : list A) :
  In x (sort leb l) <-> In x l.
Proof.
  induction l as [|y r IH]; cbn [sort]; [reflexivity|].
  rewrite insert_sorted_in, IH. simpl. intuition.
Qed.

Lemma unique_acc_in (l : list cell) :
  forall (seen : list cell) (x : cell),
  In x l ->
  existsb (cell_eqb x) seen = true \/
  exists y, In y (unique_acc seen l) /\ cell_eqb y x = true.
Proof.
  induction l as [|v r IH]; intros seen x Hin; [contradiction|].
  cbn [unique_acc]. destruct Hin as [->|Hin].
  - destruct (existsb (cell_eqb x) seen) eqn:E; [left; reflexivity|].
    right. exists x. split; [left; reflexivity|apply cell_eqb_refl].
  - destruct (existsb (cell_eqb v) seen) eqn:E.
    + apply IH. exact Hin.
    + destruct (IH (v :: seen) x Hin) as [H|[y [Hy Hyx]]].
      * cbn [existsb] in H. apply orb_true_iff in H. destruct H as [H|H].
        -- right. exists v. split; [left; reflexivity|].
           rewrite cell_eqb_sym. exact H.
        -- left. exact H.
      * right. exists y. split; [right; exact Hy|exact Hyx].
Qed.

Lemma unique_in (l : list cell) (x : cell) :
  In x l -> exists y, In y (unique l) /\ cell_eqb y x = true.
Proof.
  intros Hin. destruct (unique_acc_in l [] x Hin) as [H|H];
    [discriminate H|exact H].
Qed.

Lemma index_from_found (l : list cell) :
  forall (n : nat) (x y : cell),
  In y l -> cell_eqb y x = true ->
  exists i y', index_from n l x = Some (n + i)%nat /\
               nth_error l i = Some y' /\ cell_eqb y' x = true.
Proof.
  induction l as [|a r IH]; intros n x y Hin Hy; [contradiction|].
  cbn [index_from]. destruct (cell_eqb a x) eqn:E.
  - exists 0%nat, a. rewrite Nat.add_0_r. repeat split; assumption.
  - destruct Hin as [->|Hin]; [congruence|].
    destruct (IH (S n) x y Hin Hy) as [i [y' [Hi [Hn Hy']]]].
    exists (S i), y'. rewrite Nat.add_succ_r. repeat split; assumption.
Qed.

(** ** The entries of a pivot *)

Lemma same_entry_find (ms : list (melted_row * Z)) :
  forall (m : melted_row * Z) (i : cell) (c : pystr),
  has_duplicates ms = false -> In m ms ->
  cell_eqb (m_id (fst m)) i = true -> m_var (fst m) = c ->
  entry ms i c = Some (snd m).
Proof.
  induction ms as [|m0 rest IH]; intros m i c Hd Hin Hi Hc; [contradiction|].
  cbn [has_duplicates] in Hd. apply orb_false_iff in Hd.
  destruct Hd as [Hex Hd].
  unfold entry. cbn [find].
  destruct (same_entry i c m0) eqn:E.
  - destruct Hin as [->|Hin]; [reflexivity|].
    exfalso. rewrite <- not_true_iff_false in Hex. apply Hex.
    apply existsb_exists. exists m. split; [exact Hin|].
    unfold same_entry in *. apply andb_true_iff in E. destruct E as [E1 E2].
    apply str_eqb_eq in E2. apply andb_true_iff. split.
    + apply (cell_eqb_trans _ i); [exact Hi|].
      rewrite cell_eqb_sym. exact E1.
    + apply str_eqb_eq. congruence.
  - destruct Hin as [->|Hin].
    + unfold same_entry in E. rewrite Hi, Hc, str_eqb_refl in E. discriminate E.
    + apply (IH m i c Hd Hin Hi Hc).
Qed.

Lemma unique_str_skip (v : pystr) (rs : list record) (f : record -> pystr) :
  (forall r, f r = v) ->
  forall (seen rest : list pystr),
  existsb (str_eqb v) seen = true ->
  unique_str_acc seen (map f rs ++ rest) = unique_str_acc seen rest.
Proof.
  intros Hf seen rest Hs. induction rs as [|r rs IH]; [reflexivity|].
  cbn [map app unique_str_acc]. rewrite Hf, Hs. exact IH.
Qed.

(** ** The melted frame *)

Lemma melted_in (df : DataFrame) (r : record) (t : pystr) :
  In r (rows df) -> In t trait_columns ->
  In (mkMelted (cell_at r (py "Plasmid_ID")) t (cell_at r t),
      binary (cell_at r t))
     (with_binary (melted_of df)).
Proof.
  intros Hr Ht. unfold with_binary, melted_of.
  apply in_map_iff.
  exists (mkMelted (cell_at r (py "Plasmid_ID")) t (cell_at r t)).
  split; [reflexivity|].
  apply in_flat_map. exists t. split; [exact Ht|].
  apply in_map_iff. exists r. split; [reflexivity|exact Hr].
Qed.

Lemma melted_ids_in (df : DataFrame) (r : record) :
  In r (rows df) ->
  In (cell_at r (py "Plasmid_ID"))
     (map (fun m => m_id (fst m)) (with_binary (melted_of df))).
Proof.
  intros Hr. apply in_map_iff.
  exists (mkMelted (cell_at r (py "Plasmid_ID")) (py "ARGs")
            (cell_at r (py "ARGs")), binary (cell_at r (py "ARGs"))).
  split; [reflexivity|].
  apply melted_in; [exact Hr|left; reflexivity].
Qed.

(** The columns of the pivot are the four traits, sorted. *)
Lemma melted_columns (df : DataFrame) :
  rows df <> [] ->
  sort str_leb
    (unique_str_acc [] (map (fun m => m_var (fst m))
                            (with_binary (melted_of df))))
  = matrix_columns.
Proof.
  intros Hne. unfold with_binary, melted_of. rewrite map_map. cbn [fst].
  unfold trait_columns. cbn [flat_map]. rewrite app_nil_r.
  rewrite !map_app, !map_map. cbn [m_var].
  destruct (rows df) as [|r0 rs]; [congruence|].
  cbn [map app unique_str_acc existsb].
  rewrite (@unique_str_skip (py "ARGs") rs (fun _ => py "ARGs"))
    by reflexivity.
  cbn [unique_str_acc existsb].
  change (str_eqb (py "Virulence") (py "ARGs")) with false.
  cbn [orb].
  rewrite (@unique_str_skip (py "Virulence") rs (fun _ => py "Virulence"))
    by reflexivity.
  cbn [unique_str_acc existsb].
  change (str_eqb (py "T4SS") (py "Virulence")) with false.
  change (str_eqb (py "T4SS") (py "ARGs")) with false.
  cbn [orb].
  rewrite (@unique_str_skip (py "T4SS") rs (fun _ => py "T4SS"))
    by reflexivity.
  cbn [unique_str_acc existsb].
  change (str_eqb (py "MGEs") (py "T4SS")) with false.
  change (str_eqb (py "MGEs") (py "Virulence")) with false.
  change (str_eqb (py "MGEs") (py "ARGs")) with false.
  cbn [orb].
  replace (map (fun _ : record => py "MGEs") rs)
    with (map (fun _ : record => py "MGEs") rs ++ []) by apply app_nil_r.
  rewrite (@unique_str_skip (py "MGEs") rs (fun _ => py "MGEs"))
    by reflexivity.
  reflexivity.
Qed.

Lemma melted_single (df : DataFrame) (r : record) :
  rows df = [r] ->
  with_binary (melted_of df)
  = map (fun t => (mkMelted (cell_at r (py "Plasmid_ID")) t (cell_at r t),
                   binary (cell_at r t))) trait_columns.
Proof.
  intros Hr. unfold with_binary, melted_of. rewrite Hr. reflexivity.
Qed.

(** The pivot of the melted frame of one row: one row label, the four
    sorted traits, one row of presence values. *)
Lemma pivot_single (df : DataFrame) (r : record) :
  rows df = [r] ->
  pivot (with_binary (melted_of df))
  = Return (mkPivoted [cell_at r (py "Plasmid_ID")] matrix_columns
              [map (fun c => Some (binary (cell_at r c))) matrix_columns]).
Proof.
  intros Hr. unfold pivot.
  rewrite melted_columns by (rewrite Hr; discriminate).
  rewrite (melted_single df Hr).
  set (id := cell_at r (py "Plasmid_ID")).
  set (bA := binary (cell_at r (py "ARGs"))).
  set (bV := binary (cell_at r (py "Virulence"))).
  set (bT := binary (cell_at r (py "T4SS"))).
  set (bM := binary (cell_at r (py "MGEs"))).
  unfold trait_columns. cbn [map].
  fold id. fold bA. fold bV. fold bT. fold bM.
  cbn [has_duplicates existsb fst]. unfold same_entry. cbn [fst m_id m_var].
  rewrite !cell_eqb_refl.
  cbn [andb orb].
  replace (str_eqb (py "Virulence") (py "ARGs")) with false by reflexivity.
  replace (str_eqb (py "T4SS") (py "ARGs")) with false by reflexivity.
  replace (str_eqb (py "MGEs") (py "ARGs")) with false by reflexivity.
  replace (str_eqb (py "T4SS") (py "Virulence")) with false by reflexivity.
  replace (str_eqb (py "MGEs") (py "Virulence")) with false by reflexivity.
  replace (str_eqb (py "MGEs") (py "T4SS")) with false by reflexivity.
  cbn [orb].
  unfold unique. cbn [unique_acc existsb]. rewrite ?cell_eqb_refl.
  cbn [orb unique_acc existsb]. rewrite ?cell_eqb_refl.
  cbn [orb unique_acc existsb]. rewrite ?cell_eqb_refl.
  cbn [orb unique_acc existsb].
  cbn [sort insert_sorted map matrix_columns].
  unfold entry, same_entry. cbn [find fst snd m_id m_var].
  rewrite !cell_eqb_refl. cbn [andb].
  reflexivity.
Qed.

Lemma cell_at_set (r : record) (t c : pystr) (v : cell) :
  cell_at (set_cell r t v) c = if str_eqb t c then v else cell_at r c.
Proof.
  induction r as [|[k x] r' IH].
  - reflexivity.
  - cbn [set_cell]. destruct (str_eqb k t) eqn:Ekt.
    + apply str_eqb_eq in Ekt. subst k. cbn [cell_at].
      destruct (str_eqb t c); reflexivity.
    + cbn [cell_at]. rewrite IH.
      destruct (str_eqb k c) eqn:Ekc; [|reflexivity].
      apply str_eqb_eq in Ekc. subst c. rewrite str_eqb_neq in Ekt.
      destruct (str_eqb t k) eqn:Etk; [|reflexivity].
      apply str_eqb_eq in Etk. congruence.
Qed.

Section Builders.
Variable coord : Type.
Variable valid_trace : Trace coord -> bool.
Variable valid_layout : Layout -> bool.

(** On a frame of one row whose host, element and environment differ, the
    flow builder hands plotly three labels and two links of weight one. *)
Lemma create_sankey_single (df : DataFrame) (r : record) (style : json) :
  rows df = [r] ->
  has_column df (py "Host_Genome") = true ->
  has_column df (py "Plasmid_ID") = true ->
  has_column df (py "Environment") = true ->
  cell_eqb (cell_at r (py "Host_Genome")) (cell_at r (py "Plasmid_ID")) = false ->
  cell_eqb (cell_at r (py "Host_Genome")) (cell_at r (py "Environment")) = false ->
  cell_eqb (cell_at r (py "Plasmid_ID")) (cell_at r (py "Environment")) = false ->
  create_sankey valid_trace valid_layout df style
  = (thickness <- subscript style (py "node_size") ;;
     color <- subscript style (py "node_color") ;;
     link_color <- subscript style (py "edge_color") ;;
     trace <- new_trace valid_trace
                (Sankey [cell_at r (py "Host_Genome");
                         cell_at r (py "Plasmid_ID");
                         cell_at r (py "Environment")]
                        thickness color
                        [Some 0%nat; Some 1%nat] [Some 1%nat; Some 2%nat]
                        [1; 1] link_color) ;;
     fs <- subscript style (py "font_size") ;;
     bg <- subscript style (py "bg_color") ;;
     layout <- update_layout valid_layout
                 (mkLayout (py "Flow of Genetic Material via Plasmids")
                           fs bg false) ;;
     Return (mkFigure [trace] (Some layout))).
Proof.
  intros Hr Hh Hp He Dhp Dhe Dpe.
  unfold create_sankey.
  rewrite (not_empty_single df (py "Plasmid_ID") Hr Hp).
  destruct (getitem_single df (py "Host_Genome") Hr Hh) as [dh Gh].
  destruct (getitem_single df (py "Plasmid_ID") Hr Hp) as [dp Gp].
  destruct (getitem_single df (py "Environment") Hr He) as [de Ge].
  rewrite Gh, Gp, Ge. cbn [bind tolist s_values app].
  rewrite unique_three by assumption.
  destruct (@map_labels_three _ _ _ Dhp Dhe Dpe) as [Mh [Mp Me]].
  rewrite Mh, Mp, Me. reflexivity.
Qed.

Lemma new_trace_Return (t t' : Trace coord) :
  new_trace valid_trace t = Return t' -> t' = t.
Proof.
  unfold new_trace. destruct (valid_trace t); congruence.
Qed.

(** What the matrix builder hands to plotly when it returns. *)
Lemma create_heatmap_Return (df : DataFrame) (scale style : json)
  (fig : Figure coord) :
  df_empty df = false ->
  create_heatmap valid_trace valid_layout df scale style = Return fig ->
  has_duplicates (with_binary (melted_of df)) = false /\
  matrix_of fig
  = Some (sort cell_leb
            (unique (map (fun m => m_id (fst m)) (with_binary (melted_of df)))),
          sort str_leb
            (unique_str_acc [] (map (fun m => m_var (fst m))
                                    (with_binary (melted_of df)))),
          map (map (fun v => match v with Some z => z | None => 0 end))
            (map (fun i => map (fun c => entry (with_binary (melted_of df)) i c)
                               (sort str_leb
                                  (unique_str_acc []
                                     (map (fun m => m_var (fst m))
                                          (with_binary (melted_of df))))))
                 (sort cell_leb
                    (unique (map (fun m => m_id (fst m))
                                 (with_binary (melted_of df))))))).
Proof.
  intros He H. unfold create_heatmap in H. rewrite He in H.
  unfold melt in H.
  destruct (has_column df (py "Presence")); [discriminate H|].
  destruct (forallb (has_column df) (py "Plasmid_ID" :: trait_columns));
    [|discriminate H].
  cbn [negb bind] in H.
  fold (melted_of df) in H. fold (with_binary (melted_of df)) in H.
  unfold pivot in H.
  destruct (has_duplicates (with_binary (melted_of df))); [discriminate H|].
  split; [reflexivity|].
  cbn [bind] in H.
  apply bind_Return in H. destruct H as [trace [Ht H]].
  apply new_trace_Return in Ht. subst trace.
  apply bind_Return in H. destruct H as [fs [_ H]].
  apply bind_Return in H. destruct H as [bg [_ H]].
  apply bind_Return in H. destruct H as [layout [_ H]].
  injection H as <-. reflexivity.
Qed.

(** Every cell of the presence matrix holds the presence value of its row
    and trait. *)
Lemma create_heatmap_cell (df : DataFrame) (scale style : json)
  (fig : Figure coord) (r : record) (t : pystr) :
  create_heatmap valid_trace valid_layout df scale style = Return fig ->
  has_column df t = true -> In r (rows df) -> In t trait_columns ->
  heat_cell fig (cell_at r (py "Plasmid_ID")) t = Some (binary (cell_at r t)).
Proof.
  intros H Hc Hr Ht.
  assert (He : df_empty df = false).
  { destruct (has_column_dtype df t Hc) as [d Hd]. unfold df_empty.
    destruct (columns df); [discriminate Hd|].
    destruct (rows df); [contradiction|reflexivity]. }
  destruct (create_heatmap_Return df scale style He H) as [Hnd Hm].
  rewrite melted_columns in Hm.
  2:{ intros E. rewrite E in Hr. contradiction. }
  unfold heat_cell. rewrite Hm.
  destruct (unique_in _ _ (melted_ids_in df r Hr)) as [y [Hy Hyx]].
  apply (sort_in cell_leb) in Hy.
  destruct (index_from_found _ 0 _ y Hy Hyx) as [i [y' [Hi [Hn Hy']]]].
  rewrite Hi. cbn [Nat.add].
  assert (Hentry : forall c, In c trait_columns ->
            entry (with_binary (melted_of df)) y' c
            = Some (binary (cell_at r c))).
  { intros c Hcin.
    apply (same_entry_find _
             (mkMelted (cell_at r (py "Plasmid_ID")) c (cell_at r c),
              binary (cell_at r c))).
    - exact Hnd.
    - apply melted_in; assumption.
    - cbn [fst m_id]. rewrite cell_eqb_sym. exact Hy'.
    - reflexivity. }
  rewrite (map_nth_error _ _ _ (map_nth_error _ _ _ Hn)).
  unfold trait_columns in Ht. cbn [In] in Ht.
  destruct Ht as [<-|[<-|[<-|[<-|[]]]]];
    match goal with
    | |- context [index_str 0 matrix_columns ?t] =>
      let v := eval vm_compute in (index_str 0 matrix_columns t) in
      change (index_str 0 matrix_columns t) with v
    end;
    cbn [matrix_columns map nth_error];
    rewrite Hentry by (unfold trait_columns; cbn [In]; tauto);
    reflexivity.
Qed.

(** On a frame of one row that has the identifier and the four trait
    columns, the matrix builder hands plotly one row of presence values. *)
Lemma create_heatmap_single (df : DataFrame) (r : record) (scale style : json) :
  rows df = [r] ->
  forallb (has_column df) (py "Plasmid_ID" :: trait_columns) = true ->
  has_column df (py "Presence") = false ->
  create_heatmap valid_trace valid_layout df scale style
  = (trace <- new_trace valid_trace
                (Heatmap [cell_at r (py "Plasmid_ID")] matrix_columns
                         [map (fun c => binary (cell_at r c)) matrix_columns]
                         scale) ;;
     fs <- subscript style (py "font_size") ;;
     bg <- subscript style (py "bg_color") ;;
     layout <- update_layout valid_layout
                 (mkLayout (py "Presence of Plasmid-Associated Traits")
                           fs bg false) ;;
     Return (mkFigure [trace] (Some layout))).
Proof.
  intros Hr Hcols Hpres. unfold create_heatmap.
  assert (Hp : has_column df (py "Plasmid_ID") = true).
  { cbn [forallb] in Hcols. apply andb_true_iff in Hcols. tauto. }
  rewrite (not_empty_single df (py "Plasmid_ID") Hr Hp).
  unfold melt. rewrite Hpres, Hcols. cbn [negb bind].
  fold (melted_of df). fold (with_binary (melted_of df)).
  rewrite (pivot_single df Hr). reflexivity.
Qed.

Lemma update_layout_Return (l l' : Layout) :
  update_layout valid_layout l = Return l' -> l' = l.
Proof.
  unfold update_layout. destruct (valid_layout l); congruence.
Qed.

Lemma create_heatmap_single_matrix (df : DataFrame) (r : record)
  (scale style : json) (fig : Figure coord) :
  rows df = [r] ->
  forallb (has_column df) (py "Plasmid_ID" :: trait_columns) = true ->
  has_column df (py "Presence") = false ->
  create_heatmap valid_trace valid_layout df scale style = Return fig ->
  matrix_of fig
  = Some ([cell_at r (py "Plasmid_ID")], matrix_columns,
          [map (fun c => binary (cell_at r c)) matrix_columns]).
Proof.
  intros Hr Hcols Hpres H.
  rewrite (create_heatmap_single df scale style Hr Hcols Hpres) in H.
  apply bind_Return in H. destruct H as [trace [Ht H]].
  apply new_trace_Return in Ht. subst trace.
  apply bind_Return in H. destruct H as [fs [_ H]].
  apply bind_Return in H. destruct H as [bg [_ H]].
  apply bind_Return in H. destruct H as [layout [_ H]].
  injection H as <-. reflexivity.
Qed.

Lemma create_sankey_single_data (df : DataFrame) (r : record) (style : json)
  (fig : Figure coord) :
  rows df = [r] ->
  has_column df (py "Host_Genome") = true ->
  has_column df (py "Plasmid_ID") = true ->
  has_column df (py "Environment") = true ->
  cell_eqb (cell_at r (py "Host_Genome")) (cell_at r (py "Plasmid_ID")) = false ->
  cell_eqb (cell_at r (py "Host_Genome")) (cell_at r (py "Environment")) = false ->
  cell_eqb (cell_at r (py "Plasmid_ID")) (cell_at r (py "Environment")) = false ->
  create_sankey valid_trace valid_layout df style = Return fig ->
  flow_labels fig
  = Some [cell_at r (py "Host_Genome"); cell_at r (py "Plasmid_ID");
          cell_at r (py "Environment")] /\
  flow_links fig
  = Some [(Some 0%nat, Some 1%nat, 1); (Some 1%nat, Some 2%nat, 1)].
Proof.
  intros Hr Hh Hp He Dhp Dhe Dpe H.
  rewrite (create_sankey_single df style Hr Hh Hp He Dhp Dhe Dpe) in H.
  apply bind_Return in H. destruct H as [th [_ H]].
  apply bind_Return in H. destruct H as [col [_ H]].
  apply bind_Return in H. destruct H as [lc [_ H]].
  apply bind_Return in H. destruct H as [trace [Ht H]].
  apply new_trace_Return in Ht. subst trace.
  apply bind_Return in H. destruct H as [fs [_ H]].
  apply bind_Return in H. destruct H as [bg [_ H]].
  apply bind_Return in H. destruct H as [layout [_ H]].
  injection H as <-. split; reflexivity.
Qed.

End Builders.

End BuilderFacts.

(* ================================================================= *)
(** * Facts about uploads that are not files *)

Module UploadFacts.
Import Py Pandas Networkx Upload App Notions.
Import PyFacts Base64Facts.

Lemma split_on_cons (sep c : Z) (r : pystr) :
  exists h t, split_on sep (c :: r) = h :: t.
Proof.
  revert c. induction r as [|c' r IH]; intros c.
  - cbn. destruct (c =? sep); eauto.
  - destruct (IH c') as [h [t E]].
    cbn [split_on]. cbn [split_on] in E.
    destruct (c =? sep); [eauto|].
    rewrite E. eauto.
Qed.

Lemma split_on_length (sep : Z) (s : pystr) :
  List.length (split_on sep s) = S (count_occ Z.eq_dec s sep).
Proof.
  induction s as [|c r IH]; [reflexivity|].
  cbn [split_on count_occ].
  destruct (Z.eqb_spec c sep) as [->|Hne].
  - destruct (Z.eq_dec sep sep) as [_|N]; [|contradiction].
    cbn [List.length]. rewrite IH. reflexivity.
  - destruct (Z.eq_dec c sep) as [E|_]; [contradiction|].
    destruct (split_on sep r) as [|h t]; [discriminate IH|].
    exact IH.
Qed.

Lemma unpack2_length {A : Type} (parts : list A) :
  List.length parts <> 2%nat -> unpack2 parts = Raise ValueError.
Proof.
  destruct parts as [|a [|b [|c r]]]; cbn; intros H; try reflexivity.
  contradiction H. reflexivity.
Qed.

Lemma split_one_comma (head payload : pystr) :
  ~ In 44 head -> ~ In 44 payload ->
  unpack2 (split_on 44 (head ++ 44 :: payload)) = Return (head, payload).
Proof.
  intros Hh Hp. rewrite split_on_app by assumption.
  rewrite split_on_none by assumption. reflexivity.
Qed.

(** A character of the base64 alphabet. *)
Lemma alphabet_char (c : Z) :
  b64_value c <> None -> c <> 61 /\ c <> 44 /\ 0 <= c < 128.
Proof.
  unfold b64_value. intros H.
  destruct ((65 <=? c) && (c <=? 90)) eqn:E1; [lia|].
  destruct ((97 <=? c) && (c <=? 122)) eqn:E2; [lia|].
  destruct ((48 <=? c) && (c <=? 57)) eqn:E3; [lia|].
  destruct (Z.eqb_spec c 43); [lia|].
  destruct (Z.eqb_spec c 47); [lia|].
  contradiction H. reflexivity.
Qed.

(** On characters of the alphabet alone the loop ends well exactly when it
    stops at the end of a group of four. *)
Lemma a2b_alphabet (s : list Z) :
  Forall (fun c => b64_value c <> None) s ->
  forall q l p out,
  0 <= q < 4 ->
  if (q + Z.of_nat (List.length s)) mod 4 =? 0
  then exists bs, a2b_loop s q l p out = Return bs
  else a2b_loop s q l p out = Raise BinasciiError.
Proof.
  induction 1 as [|c s Hc Hs IH]; intros q l p out Hq.
  - cbn [List.length a2b_loop]. rewrite Z.add_0_r.
    rewrite Z.mod_small by lia.
    destruct (q =? 0); [eexists; reflexivity|reflexivity].
  - pose proof (@alphabet_char c Hc) as [H61 _].
    cbn [a2b_loop].
    destruct (Z.eqb_spec c 61) as [E|_]; [contradiction|].
    destruct (b64_value c) as [v|]; [|contradiction Hc; reflexivity].
    replace (q + Z.of_nat (List.length (c :: s)))
      with ((q + 1) + Z.of_nat (List.length s))
      by (cbn [List.length]; lia).
    destruct (Z.eqb_spec q 0) as [->|N0].
    { apply (IH 1); lia. }
    destruct (Z.eqb_spec q 1) as [->|N1].
    { apply (IH 2); lia. }
    destruct (Z.eqb_spec q 2) as [->|N2].
    { apply (IH 3); lia. }
    assert (q = 3) as -> by lia.
    replace ((3 + 1 + Z.of_nat (List.length s)) mod 4)
      with ((0 + Z.of_nat (List.length s)) mod 4).
    { apply (IH 0); lia. }
    replace (3 + 1 + Z.of_nat (List.length s))
      with (0 + Z.of_nat (List.length s) + 1 * 4) by lia.
    rewrite Z.mod_add by lia. reflexivity.
Qed.

Lemma b64decode_alphabet (s : pystr) :
  Forall (fun c => b64_value c <> None) s ->
  (Z.of_nat (List.length s)) mod 4 <> 0 ->
  b64decode s = Raise BinasciiError.
Proof.
  intros Hs Hn. unfold b64decode.
  assert (Ha : forallb (fun c => (0 <=? c) && (c <? 128)) s = true).
  { apply forallb_forall. intros c Hc.
    rewrite Forall_forall in Hs.
    destruct (@alphabet_char c (Hs c Hc)) as [_ [_ R]]. lia. }
  rewrite Ha.
  pose proof (@a2b_alphabet s Hs 0 0 0 [] ltac:(lia)) as H.
  cbn [Z.add] in H.
  destruct (Z.eqb_spec (Z.of_nat (List.length s) mod 4) 0); [contradiction|].
  exact H.
Qed.

End UploadFacts.

(* ================================================================= *)
(** * Facts about the lists the figure builders make *)

Module FigureFacts.
Import Py Pandas Networkx Upload App Notions.
Import PyFacts PandasFacts BuilderFacts.

Lemma existsb_cell_eqb (x : cell) (l : list cell) :
  existsb (cell_eqb x) l = true <->
  exists y, In y l /\ cell_eqb y x = true.
Proof.
  rewrite existsb_exists. split; intros [y [Hy E]]; exists y;
    (split; [exact Hy|]); rewrite cell_eqb_sym; exact E.
Qed.

(** What [pd.unique] keeps was in the input and was not seen before. *)
Lemma unique_acc_fresh (l : list cell) :
  forall seen y,
  In y (unique_acc seen l) -> In y l /\ existsb (cell_eqb y) seen = false.
Proof.
  induction l as [|v r IH]; intros seen y H; [contradiction|].
  cbn [unique_acc] in H.
  destruct (existsb (cell_eqb v) seen) eqn:E.
  - destruct (IH _ _ H) as [Hin Hs]. split; [right; exact Hin|exact Hs].
  - destruct H as [<-|H]; [split; [left; reflexivity|exact E]|].
    destruct (IH _ _ H) as [Hin Hs]. split; [right; exact Hin|].
    cbn [existsb] in Hs. apply orb_false_iff in Hs. tauto.
Qed.

(** [pd.unique] returns no value twice. *)
Lemma unique_acc_distinct (l : list cell) :
  forall seen i j x y,
  nth_error (unique_acc seen l) i = Some x ->
  nth_error (unique_acc seen l) j = Some y ->
  cell_eqb x y = true -> i = j.
Proof.
  induction l as [|v r IH]; intros seen i j x y Hi Hj E.
  - destruct i; discriminate Hi.
  - cbn [unique_acc] in Hi, Hj.
    destruct (existsb (cell_eqb v) seen); [apply (IH _ _ _ _ _ Hi Hj E)|].
    destruct i as [|i], j as [|j]; cbn [nth_error] in Hi, Hj.
    + reflexivity.
    + injection Hi as <-. apply nth_error_In in Hj.
      apply unique_acc_fresh in Hj. destruct Hj as [_ Hs].
      cbn [existsb] in Hs. apply orb_false_iff in Hs.
      rewrite cell_eqb_sym in E. destruct Hs as [Hs _]. congruence.
    + injection Hj as <-. apply nth_error_In in Hi.
      apply unique_acc_fresh in Hi. destruct Hi as [_ Hs].
      cbn [existsb] in Hs. apply orb_false_iff in Hs.
      destruct Hs as [Hs _]. congruence.
    + f_equal. apply (IH _ _ _ _ _ Hi Hj E).
Qed.

Lemma combine_app_same {A B : Type} (a a' : list A) (b b' : list B) :
  List.length a = List.length b ->
  combine (a ++ a') (b ++ b') = combine a b ++ combine a' b'.
Proof.
  revert b. induction a as [|x a IH]; intros [|y b] H; try discriminate H.
  - reflexivity.
  - cbn. f_equal. apply IH. injection H as H. exact H.
Qed.

Lemma combine_map {A B C : Type} (f : A -> B) (g : A -> C) (l : list A) :
  combine (map f l) (map g l) = map (fun x => (f x, g x)) l.
Proof.
  induction l as [|x l IH]; cbn; [reflexivity|]. rewrite IH. reflexivity.
Qed.

Lemma combine_repeat {A B : Type} (l : list A) (b : B) (n : nat) :
  (List.length l <= n)%nat ->
  combine l (repeat b n) = map (fun x => (x, b)) l.
Proof.
  revert n. induction l as [|x l IH]; intros n H; [reflexivity|].
  destruct n as [|n]; [cbn in H; lia|].
  cbn. f_equal. apply IH. cbn in H. lia.
Qed.

Lemma getitem_column (df : DataFrame) (c : pystr) :
  has_column df c = true ->
  exists d, getitem df c
            = Return (mkSeries d (map (fun r => cell_at r c) (rows df))).
Proof.
  unfold has_column, getitem.
  destruct (col_dtype (columns df) c) as [d|]; [|discriminate].
  intros _. exists d. reflexivity.
Qed.

Lemma getitem_missing (df : DataFrame) (c : pystr) :
  has_column df c = false -> getitem df c = Raise KeyError.
Proof.
  unfold has_column, getitem.
  destruct (col_dtype (columns df) c); [discriminate|reflexivity].
Qed.

Section Builders.
Variable coord : Type.
Variable valid_trace : Trace coord -> bool.
Variable valid_layout : Layout -> bool.

(** The flow builder needs its three columns. *)
Lemma create_sankey_columns (df : DataFrame) (style : json)
  (fig : Figure coord) :
  df_empty df = false ->
  create_sankey valid_trace valid_layout df style = Return fig ->
  has_column df (py "Host_Genome") = true /\
  has_column df (py "Plasmid_ID") = true /\
  has_column df (py "Environment") = true.
Proof.
  intros He H. unfold create_sankey in H. rewrite He in H.
  destruct (has_column df (py "Host_Genome")) eqn:Hh.
  2:{ rewrite (getitem_missing _ _ Hh) in H. discriminate H. }
  destruct (getitem_column _ _ Hh) as [dh Gh]. rewrite Gh in H.
  cbn [bind] in H.
  destruct (has_column df (py "Plasmid_ID")) eqn:Hp.
  2:{ rewrite (getitem_missing _ _ Hp) in H. discriminate H. }
  destruct (getitem_column _ _ Hp) as [dp Gp]. rewrite Gp in H.
  cbn [bind] in H.
  destruct (has_column df (py "Environment")) eqn:Hv.
  2:{ rewrite (getitem_missing _ _ Hv) in H. discriminate H. }
  repeat split.
Qed.

(** What the flow builder hands to plotly when it returns. *)
Lemma create_sankey_Return (df : DataFrame) (style : json)
  (fig : Figure coord) :
  df_empty df = false ->
  create_sankey valid_trace valid_layout df style = Return fig ->
  let hosts := map (fun r => cell_at r (py "Host_Genome")) (rows df) in
  let plasmids := map (fun r => cell_at r (py "Plasmid_ID")) (rows df) in
  let environments := map (fun r => cell_at r (py "Environment")) (rows df) in
  let labels := unique (hosts ++ plasmids ++ environments) in
  exists thickness color link_color,
    fig_data fig
    = [Sankey labels thickness color
              (map_labels labels hosts ++ map_labels labels plasmids)
              (map_labels labels plasmids ++ map_labels labels environments)
              (repeat 1 (List.length (map_labels labels hosts
                                        ++ map_labels labels plasmids)))
              link_color].
Proof.
  intros He H.
  destruct (create_sankey_columns df style He H) as [Hh [Hp Hv]].
  unfold create_sankey in H. rewrite He in H.
  destruct (getitem_column _ _ Hh) as [dh Gh].
  destruct (getitem_column _ _ Hp) as [dp Gp].
  destruct (getitem_column _ _ Hv) as [dv Gv].
  rewrite Gh, Gp, Gv in H. cbn [bind tolist s_values] in H.
  apply bind_Return in H. destruct H as [th [_ H]].
  apply bind_Return in H. destruct H as [col [_ H]].
  apply bind_Return in H. destruct H as [lc [_ H]].
  apply bind_Return in H. destruct H as [trace [Ht H]].
  apply new_trace_Return in Ht. subst trace.
  apply bind_Return in H. destruct H as [fs [_ H]].
  apply bind_Return in H. destruct H as [bg [_ H]].
  apply bind_Return in H. destruct H as [layout [_ H]].
  injection H as <-. cbn zeta. exists th, col, lc. reflexivity.
Qed.

End Builders.

End FigureFacts.

(* ================================================================= *)
(** * Facts about the pivot of the melted frame *)

Module PivotFacts.
Import Py Pandas Networkx Upload App Notions.
Import PyFacts PandasFacts BuilderFacts FigureFacts.

(** [pd.unique] looks at what has been seen only through membership. *)
Lemma unique_acc_ext (l : list cell) :
  forall s1 s2,
  (forall v, existsb (cell_eqb v) s1 = existsb (cell_eqb v) s2) ->
  unique_acc s1 l = unique_acc s2 l.
Proof.
  induction l as [|v r IH]; intros s1 s2 H; [reflexivity|].
  cbn [unique_acc]. rewrite (H v).
  destruct (existsb (cell_eqb v) s2); [apply IH, H|].
  f_equal. apply IH. intros w. cbn [existsb]. rewrite (H w). reflexivity.
Qed.

Lemma unique_acc_app (a b : list cell) :
  forall seen,
  unique_acc seen (a ++ b) = unique_acc seen a ++ unique_acc (a ++ seen) b.
Proof.
  induction a as [|v r IH]; intros seen; [reflexivity|].
  cbn [app unique_acc].
  destruct (existsb (cell_eqb v) seen) eqn:E.
  - rewrite IH. f_equal. apply unique_acc_ext. intros w.
    cbn [app existsb]. rewrite !existsb_app.
    destruct (cell_eqb w v) eqn:Ew; [|reflexivity].
    cbn [orb].
    assert (Hw : existsb (cell_eqb w) seen = true).
    { apply existsb_exists in E. destruct E as [y [Hy Ey]].
      apply existsb_exists. exists y. split; [exact Hy|].
      apply (cell_eqb_trans _ _ _ Ew Ey). }
    rewrite Hw, !orb_true_r. reflexivity.
  - rewrite IH. cbn [app]. f_equal. f_equal. apply unique_acc_ext. intros w.
    cbn [app existsb]. rewrite !existsb_app. cbn [existsb].
    destruct (cell_eqb w v), (existsb (cell_eqb w) r),
      (existsb (cell_eqb w) seen); reflexivity.
Qed.

Lemma unique_acc_seen (b : list cell) :
  forall seen,
  (forall x, In x b -> existsb (cell_eqb x) seen = true) ->
  unique_acc seen b = [].
Proof.
  induction b as [|v r IH]; intros seen H; [reflexivity|].
  cbn [unique_acc]. rewrite (H v (or_introl eq_refl)).
  apply IH. intros x Hx. apply H. right. exact Hx.
Qed.

Lemma unique_acc_distinct_cells (l : list cell) :
  forall seen,
  distinct_cells l = true ->
  (forall x, In x l -> existsb (cell_eqb x) seen = false) ->
  unique_acc seen l = l.
Proof.
  induction l as [|v r IH]; intros seen Hd Hs; [reflexivity|].
  cbn [distinct_cells] in Hd. apply andb_true_iff in Hd.
  destruct Hd as [Hv Hd]. apply negb_true_iff in Hv.
  cbn [unique_acc]. rewrite (Hs v (or_introl eq_refl)).
  f_equal. apply IH; [exact Hd|].
  intros x Hx. cbn [existsb]. rewrite (Hs x (or_intror Hx)), orb_false_r.
  destruct (cell_eqb x v) eqn:E; [|reflexivity].
  rewrite cell_eqb_sym in E.
  assert (existsb (cell_eqb v) r = true); [|congruence].
  apply existsb_exists. exists x. split; assumption.
Qed.

Lemma existsb_self (x : cell) (l : list cell) :
  In x l -> existsb (cell_eqb x) l = true.
Proof.
  intros H. apply existsb_exists. exists x. split; [exact H|].
  apply cell_eqb_refl.
Qed.

(** Repeating a list of different values adds nothing to its unique
    values. *)
Lemma unique_four (l : list cell) :
  distinct_cells l = true ->
  unique (l ++ l ++ l ++ l ++ []) = l.
Proof.
  intros Hd. unfold unique.
  rewrite unique_acc_app.
  rewrite (unique_acc_distinct_cells l [] Hd) by reflexivity.
  rewrite (unique_acc_seen (l ++ l ++ l ++ [])).
  - apply app_nil_r.
  - intros x Hx. rewrite app_nil_r. apply existsb_self.
    rewrite !in_app_iff in Hx. cbn [In] in Hx. tauto.
Qed.

Lemma insert_sorted_length {A : Type} (leb : A -> A -> bool) (x : A)
  (l : list A) :
  List.length (insert_sorted leb x l) = S (List.length l).
Proof.
  induction l as [|y r IH]; [reflexivity|].
  cbn [insert_sorted]. destruct (leb x y); cbn [List.length]; congruence.
Qed.

Lemma sort_length {A : Type} (leb : A -> A -> bool) (l : list A) :
  List.length (sort leb l) = List.length l.
Proof.
  induction l as [|x r IH]; [reflexivity|].
  cbn [sort]. rewrite insert_sorted_length, IH. reflexivity.
Qed.

(** Duplicates in a list made of two parts. *)
Lemma has_duplicates_app (a b : list (melted_row * Z)) :
  has_duplicates (a ++ b)
  = has_duplicates a || has_duplicates b
    || existsb (fun m => existsb (same_entry (m_id (fst m)) (m_var (fst m))) b) a.
Proof.
  induction a as [|m a IH]; cbn [app has_duplicates existsb].
  - rewrite orb_false_r. reflexivity.
  - rewrite IH, existsb_app.
    destruct (existsb (same_entry (m_id (fst m)) (m_var (fst m))) a),
      (existsb (same_entry (m_id (fst m)) (m_var (fst m))) b),
      (has_duplicates a), (has_duplicates b); cbn [orb];
      rewrite ?orb_true_r; reflexivity.
Qed.

Lemma melted_blocks (df : DataFrame) :
  with_binary (melted_of df)
  = trait_block (py "ARGs") (rows df)
    ++ trait_block (py "Virulence") (rows df)
    ++ trait_block (py "T4SS") (rows df)
    ++ trait_block (py "MGEs") (rows df) ++ [].
Proof.
  unfold with_binary, melted_of, trait_columns, trait_block.
  cbn [flat_map]. rewrite !map_app, !map_map. reflexivity.
Qed.

Lemma melted_ids (df : DataFrame) :
  map (fun m => m_id (fst m)) (with_binary (melted_of df))
  = plasmid_ids df ++ plasmid_ids df ++ plasmid_ids df ++ plasmid_ids df ++ [].
Proof.
  rewrite melted_blocks. unfold trait_block, plasmid_ids.
  rewrite !map_app, !map_map. reflexivity.
Qed.

Lemma existsb_mapped {A B : Type} (f : A -> B) (p : B -> bool) (l : list A) :
  existsb p (map f l) = existsb (fun x => p (f x)) l.
Proof.
  induction l as [|x l IH]; [reflexivity|].
  cbn [map existsb]. rewrite IH. reflexivity.
Qed.

Lemma existsb_same {A : Type} (p q : A -> bool) (l : list A) :
  (forall x, p x = q x) -> existsb p l = existsb q l.
Proof.
  intros H. induction l as [|x l IH]; [reflexivity|].
  cbn [existsb]. rewrite H, IH. reflexivity.
Qed.

Lemma block_duplicates (t : pystr) (rs : list record) :
  has_duplicates (trait_block t rs)
  = negb (distinct_cells (map (fun r => cell_at r (py "Plasmid_ID")) rs)).
Proof.
  induction rs as [|r rs IH]; [reflexivity|].
  cbn [trait_block map has_duplicates distinct_cells fst m_id m_var].
  fold (trait_block t rs). rewrite IH, negb_andb, negb_involutive.
  f_equal. unfold trait_block. rewrite !existsb_mapped.
  apply existsb_same. intros r'.
  unfold same_entry. cbn [fst m_id m_var].
  rewrite str_eqb_refl, andb_true_r. apply cell_eqb_sym.
Qed.

Lemma cross_blocks (t : pystr) (rs : list record) (b : list (melted_row * Z)) :
  Forall (fun m => str_eqb (m_var (fst m)) t = false) b ->
  existsb (fun m => existsb (same_entry (m_id (fst m)) (m_var (fst m))) b)
          (trait_block t rs) = false.
Proof.
  intros Hb.
  assert (Hi : forall i, existsb (same_entry i t) b = false).
  { intros i. induction Hb as [|m b Hm Hb IH]; [reflexivity|].
    cbn [existsb]. rewrite IH, orb_false_r.
    unfold same_entry. rewrite Hm. apply andb_false_r. }
  unfold trait_block. rewrite existsb_mapped.
  induction rs as [|r rs IH]; [reflexivity|].
  cbn [existsb]. rewrite IH, orb_false_r. apply Hi.
Qed.

Lemma block_vars (t t' : pystr) (rs : list record) :
  str_eqb t' t = false ->
  Forall (fun m => str_eqb (m_var (fst m)) t = false) (trait_block t' rs).
Proof.
  intros H. unfold trait_block. apply Forall_forall. intros m Hm.
  apply in_map_iff in Hm. destruct Hm as [r [<- _]]. exact H.
Qed.

(** The melted frame has two rows for one element and trait exactly when
    two rows of the dataset name the same element. *)
Lemma melted_duplicates (df : DataFrame) :
  has_duplicates (with_binary (melted_of df))
  = negb (distinct_cells (plasmid_ids df)).
Proof.
  rewrite melted_blocks. rewrite app_nil_r.
  rewrite !has_duplicates_app, !block_duplicates.
  rewrite !cross_blocks
    by (repeat (apply Forall_app; split); apply block_vars; reflexivity).
  fold (plasmid_ids df).
  destruct (distinct_cells (plasmid_ids df)); reflexivity.
Qed.

Lemma binary_bit (v : cell) : binary v = 0 \/ binary v = 1.
Proof.
  rewrite binary_matches_no. destruct (matches_no v); auto.
Qed.

Lemma entry_bit (ms : list melted_row) (i : cell) (c : pystr) :
  match entry (with_binary ms) i c with
  | Some z => z = 0 \/ z = 1
  | None => True
  end.
Proof.
  unfold entry.
  destruct (find (same_entry i c) (with_binary ms)) as [m|] eqn:E; [|exact I].
  apply find_some in E. destruct E as [Hin _].
  unfold with_binary in Hin. apply in_map_iff in Hin.
  destruct Hin as [m' [<- _]]. apply binary_bit.
Qed.

Section Builders.
Variable coord : Type.
Variable valid_trace : Trace coord -> bool.
Variable valid_layout : Layout -> bool.

(** The matrix builder needs the identifier and the four trait columns. *)
Lemma create_heatmap_columns (df : DataFrame) (scale style : json)
  (fig : Figure coord) :
  df_empty df = false ->
  create_heatmap valid_trace valid_layout df scale style = Return fig ->
  forallb (has_column df) (py "Plasmid_ID" :: trait_columns) = true.
Proof.
  intros He H. unfold create_heatmap in H. rewrite He in H.
  unfold melt in H.
  destruct (has_column df (py "Presence")); [discriminate H|].
  destruct (forallb (has_column df) (py "Plasmid_ID" :: trait_columns));
    [reflexivity|discriminate H].
Qed.

(** The matrix builder up to the pivot. *)
Lemma create_heatmap_pivot (df : DataFrame) (scale style : json) :
  df_empty df = false ->
  has_column df (py "Presence") = false ->
  forallb (has_column df) (py "Plasmid_ID" :: trait_columns) = true ->
  create_heatmap valid_trace valid_layout df scale style
  = (pivoted <- pivot (with_binary (melted_of df)) ;;
     trace <- new_trace valid_trace
                (Heatmap (p_index pivoted) (p_columns pivoted)
                         (fillna0 pivoted) scale) ;;
     fs <- subscript style (py "font_size") ;;
     bg <- subscript style (py "bg_color") ;;
     layout <- update_layout valid_layout
                 (mkLayout (py "Presence of Plasmid-Associated Traits")
                           fs bg false) ;;
     Return (mkFigure [trace] (Some layout))).
Proof.
  intros He Hp Hc. unfold create_heatmap. rewrite He.
  unfold melt. rewrite Hp, Hc. reflexivity.
Qed.

End Builders.

End PivotFacts.

(* ================================================================= *)
(** * Facts about the graph of plasmids and environments *)

Module GraphFacts.
Import Py Pandas Networkx Upload App Notions.
Import PyFacts PandasFacts BuilderFacts FigureFacts PivotFacts.

Lemma has_node_nodes (G : Graph) (v : cell) :
  has_node G v = existsb (cell_eqb v) (nodes G).
Proof.
  unfold has_node, nodes. rewrite existsb_mapped.
  apply existsb_same. intros n. apply cell_eqb_sym.
Qed.

Lemma add_nbr_nodes (G : Graph) (u v : cell) : nodes (add_nbr G u v) = nodes G.
Proof.
  unfold nodes, add_nbr. rewrite map_map. apply map_ext.
  intros n. destruct (cell_eqb (n_key n) u); reflexivity.
Qed.

(** [add_node] returns unless it is given [None] as a new node; the node
    comes last when it is new. *)
Lemma add_node_nodes (G : Graph) (v : cell) (t : pystr) :
  v <> CNone ->
  exists G1, add_node G v t = Return G1 /\
             nodes G1 = nodes G ++ (if has_node G v then [] else [v]).
Proof.
  intros Hv. unfold add_node.
  destruct (has_node G v).
  - eexists. split; [reflexivity|].
    rewrite app_nil_r. unfold nodes. rewrite map_map. apply map_ext.
    intros n. destruct (cell_eqb (n_key n) v); reflexivity.
  - exists (G ++ [mkNode v (Some t) []]). split.
    + destruct v; try reflexivity. contradiction Hv. reflexivity.
    + unfold nodes. rewrite map_app. reflexivity.
Qed.

Lemma add_edge_present (G : Graph) (u v : cell) :
  has_node G u = true -> has_node G v = true ->
  add_edge G u v = Return (add_nbr (add_nbr G u v) v u).
Proof.
  intros Hu Hv. unfold add_edge, ensure_node.
  rewrite Hu. cbn [bind]. rewrite Hv. reflexivity.
Qed.

Lemma has_node_app (G : Graph) (l : list cell) (v : cell) (G1 : Graph) :
  nodes G1 = nodes G ++ l ->
  has_node G1 v = has_node G v || existsb (cell_eqb v) l.
Proof.
  intros H. rewrite !has_node_nodes, H, existsb_app. reflexivity.
Qed.

(** One turn of the loop over the rows. *)
Lemma add_rows_step (df : DataFrame) (row : record) (rest : list record)
  (G : Graph) :
  has_column df (py "Plasmid_ID") = true ->
  has_column df (py "Environment") = true ->
  cell_at row (py "Plasmid_ID") <> CNone ->
  cell_at row (py "Environment") <> CNone ->
  exists G1 G2,
    add_node G (cell_at row (py "Plasmid_ID")) (py "plasmid") = Return G1 /\
    add_node G1 (cell_at row (py "Environment")) (py "environment") = Return G2 /\
    nodes G2
    = nodes G ++ unique_acc (nodes G) [cell_at row (py "Plasmid_ID");
                                       cell_at row (py "Environment")] /\
    add_rows df (row :: rest) G
    = add_rows df rest
        (add_nbr (add_nbr G2 (cell_at row (py "Plasmid_ID"))
                          (cell_at row (py "Environment")))
                 (cell_at row (py "Environment"))
                 (cell_at row (py "Plasmid_ID"))).
Proof.
  intros Hp He Np Ne.
  set (p := cell_at row (py "Plasmid_ID")) in *.
  set (e := cell_at row (py "Environment")) in *.
  destruct (@add_node_nodes G p (py "plasmid") Np) as [G1 [E1 N1]].
  destruct (@add_node_nodes G1 e (py "environment") Ne) as [G2 [E2 N2]].
  exists G1, G2. split; [exact E1|]. split; [exact E2|].
  assert (Hp2 : has_node G2 p = true).
  { rewrite (@has_node_app G1 _ p G2 N2), (@has_node_app G _ p G1 N1).
    destruct (has_node G p); [reflexivity|].
    cbn [existsb orb]. rewrite cell_eqb_refl. reflexivity. }
  assert (He2 : has_node G2 e = true).
  { rewrite (@has_node_app G1 _ e G2 N2).
    destruct (has_node G1 e); [reflexivity|].
    cbn [existsb orb]. rewrite cell_eqb_refl. reflexivity. }
  split.
  - rewrite N2, N1, <- app_assoc. f_equal.
    cbn [unique_acc].
    rewrite (@has_node_app G _ e G1 N1), !has_node_nodes.
    destruct (existsb (cell_eqb p) (nodes G)) eqn:Hgp; cbn [app existsb orb].
    + rewrite orb_false_r.
      destruct (existsb (cell_eqb e) (nodes G)); reflexivity.
    + rewrite orb_false_r.
      rewrite (orb_comm (cell_eqb e p)).
      destruct (existsb (cell_eqb e) (nodes G) || cell_eqb e p); reflexivity.
  - cbn [add_rows]. fold p e. rewrite Hp, He. cbn [negb].
    rewrite E1. cbn [bind]. rewrite E2. cbn [bind].
    rewrite (@add_edge_present G2 p e Hp2 He2). reflexivity.
Qed.

(** The nodes after the loop: those there before, then the new plasmids
    and environments in the order the rows bring them. *)
Lemma add_rows_nodes (df : DataFrame) (rs : list record) :
  has_column df (py "Plasmid_ID") = true ->
  has_column df (py "Environment") = true ->
  (forall r, In r rs -> cell_at r (py "Plasmid_ID") <> CNone /\
                        cell_at r (py "Environment") <> CNone) ->
  forall G,
  exists G', add_rows df rs G = Return G' /\
             nodes G'
             = nodes G
               ++ unique_acc (nodes G)
                    (flat_map (fun r => [cell_at r (py "Plasmid_ID");
                                         cell_at r (py "Environment")]) rs).
Proof.
  intros Hp He. induction rs as [|row rest IH]; intros Hn G.
  - exists G. split; [reflexivity|]. cbn. rewrite app_nil_r. reflexivity.
  - destruct (Hn row (or_introl eq_refl)) as [Np Ne].
    destruct (@add_rows_step df row rest G Hp He Np Ne)
      as [G1 [G2 [_ [_ [N2 Hs]]]]].
    destruct (IH (fun r Hr => Hn r (or_intror Hr))
                 (add_nbr (add_nbr G2 (cell_at row (py "Plasmid_ID"))
                                   (cell_at row (py "Environment")))
                          (cell_at row (py "Environment"))
                          (cell_at row (py "Plasmid_ID"))))
      as [G' [E' N']].
    exists G'. split; [rewrite Hs; exact E'|].
    rewrite N', !add_nbr_nodes, N2, <- app_assoc. f_equal.
    cbn [flat_map].
    rewrite (unique_acc_app [cell_at row (py "Plasmid_ID");
                             cell_at row (py "Environment")]).
    f_equal. apply unique_acc_ext. intros w.
    rewrite !existsb_app.
    set (pe := [cell_at row (py "Plasmid_ID"); cell_at row (py "Environment")]).
    destruct (existsb (cell_eqb w) (nodes G)) eqn:Ew.
    + rewrite orb_true_r. reflexivity.
    + rewrite orb_false_r. cbn [orb].
      destruct (existsb (cell_eqb w) pe) eqn:Ep.
      * apply existsb_cell_eqb in Ep. destruct Ep as [y [Hy Eyw]].
        apply existsb_cell_eqb.
        destruct (unique_acc_in pe (nodes G) y Hy) as [Hs'|[y' [Hy' Ey']]].
        -- apply existsb_cell_eqb in Hs'. destruct Hs' as [k [Hk Eky]].
           assert (existsb (cell_eqb w) (nodes G) = true); [|congruence].
           apply existsb_cell_eqb. exists k. split; [exact Hk|].
           apply (cell_eqb_trans _ _ _ Eky Eyw).
        -- exists y'. split; [exact Hy'|].
           apply (cell_eqb_trans _ _ _ Ey' Eyw).
      * destruct (existsb (cell_eqb w) (unique_acc (nodes G) pe)) eqn:Eu;
          [|reflexivity].
        apply existsb_exists in Eu. destruct Eu as [y [Hy Ewy]].
        apply unique_acc_fresh in Hy. destruct Hy as [Hy _].
        assert (existsb (cell_eqb w) pe = true); [|congruence].
        apply existsb_exists. exists y. split; assumption.
Qed.


(** [pd.unique] returns different values. *)
Lemma unique_acc_distinct_list (l : list cell) :
  forall seen, distinct_cells (unique_acc seen l) = true.
Proof.
  induction l as [|v r IH]; intros seen; [reflexivity|].
  cbn [unique_acc].
  destruct (existsb (cell_eqb v) seen); [apply IH|].
  cbn [distinct_cells]. rewrite IH, andb_true_r.
  apply negb_true_iff.
  destruct (existsb (cell_eqb v) (unique_acc (v :: seen) r)) eqn:E;
    [|reflexivity].
  apply existsb_exists in E. destruct E as [y [Hy Evy]].
  apply unique_acc_fresh in Hy. destruct Hy as [_ Hs].
  cbn [existsb] in Hs. apply orb_false_iff in Hs. destruct Hs as [Hs _].
  rewrite cell_eqb_sym in Hs. congruence.
Qed.

Lemma unique_acc_covers (l seen : list cell) (x : cell) :
  In x l -> existsb (cell_eqb x) (seen ++ unique_acc seen l) = true.
Proof.
  intros H. rewrite existsb_app.
  destruct (unique_acc_in l seen x H) as [Hs|[y [Hy E]]].
  - rewrite Hs. reflexivity.
  - apply orb_true_iff. right. apply existsb_cell_eqb. exists y.
    split; assumption.
Qed.

(** ** Neighbours *)

Lemma add_node_adjacent (G G1 : Graph) (v : cell) (t : pystr) (a b : cell) :
  add_node G v t = Return G1 -> adjacent G1 a b = adjacent G a b.
Proof.
  unfold add_node. destruct (has_node G v).
  - intros H. injection H as <-. unfold adjacent.
    rewrite existsb_mapped. apply existsb_same. intros n.
    destruct (cell_eqb (n_key n) v); reflexivity.
  - intros H.
    assert (G1 = G ++ [mkNode v (Some t) []]) as ->.
    { destruct v; try discriminate H; injection H as <-; reflexivity. }
    unfold adjacent. rewrite existsb_app. cbn [existsb n_nbrs].
    rewrite andb_false_r, !orb_false_r. reflexivity.
Qed.

Lemma cell_eqb_left (x y z : cell) :
  cell_eqb x y = true -> cell_eqb x z = cell_eqb y z.
Proof.
  intros H. destruct (cell_eqb y z) eqn:E.
  - apply (cell_eqb_trans _ _ _ H E).
  - destruct (cell_eqb x z) eqn:E'; [|reflexivity].
    rewrite cell_eqb_sym in H.
    rewrite (cell_eqb_trans _ _ _ H E') in E. discriminate E.
Qed.

Lemma cell_eqb_right (x y z : cell) :
  cell_eqb x y = true -> cell_eqb z x = cell_eqb z y.
Proof.
  intros H. rewrite (cell_eqb_sym z x), (cell_eqb_sym z y).
  apply cell_eqb_left, H.
Qed.

Lemma existsb_or {A : Type} (p q : A -> bool) (l : list A) :
  existsb (fun x => p x || q x) l = existsb p l || existsb q l.
Proof.
  induction l as [|x l IH]; [reflexivity|].
  cbn [existsb]. rewrite IH.
  destruct (p x), (q x), (existsb p l), (existsb q l); reflexivity.
Qed.

(** [add_nbr] makes [v] a neighbour of [u] and changes nothing else. *)
Lemma add_nbr_adjacent (G : Graph) (u v a b : cell) :
  adjacent (add_nbr G u v) a b
  = adjacent G a b || (has_node G u && cell_eqb u a && cell_eqb b v).
Proof.
  unfold adjacent, add_nbr, has_node.
  rewrite existsb_mapped.
  induction G as [|n G IH]; [reflexivity|].
  cbn [existsb]. rewrite IH. clear IH.
  set (rest := existsb _ G). set (hn := existsb _ G).
  destruct (cell_eqb (n_key n) u) eqn:Eu; cbn [n_key n_nbrs orb andb].
  - rewrite <- (cell_eqb_left _ _ a Eu).
    destruct (cell_eqb (n_key n) a); cbn [andb orb].
    + assert (Hx : existsb (cell_eqb b)
                     (if existsb (cell_eqb v) (n_nbrs n) then n_nbrs n
                      else n_nbrs n ++ [v])
                   = existsb (cell_eqb b) (n_nbrs n) || cell_eqb b v).
      { destruct (existsb (cell_eqb v) (n_nbrs n)) eqn:Ev.
        - destruct (cell_eqb b v) eqn:Eb; [|rewrite orb_false_r; reflexivity].
          rewrite orb_true_r. apply existsb_exists in Ev.
          destruct Ev as [w [Hw Evw]]. apply existsb_exists. exists w.
          split; [exact Hw|]. apply (cell_eqb_trans _ _ _ Eb Evw).
        - rewrite existsb_app. cbn [existsb]. rewrite orb_false_r.
          reflexivity. }
      rewrite Hx.
      destruct (existsb (cell_eqb b) (n_nbrs n)), (cell_eqb b v), rest, hn;
        reflexivity.
    + destruct rest, hn, (cell_eqb b v); reflexivity.
  - rewrite orb_assoc. reflexivity.
Qed.

(** The neighbours after the loop: those there before, and for every row
    its plasmid and its environment, each a neighbour of the other. *)
Lemma add_rows_adjacent (df : DataFrame) (rs : list record) :
  has_column df (py "Plasmid_ID") = true ->
  has_column df (py "Environment") = true ->
  (forall r, In r rs -> cell_at r (py "Plasmid_ID") <> CNone /\
                        cell_at r (py "Environment") <> CNone) ->
  forall G G' a b,
  add_rows df rs G = Return G' ->
  adjacent G' a b
  = adjacent G a b
    || existsb (fun r => joins (a, b) (cell_at r (py "Plasmid_ID"))
                               (cell_at r (py "Environment"))) rs.
Proof.
  intros Hp He. induction rs as [|row rest IH]; intros Hn G G' a b H.
  - cbn in H. injection H as <-. cbn. rewrite orb_false_r. reflexivity.
  - destruct (Hn row (or_introl eq_refl)) as [Np Ne].
    destruct (@add_rows_step df row rest G Hp He Np Ne)
      as [G1 [G2 [E1 [E2 [N2 Hs]]]]].
    rewrite Hs in H.
    rewrite (IH (fun r Hr => Hn r (or_intror Hr)) _ _ a b H).
    rewrite !add_nbr_adjacent.
    set (p := cell_at row (py "Plasmid_ID")) in *.
    set (e := cell_at row (py "Environment")) in *.
    assert (Hp2 : has_node G2 p = true).
    { rewrite has_node_nodes, N2. apply unique_acc_covers. left. reflexivity. }
    assert (He2 : has_node G2 e = true).
    { rewrite has_node_nodes, N2. apply unique_acc_covers.
      right. left. reflexivity. }
    assert (He3 : has_node (add_nbr G2 p e) e = true).
    { rewrite has_node_nodes, add_nbr_nodes, <- has_node_nodes. exact He2. }
    rewrite Hp2, He3. cbn [andb existsb].
    rewrite (@add_node_adjacent G1 G2 e _ a b E2), (@add_node_adjacent G G1 p _ a b E1).
    unfold joins. cbn [fst snd existsb]. fold p e.
    rewrite (cell_eqb_sym p a), (cell_eqb_sym e a).
    match goal with
    | |- context [existsb ?f rest] => generalize (existsb f rest)
    end.
    intros x.
    destruct (adjacent G a b), (cell_eqb a p && cell_eqb b e),
      (cell_eqb a e && cell_eqb b p), x; reflexivity.
Qed.

(** ** Edges *)

(** Every edge listed runs from a node to one of its neighbours. *)
Lemma edges_from_adjacent (G : Graph) :
  forall seen a b,
  In (a, b) (edges_from G seen) -> adjacent G a b = true.
Proof.
  induction G as [|n G IH]; intros seen a b H; [contradiction|].
  cbn [edges_from] in H. apply in_app_iff in H.
  unfold adjacent. cbn [existsb]. destruct H as [H|H].
  - apply in_map_iff in H. destruct H as [w [E Hw]].
    injection E as <- <-. apply filter_In in Hw. destruct Hw as [Hw _].
    rewrite cell_eqb_refl. cbn [andb].
    rewrite (existsb_self _ _ Hw). reflexivity.
  - apply IH in H. unfold adjacent in H. rewrite H. apply orb_true_r.
Qed.

Lemma adjacent_has_node (G : Graph) (u v : cell) :
  adjacent G u v = true -> existsb (cell_eqb u) (nodes G) = true.
Proof.
  unfold adjacent, nodes. rewrite existsb_mapped. intros H.
  apply existsb_exists in H. destruct H as [n [Hn E]].
  apply andb_true_iff in E. destruct E as [E _].
  apply existsb_exists. exists n. split; [exact Hn|].
  rewrite cell_eqb_sym. exact E.
Qed.

(** Two nodes that are neighbours of each other are joined by an edge of
    the list, at the one that comes first. *)
Lemma edges_from_complete (G : Graph) :
  forall seen u v,
  distinct_cells (nodes G) = true ->
  adjacent G u v = true -> adjacent G v u = true ->
  existsb (cell_eqb u) seen = false -> existsb (cell_eqb v) seen = false ->
  exists ab, In ab (edges_from G seen) /\ joins ab u v = true.
Proof.
  induction G as [|n G IH]; intros seen u v Hd Huv Hvu Su Sv;
    [discriminate Huv|].
  cbn [nodes map distinct_cells] in Hd. fold (nodes G) in Hd.
  apply andb_true_iff in Hd. destruct Hd as [Hk Hd].
  apply negb_true_iff in Hk.
  assert (Hfind : forall x y,
            cell_eqb (n_key n) x = true ->
            adjacent (n :: G) x y = true ->
            existsb (cell_eqb y) seen = false ->
            exists w, In (n_key n, w) (edges_from (n :: G) seen) /\
                      cell_eqb w y = true).
  { intros x y Ex Hxy Sy. unfold adjacent in Hxy. cbn [existsb] in Hxy.
    rewrite Ex in Hxy. cbn [andb] in Hxy.
    apply orb_true_iff in Hxy. destruct Hxy as [Hxy|Hxy].
    - apply existsb_exists in Hxy. destruct Hxy as [w [Hw Eyw]].
      exists w. split; [|rewrite cell_eqb_sym; exact Eyw].
      cbn [edges_from]. apply in_app_iff. left.
      apply in_map_iff. exists w. split; [reflexivity|].
      apply filter_In. split; [exact Hw|].
      apply negb_true_iff.
      destruct (existsb (cell_eqb w) seen) eqn:Ew; [|reflexivity].
      apply existsb_exists in Ew. destruct Ew as [k [Hk' Ewk]].
      assert (existsb (cell_eqb y) seen = true); [|congruence].
      apply existsb_exists. exists k. split; [exact Hk'|].
      apply (cell_eqb_trans _ _ _ Eyw Ewk).
    - apply adjacent_has_node in Hxy.
      apply existsb_exists in Hxy. destruct Hxy as [k [Hk' Exk]].
      assert (existsb (cell_eqb (n_key n)) (nodes G) = true); [|congruence].
      apply existsb_exists. exists k. split; [exact Hk'|].
      apply (cell_eqb_trans _ _ _ Ex Exk). }
  destruct (cell_eqb (n_key n) u) eqn:Eu.
  - destruct (Hfind u v Eu Huv Sv) as [w [Hw Ewv]].
    exists (n_key n, w). split; [exact Hw|].
    unfold joins. cbn [fst snd]. rewrite Eu, Ewv. reflexivity.
  - destruct (cell_eqb (n_key n) v) eqn:Ev.
    + destruct (Hfind v u Ev Hvu Su) as [w [Hw Ewu]].
      exists (n_key n, w). split; [exact Hw|].
      unfold joins. cbn [fst snd]. rewrite Ev, Ewu. apply orb_true_r.
    + unfold adjacent in Huv, Hvu. cbn [existsb] in Huv, Hvu.
      rewrite Eu in Huv. rewrite Ev in Hvu. cbn [andb orb] in Huv, Hvu.
      destruct (IH (n_key n :: seen) u v Hd Huv Hvu) as [ab [Hab J]].
      * cbn [existsb]. rewrite cell_eqb_sym, Eu. exact Su.
      * cbn [existsb]. rewrite cell_eqb_sym, Ev. exact Sv.
      * exists ab. split; [|exact J].
        cbn [edges_from]. apply in_app_iff. right. exact Hab.
Qed.

Lemma joins_swap (ab : cell * cell) (u v : cell) :
  joins ab u v = joins ab v u.
Proof.
  unfold joins. apply orb_comm.
Qed.

(** ** The loop as a whole *)

Lemma add_rows_app (df : DataFrame) (a b : list record) :
  forall G,
  add_rows df (a ++ b) G = (G1 <- add_rows df a G ;; add_rows df b G1).
Proof.
  induction a as [|row a IH]; intros G; [reflexivity|].
  cbn [app add_rows].
  destruct (negb (has_column df (py "Plasmid_ID"))); [reflexivity|].
  destruct (add_node G _ _) as [G1|e]; [|reflexivity]. cbn [bind].
  destruct (negb (has_column df (py "Environment"))); [reflexivity|].
  destruct (add_node G1 _ _) as [G2|e]; [|reflexivity]. cbn [bind].
  destruct (add_edge G2 _ _) as [G3|e]; [|reflexivity]. cbn [bind].
  apply IH.
Qed.

Lemma cell_eqb_none (y : cell) : cell_eqb CNone y = true -> y = CNone.
Proof.
  intros H. apply cell_eqb_eq in H. destruct y as [s|z|[|]| |]; cbn in H;
    congruence.
Qed.

Lemma add_node_none (G : Graph) (t : pystr) :
  ~ In CNone (nodes G) -> add_node G CNone t = Raise ValueError.
Proof.
  intros H. unfold add_node.
  destruct (has_node G CNone) eqn:E; [|reflexivity].
  rewrite has_node_nodes in E. apply existsb_exists in E.
  destruct E as [y [Hy Ey]]. apply cell_eqb_none in Ey. subst y.
  contradiction.
Qed.

Lemma add_node_grows (G G1 : Graph) (v : cell) (t : pystr) :
  add_node G v t = Return G1 ->
  (0 < List.length (nodes G1))%nat /\
  (List.length (nodes G) <= List.length (nodes G1))%nat.
Proof.
  unfold add_node. destruct (has_node G v) eqn:E.
  - intros H. injection H as <-. unfold nodes. rewrite !length_map.
    split; [|lia]. destruct G; [discriminate E|cbn; lia].
  - intros H.
    assert (G1 = G ++ [mkNode v (Some t) []]) as ->.
    { destruct v; try discriminate H; injection H as <-; reflexivity. }
    unfold nodes. rewrite !length_map, length_app. cbn. lia.
Qed.

Lemma ensure_node_grows (G G1 : Graph) (v : cell) :
  ensure_node G v = Return G1 ->
  (List.length (nodes G) <= List.length (nodes G1))%nat.
Proof.
  unfold ensure_node. destruct (has_node G v).
  - intros H. injection H as <-. lia.
  - intros H.
    assert (G1 = G ++ [mkNode v None []]) as ->.
    { destruct v; try discriminate H; injection H as <-; reflexivity. }
    unfold nodes. rewrite !length_map, length_app. cbn. lia.
Qed.

Lemma add_edge_grows (G G1 : Graph) (u v : cell) :
  add_edge G u v = Return G1 ->
  (List.length (nodes G) <= List.length (nodes G1))%nat.
Proof.
  unfold add_edge. intros H.
  apply bind_Return in H. destruct H as [Ga [Ha H]].
  apply bind_Return in H. destruct H as [Gb [Hb H]].
  injection H as <-. rewrite !add_nbr_nodes.
  apply ensure_node_grows in Ha. apply ensure_node_grows in Hb. lia.
Qed.

Lemma add_rows_grows (df : DataFrame) (rs : list record) :
  forall G G',
  add_rows df rs G = Return G' ->
  (List.length (nodes G) <= List.length (nodes G'))%nat /\
  (rs <> [] -> (0 < List.length (nodes G'))%nat).
Proof.
  induction rs as [|row rs IH]; intros G G' H.
  - cbn in H. injection H as <-. split; [lia|]. intros N. contradiction N.
    reflexivity.
  - cbn [add_rows] in H.
    destruct (negb (has_column df (py "Plasmid_ID"))); [discriminate H|].
    apply bind_Return in H. destruct H as [G1 [H1 H]].
    destruct (negb (has_column df (py "Environment"))); [discriminate H|].
    apply bind_Return in H. destruct H as [G2 [H2 H]].
    apply bind_Return in H. destruct H as [G3 [H3 H]].
    apply add_node_grows in H1. apply add_node_grows in H2.
    apply add_edge_grows in H3. apply IH in H. lia.
Qed.

End GraphFacts.

(* ================================================================= *)
(** * Facts about the environment filter and the tabs *)

Module CallbackFacts.
Import Py Pandas Networkx Upload App Notions.
Import PyFacts PandasFacts BuilderFacts FigureFacts.

Lemma select_rows_none (rs : list record) (f : record -> bool) :
  (forall r, In r rs -> f r = false) -> select_rows rs (map f rs) = [].
Proof.
  intros H. rewrite select_rows_map.
  induction rs as [|r rs IH]; [reflexivity|].
  cbn [filter]. rewrite (H r (or_introl eq_refl)).
  apply IH. intros r' Hr'. apply H. right. exact Hr'.
Qed.

(** The trait filter on a frame without rows. *)
Lemma filter_by_traits_no_rows (traits : list pystr) :
  forall cols,
  (forall t, In t traits -> col_dtype cols t = Some DObject) ->
  filter_by_traits (mkDF cols []) traits = Return (mkDF cols []).
Proof.
  induction traits as [|t rest IH]; intros cols H; [reflexivity|].
  cbn [filter_by_traits]. unfold getitem. cbn [columns rows map].
  rewrite (H t (or_introl eq_refl)). cbn [bind].
  unfold str_accessor. cbn [s_dtype s_values str_values_allowed filter bind].
  unfold boolean_index. cbn [columns rows select_rows].
  apply IH. intros t' Ht'. apply H. right. exact Ht'.
Qed.

Lemma df_empty_no_rows (cols : list (pystr * dtype)) :
  df_empty (mkDF cols []) = true.
Proof.
  unfold df_empty. cbn [columns rows]. destruct cols; reflexivity.
Qed.

Lemma three_tabs (tab : pystr) :
  In tab [py "sankey"; py "network"; py "heatmap"] ->
  (str_eqb tab (py "sankey") = true) \/
  (str_eqb tab (py "sankey") = false /\ str_eqb tab (py "network") = true) \/
  (str_eqb tab (py "sankey") = false /\ str_eqb tab (py "network") = false /\
   str_eqb tab (py "heatmap") = true).
Proof.
  intros [<-|[<-|[<-|[]]]]; [left|right; left|right; right]; repeat split.
Qed.

Section Collaborators.
Variable regex : Type.
Variable re_compile : pystr -> option regex.
Variable re_search : regex -> pystr -> bool.

(** The environment filter on a column of text. *)
Lemma filter_environment_text (df : DataFrame) (env : pystr) :
  text_column df (py "Environment") ->
  filter_environment re_compile re_search df env
  = match re_compile (strip env) with
    | None => Raise ReError
    | Some re =>
      Return (mkDF (columns df)
                (filter (fun r => match cell_at r (py "Environment") with
                                  | CStr s => re_search re s
                                  | _ => false
                                  end) (rows df)))
    end.
Proof.
  intros [Hd Hv]. unfold filter_environment, getitem. rewrite Hd.
  cbn [bind]. unfold str_accessor. cbn [s_dtype s_values].
  rewrite str_values_allowed_text.
  2:{ apply forallb_forall. intros v Hin. apply in_map_iff in Hin.
      destruct Hin as [r [<- Hr]]. apply Hv, Hr. }
  cbn [bind]. destruct (re_compile (strip env)) as [re|]; [|reflexivity].
  unfold boolean_index. rewrite map_map.
  rewrite (select_rows_map
             (fun r => match cell_at r (py "Environment") with
                       | CStr s => re_search re s
                       | _ => false
                       end)).
  reflexivity.
Qed.

End Collaborators.

End CallbackFacts.

(* ================================================================= *)
(** * Facts about nested JSON values *)

Module NestedJsonFacts.
Import Py Pandas Networkx Upload App Notions.
Import PyFacts JsonFacts JsonFuel StyleFacts.

(** Induction on a JSON value, with the property for the members of a list
    and of a dict. *)
Lemma json_nested_ind (P : json -> Prop) :
  P JNull -> (forall b, P (JBool b)) -> (forall z, P (JInt z)) ->
  (forall lit, P (JFloat lit)) -> (forall s, P (JStr s)) ->
  (forall l, Forall P l -> P (JList l)) ->
  (forall d, Forall (fun kv => P (snd kv)) d -> P (JDict d)) ->
  forall v, P v.
Proof.
  intros Hnull Hbool Hint Hfloat Hstr Hlist Hdict.
  fix IH 1. intros [|b|z|lit|s|l|d].
  - exact Hnull.
  - apply Hbool.
  - apply Hint.
  - apply Hfloat.
  - apply Hstr.
  - apply Hlist. induction l as [|x l IHl]; constructor; [apply IH|exact IHl].
  - apply Hdict. induction d as [|[k x] d IHd]; constructor;
      [apply IH|exact IHd].
Qed.

Lemma dumps_list (l : list json) :
  json_dumps (JList l) = 91 :: elements l ++ [93].
Proof.
  reflexivity.
Qed.

Lemma elements_tail_eq (l : list json) :
  forall (x : json) (tail : pystr),
  elements (x :: l) ++ 93 :: tail = json_dumps x ++ elements_tail l tail.
Proof.
  induction l as [|y l IH]; intros x tail.
  - reflexivity.
  - change (elements (x :: y :: l))
      with (json_dumps x ++ [44; 32] ++ elements (y :: l)).
    cbn [elements_tail]. rewrite <- !app_assoc. cbn [app].
    rewrite IH. reflexivity.
Qed.

Lemma elements_tail_length (l : list json) (tail : pystr) :
  List.length (elements_tail l tail)
  = (List.length (elements_tail l []) + List.length tail)%nat.
Proof.
  induction l as [|x l IH]; cbn [elements_tail List.length]; [lia|].
  rewrite !length_app, IH. lia.
Qed.

Lemma items_tail_span (d : list (pystr * json)) (tail : pystr) :
  List.length (items_tail d tail)
  = (List.length (items_tail d []) + List.length tail)%nat.
Proof.
  induction d as [|[k x] d IH]; cbn [items_tail List.length]; [lia|].
  rewrite !length_app. cbn [List.length]. rewrite !length_app, IH. lia.
Qed.

Lemma ends_number_elements (l : list json) (tail : pystr) :
  ends_number (elements_tail l tail) = true.
Proof. destruct l; reflexivity. Qed.

(** The first character [json.dumps] writes for a plain value: not white
    space, not a closing bracket, and not a byte-order mark. *)
Lemma dumps_head (v : json) :
  plain_json v = true ->
  exists c r, json_dumps v = c :: r /\ is_ws c = false /\ c <> 93 /\
              0 <= c < 128.
Proof.
  intros Hv. destruct v as [|b|z|lit|s|l|d]; try discriminate Hv.
  - do 2 eexists. split; [reflexivity|]. repeat split; discriminate || lia.
  - destruct b; do 2 eexists; (split; [reflexivity|]);
      repeat split; discriminate || lia.
  - cbn [json_dumps].
    destruct (int_repr_head z) as [c [cs [E Hc]]]; rewrite E;
      exists c, cs; (split; [reflexivity|]).
    destruct Hc as [Hc| ->].
    + apply digit_cases in Hc.
      repeat (destruct Hc as [->|Hc];
              [repeat split; discriminate || lia|]).
      subst. repeat split; discriminate || lia.
    + repeat split; discriminate || lia.
  - do 2 eexists. split; [reflexivity|]. repeat split; discriminate || lia.
  - do 2 eexists. split; [reflexivity|]. repeat split; discriminate || lia.
  - do 2 eexists. split; [reflexivity|]. repeat split; discriminate || lia.
Qed.

Lemma skip_ws_plain (v : json) (tail : pystr) :
  plain_json v = true ->
  skip_ws (json_dumps v ++ tail) = json_dumps v ++ tail.
Proof.
  intros Hv. destruct (dumps_head v Hv) as [c [r [E [Hw _]]]].
  rewrite E. cbn [app skip_ws]. rewrite Hw. reflexivity.
Qed.


(** The loop of [JSONArray] reads back the elements [json.dumps] wrote. *)
Lemma array_items_elements (l : list json) :
  Forall (fun x => plain_json x = true /\ reads_back x) l ->
  forall (x : json) (acc : list json) (f : nat) (tail : pystr),
  plain_json x = true -> reads_back x ->
  (List.length (json_dumps x) + List.length (elements_tail l []) <= f)%nat ->
  array_items f (json_dumps x ++ elements_tail l tail) acc
  = Some (JList (rev acc ++ x :: l), tail).
Proof.
  induction 1 as [|y l [Hy Ry] Hl IH]; intros x acc f tail Hx Rx Hf.
  - cbn [elements_tail List.length] in Hf. destruct f as [|f]; [lia|].
    rewrite array_items_S.
    rewrite (Rx (elements_tail [] tail) f eq_refl) by lia.
    cbn [elements_tail skip_ws is_ws Z.eqb Pos.eqb orb]. cbv iota.
    reflexivity.
  - cbn [elements_tail List.length] in Hf. rewrite length_app in Hf.
    destruct f as [|f]; [lia|].
    rewrite array_items_S.
    rewrite (Rx (elements_tail (y :: l) tail) f
               (ends_number_elements (y :: l) tail)) by lia.
    cbn [elements_tail skip_ws is_ws Z.eqb Pos.eqb orb]. cbv iota.
    rewrite skip_ws_plain by exact Hy.
    rewrite IH by (assumption || lia).
    cbn [rev]. rewrite <- app_assoc. reflexivity.
Qed.

(** The loop of [JSONObject] reads back the members [json.dumps] wrote. *)
Lemma object_items_members (d : list (pystr * json)) :
  Forall (fun kv => well_formed (fst kv) = true /\
                    plain_json (snd kv) = true /\ reads_back (snd kv)) d ->
  forall (k : pystr) (v : json) (acc : list (pystr * json)) (f : nat)
         (tail : pystr),
  well_formed k = true -> plain_json v = true -> reads_back v ->
  unique_keys (acc ++ (k, v) :: d) = true ->
  (List.length (json_dumps v) + List.length (items_tail d []) <= f)%nat ->
  object_items f (escape_body k ++ 34 :: 58 :: 32 :: json_dumps v
                    ++ items_tail d tail) acc
  = Some (JDict (acc ++ (k, v) :: d), tail).
Proof.
  induction 1 as [|[k' v'] d [Hk' [Hv' Rv']] Hd IH];
    intros k v acc f tail Hk Hv Rv Hu Hf.
  - cbn [items_tail List.length] in Hf. destruct f as [|f]; [lia|].
    rewrite object_items_S. rewrite scanstring_encoded by assumption.
    cbn [skip_ws is_ws Z.eqb Pos.eqb orb]. cbv iota.
    rewrite skip_ws_plain by exact Hv.
    rewrite (Rv (items_tail [] tail) f eq_refl) by lia.
    cbn [items_tail skip_ws is_ws Z.eqb Pos.eqb orb]. cbv iota.
    rewrite dict_set_fresh by (eapply unique_keys_fresh; eassumption).
    reflexivity.
  - cbn [fst snd] in *.
    cbn [items_tail List.length] in Hf. rewrite length_app in Hf.
    cbn [List.length] in Hf. rewrite length_app in Hf.
    destruct f as [|f]; [lia|].
    rewrite object_items_S. rewrite scanstring_encoded by assumption.
    cbn [skip_ws is_ws Z.eqb Pos.eqb orb]. cbv iota.
    rewrite skip_ws_plain by exact Hv.
    rewrite (Rv (items_tail ((k', v') :: d) tail) f
               (ends_number_items ((k', v') :: d) tail)) by lia.
    cbn [items_tail skip_ws is_ws Z.eqb Pos.eqb orb]. cbv iota.
    rewrite dict_set_fresh by (eapply unique_keys_fresh; eassumption).
    rewrite IH; try assumption.
    + rewrite <- app_assoc. reflexivity.
    + rewrite <- app_assoc. exact Hu.
    + lia.
Qed.

Lemma plain_scalar (v : json) :
  plain_json v = true ->
  match v with
  | JList _ | JDict _ => True
  | _ => scalar v = true
  end.
Proof.
  destruct v; cbn; auto.
Qed.

(** The scanner reads back what [json.dumps] wrote for a plain value. *)
Lemma plain_reads_back (v : json) : plain_json v = true -> reads_back v.
Proof.
  induction v as [|b|z|lit|s|l IHl|d IHd] using json_nested_ind; intros Hv.
  - intros tail f Ht Hf. apply scan_once_scalar_fuel; try assumption.
    cbn in Hf. lia.
  - intros tail f Ht Hf. apply scan_once_scalar_fuel; try assumption.
    destruct b; cbn in Hf; lia.
  - intros tail f Ht Hf. apply scan_once_scalar_fuel; try assumption.
    destruct (dumps_head (JInt z) Hv) as [c [r [E _]]].
    rewrite E in Hf. cbn in Hf. lia.
  - discriminate Hv.
  - intros tail f Ht Hf. apply scan_once_scalar_fuel; try assumption.
    cbn in Hf. lia.
  - cbn [plain_json] in Hv.
    assert (Hall : Forall (fun x => plain_json x = true /\ reads_back x) l).
    { rewrite forallb_forall in Hv. rewrite Forall_forall in IHl.
      apply Forall_forall. intros x Hx. split; [apply Hv, Hx|].
      apply IHl; [exact Hx|apply Hv, Hx]. }
    intros tail f Ht Hf. rewrite dumps_list in *.
    cbn [app List.length] in *. rewrite <- app_assoc. cbn [app].
    destruct f as [|f]; [lia|].
    rewrite scan_once_S.
    change (91 =? 34) with false. change (91 =? 123) with false.
    change (91 =? 91) with true. cbv iota.
    destruct l as [|x l].
    + reflexivity.
    + inversion Hall as [|? ? [Hx Rx] Hl]; subst.
      rewrite elements_tail_eq. rewrite skip_ws_plain by exact Hx.
      destruct (dumps_head x Hx) as [c [r [E [_ [H93 _]]]]].
      assert (Hf' : (List.length (json_dumps x)
                     + List.length (elements_tail l []) <= f)%nat).
      { rewrite length_app in Hf.
        pose proof (f_equal (@List.length Z) (elements_tail_eq l x [])) as HL.
        rewrite !length_app in HL. cbn [List.length] in *. lia. }
      pose proof (@array_items_elements l Hl x [] f tail Hx Rx Hf') as HA.
      rewrite E in *. cbn [app] in *.
      destruct (Z.eqb_spec c 93) as [->|_]; [contradiction H93; reflexivity|].
      exact HA.
  - cbn [plain_json] in Hv. apply andb_true_iff in Hv.
    destruct Hv as [Hu Hv].
    assert (Hall : Forall (fun kv => well_formed (fst kv) = true /\
                                     plain_json (snd kv) = true /\
                                     reads_back (snd kv)) d).
    { rewrite forallb_forall in Hv. rewrite Forall_forall in IHd.
      apply Forall_forall. intros [k x] Hx.
      pose proof (Hv _ Hx) as Hkx. cbn beta iota in Hkx.
      apply andb_true_iff in Hkx. destruct Hkx as [Hk Hp].
      cbn [fst snd]. split; [exact Hk|]. split; [exact Hp|].
      apply (IHd _ Hx). exact Hp. }
    intros tail f Ht Hf. rewrite dumps_dict in *.
    cbn [app List.length] in *. rewrite <- app_assoc. cbn [app].
    destruct f as [|f]; [lia|].
    rewrite scan_once_S.
    change (123 =? 34) with false. change (123 =? 123) with true. cbv iota.
    destruct d as [|[k x] d].
    + reflexivity.
    + inversion Hall as [|? ? [Hk [Hx Rx]] Hd]; subst. cbn [fst snd] in *.
      rewrite members_tail.
      cbn [skip_ws is_ws Z.eqb Pos.eqb orb]. cbv iota.
      apply object_items_members; try assumption.
      rewrite length_app in Hf.
      pose proof (f_equal (@List.length Z) (members_tail d k x [])) as HL.
      cbn [List.length] in HL. rewrite !length_app in HL.
      cbn [List.length] in HL. rewrite !length_app in HL.
      cbn [List.length] in *. lia.
Qed.

(** [json.dumps] writes ASCII for a plain value. *)
Lemma plain_ascii (v : json) :
  plain_json v = true -> Forall is_ascii (json_dumps v).
Proof.
  induction v as [|b|z|lit|s|l IHl|d IHd] using json_nested_ind; intros Hv.
  - apply (scalar_ascii JNull eq_refl).
  - apply (scalar_ascii (JBool b) eq_refl).
  - apply (scalar_ascii (JInt z) eq_refl).
  - discriminate Hv.
  - apply (scalar_ascii (JStr s) Hv).
  - cbn [plain_json] in Hv. rewrite dumps_list.
    constructor; [unfold is_ascii; lia|].
    apply Forall_app. split; [|repeat constructor; unfold is_ascii; lia].
    rewrite forallb_forall in Hv.
    induction IHl as [|x l Hx Hl IH]; [constructor|].
    assert (Hx' : Forall is_ascii (json_dumps x))
      by (apply Hx, Hv; left; reflexivity).
    assert (Hl' : Forall is_ascii (elements l))
      by (apply IH; intros y Hy; apply Hv; right; exact Hy).
    destruct l as [|y l]; [exact Hx'|].
    change (elements (x :: y :: l))
      with (json_dumps x ++ [44; 32] ++ elements (y :: l)).
    repeat (apply Forall_app; split); try assumption.
    repeat constructor; unfold is_ascii; lia.
  - cbn [plain_json] in Hv. apply andb_true_iff in Hv.
    destruct Hv as [_ Hv]. rewrite dumps_dict.
    constructor; [unfold is_ascii; lia|].
    apply Forall_app. split; [|repeat constructor; unfold is_ascii; lia].
    rewrite forallb_forall in Hv.
    induction IHd as [|[k x] d Hx Hd IH]; [constructor|].
    cbn [snd] in Hx.
    pose proof (Hv _ (or_introl eq_refl)) as Hkx. cbn beta iota in Hkx.
    apply andb_true_iff in Hkx. destruct Hkx as [_ Hp].
    assert (Hx' : Forall is_ascii (json_dumps x)) by (apply Hx, Hp).
    assert (Hd' : Forall is_ascii (members d))
      by (apply IH; intros y Hy; apply Hv; right; exact Hy).
    assert (Hone : Forall is_ascii
                     (encode_basestring_ascii k ++ [58; 32] ++ json_dumps x)).
    { repeat (apply Forall_app; split); try assumption.
      - apply encode_ascii.
      - repeat constructor; unfold is_ascii; lia. }
    destruct d as [|[k' y] d]; [exact Hone|].
    change (members ((k, x) :: (k', y) :: d))
      with (encode_basestring_ascii k ++ [58; 32] ++ json_dumps x ++ [44; 32]
              ++ members ((k', y) :: d)).
    repeat (apply Forall_app; split); try assumption.
    + apply encode_ascii.
    + repeat constructor; unfold is_ascii; lia.
    + repeat constructor; unfold is_ascii; lia.
Qed.

(** The text of a plain value does not start with a byte-order mark. *)
Lemma dumps_no_bom (v : json) (X : Type) (a b : X) :
  plain_json v = true ->
  match json_dumps v with
  | 65279 :: _ => a
  | _ => b
  end = b.
Proof.
  intros Hv. destruct v as [|t|z|lit|s|l|d]; try discriminate Hv;
    try reflexivity.
  - destruct t; reflexivity.
  - cbn [json_dumps].
    destruct (int_repr_head z) as [c [cs [E Hc]]]. rewrite E.
    destruct Hc as [Hc| ->]; [|reflexivity].
    apply digit_cases in Hc.
    repeat (destruct Hc as [->|Hc]; [reflexivity|]). subst. reflexivity.
Qed.

(** [json.loads] reads back what [json.dumps] wrote for a plain value. *)
Lemma loads_dumps_plain (v : json) :
  plain_json v = true -> json_loads (json_dumps v) = Return v.
Proof.
  intros Hv. unfold json_loads.
  pose proof (@plain_reads_back v Hv [] (S (List.length (json_dumps v)))
                eq_refl ltac:(lia)) as HR.
  rewrite app_nil_r in HR.
  pose proof (skip_ws_plain v [] Hv) as HW. rewrite app_nil_r in HW.
  rewrite HW, HR. cbn [skip_ws].
  apply dumps_no_bom, Hv.
Qed.

End NestedJsonFacts.

(* ================================================================= *)
(** * The properties of the specification *)

Module Properties.
Import Py Pandas Networkx Upload App Notions Samples.
Import PyFacts PandasFacts Base64Facts JsonFacts StyleFacts BuilderFacts.

(** C3.  Trait filter: filtering by no trait returns the dataset itself;
    for every dataset and every list of traits, the filtered dataset has
    the columns of the dataset and, in their order, exactly those of its
    rows that pass for every named trait, so that every row of the filtered
    dataset holds, in each named trait column, a value that is not a
    case-insensitive match for "no"; and on columns of text the filter does
    return a dataset. *)
Theorem filter_by_traits_excludes_no (df : DataFrame) (traits : list pystr) :
  filter_by_traits df [] = Return df /\
  (forall df', filter_by_traits df traits = Return df' ->
     columns df' = columns df /\
     rows df' = filter (passes traits) (rows df) /\
     forall r t, In r (rows df') -> In t traits ->
                 matches_no (cell_at r t) = false) /\
  ((forall t, In t traits -> text_column df t) ->
     exists df', filter_by_traits df traits = Return df').
Proof.
  split; [reflexivity|]. split.
  - intros df' H.
    apply filter_by_traits_rows in H. destruct H as [Hcols Hrows].
    split; [exact Hcols|]. split; [exact Hrows|].
    intros r t Hr Ht.
    rewrite Hrows in Hr. apply filter_In in Hr. destruct Hr as [_ Hp].
    unfold passes in Hp. rewrite forallb_forall in Hp.
    specialize (Hp t Ht).
    destruct (matches_no (cell_at r t)); [discriminate|reflexivity].
  - apply filter_by_traits_returns.
Qed.

Lemma filter_by_traits_excludes_no_witness :
  filter_by_traits two_plasmids [] = Return two_plasmids /\
  filter_by_traits two_plasmids [py "ARGs"] = Return (mkDF text_columns [row_p1]) /\
  matches_no (cell_at row_p1 (py "ARGs")) = false /\
  exists df', filter_by_traits two_plasmids [py "ARGs"] = Return df'.
Proof.
  destruct (filter_by_traits_excludes_no two_plasmids [py "ARGs"])
    as [H1 [H2 H3]].
  split; [exact H1|]. split; [reflexivity|]. split.
  - apply (proj2 (proj2 (H2 (mkDF text_columns [row_p1]) eq_refl))
             row_p1 (py "ARGs")).
    + left. reflexivity.
    + left. reflexivity.
  - apply H3. intros t [<-|[]]. split; [reflexivity|].
    intros r [<-|[<-|[]]]; reflexivity.
Defined.

(** C1, as the code has it.  For every uploaded style file for which
    [json.loads] returns a value, whether or not the value holds the five
    fields of a style, importing the file replaces the style of the store
    by that value: [load_style] checks no field.  The parser is any
    function, so that the property holds of [json.loads] with the limits
    the interpreter sets it. *)
Theorem load_style_replaces_with_parsed (loads : pystr -> result json)
  (mime : pystr) (file : bytes) (current v : json) :
  ~ In 44 mime -> Forall is_byte file ->
  (text <- utf8_decode file ;; loads text) = Return v ->
  load_style_with loads (Some (contents_of mime file)) current = Return v /\
  store_after current
    (load_style_with loads (Some (contents_of mime file)) current) = v.
Proof.
  intros Hm Hf Hp. rewrite load_style_with_upload by assumption.
  rewrite Hp. split; reflexivity.
Qed.

Lemma load_style_replaces_with_parsed_witness :
  ~ In 44 json_mime /\ Forall is_byte (py "{}") /\
  (text <- utf8_decode (py "{}") ;; json_loads text) = Return (JDict []) /\
  load_style (Some (contents_of json_mime (py "{}"))) default_style
  = Return (JDict []) /\
  store_after default_style
    (load_style (Some (contents_of json_mime (py "{}"))) default_style)
  = JDict [].
Proof.
  assert (Hm : ~ In 44 json_mime).
  { intros H. simpl in H. intuition discriminate. }
  assert (Hf : Forall is_byte (py "{}")).
  { repeat constructor; discriminate. }
  split; [exact Hm|]. split; [exact Hf|]. split; [reflexivity|].
  apply (@load_style_replaces_with_parsed json_loads json_mime (py "{}")
           default_style (JDict []) Hm Hf eq_refl).
Defined.

(** C1, as the specification states it, fails: the file [{}] parses as
    JSON and holds none of the five fields, and importing it over the
    default style leaves the store with the empty dict; a file with the
    five fields, one of them malformed (a number for a colour), replaces
    the default style as well. *)
Lemma import_without_fields_changes_style :
  (text <- utf8_decode (py "{}") ;; json_loads text) = Return (JDict []) /\
  forallb (has_field (JDict [])) style_fields = false /\
  valid_style default_style = true /\
  store_after default_style
    (load_style (Some (contents_of json_mime (py "{}"))) default_style)
  <> default_style /\
  (text <- utf8_decode (written_bytes (save_style malformed_style)) ;;
   json_loads text)
  = Return malformed_style /\
  valid_style malformed_style = false /\
  store_after default_style
    (load_style
       (Some (contents_of json_mime
                (written_bytes (save_style malformed_style))))
       default_style)
  <> default_style.
Proof.
  split; [reflexivity|]. split; [reflexivity|]. split; [reflexivity|].
  split; [vm_compute; discriminate|].
  split; [reflexivity|]. split; [reflexivity|].
  vm_compute. discriminate.
Qed.



(** C8.  For every uploaded style file that cannot be parsed (its bytes are
    not UTF-8, or the text is not JSON), [load_style] returns the current
    style, so the store keeps the style it had. *)
Theorem load_style_keeps_current (mime : pystr) (file : bytes)
  (current : json) (e : exn) :
  ~ In 44 mime -> Forall is_byte file ->
  (text <- utf8_decode file ;; json_loads text) = Raise e ->
  load_style (Some (contents_of mime file)) current = Return current /\
  store_after current (load_style (Some (contents_of mime file)) current)
  = current.
Proof.
  intros Hm Hf Hp. rewrite load_style_upload by assumption.
  rewrite Hp. split; reflexivity.
Qed.

Lemma load_style_keeps_current_witness :
  ~ In 44 json_mime /\ Forall is_byte (py "{oops") /\
  (text <- utf8_decode (py "{oops") ;; json_loads text) = Raise JSONDecodeError /\
  load_style (Some (contents_of json_mime (py "{oops"))) default_style
  = Return default_style.
Proof.
  assert (Hm : ~ In 44 json_mime).
  { intros H. simpl in H. intuition discriminate. }
  assert (Hf : Forall is_byte (py "{oops")).
  { repeat constructor; discriminate. }
  split; [exact Hm|]. split; [exact Hf|]. split; [reflexivity|].
  apply (proj1 (@load_style_keeps_current json_mime (py "{oops") default_style
                  JSONDecodeError Hm Hf eq_refl)).
Defined.

Section Collaborators.

Variables coord rng regex : Type.
Variable RandomState : Z -> rng.
Variable fruchterman_reingold :
  Graph -> repulsion -> rng -> (cell -> coord * coord) * rng.
Variable re_compile : pystr -> option regex.
Variable re_search : regex -> pystr -> bool.
Variable read_csv : pystr -> result DataFrame.
Variable valid_trace : Trace coord -> bool.
Variable valid_layout : Layout -> bool.

(** C9.  Dataset loader: for every uploaded file, if its bytes cannot be
    decoded or the CSV reader fails, the loader reports the read error and
    stores no dataset; if the parsed table is empty or has no [Plasmid_ID]
    column, it reports an invalid file and stores no dataset; otherwise it
    stores the parsed table, as records. *)
Theorem update_output_loads (mime : pystr) (file : bytes) :
  ~ In 44 mime -> Forall is_byte file ->
  (forall e, (text <- utf8_decode file ;; read_csv text) = Raise e ->
     update_output read_csv (Some (contents_of mime file))
     = Return (ErrorReadingFile e, None)) /\
  (forall df, (text <- utf8_decode file ;; read_csv text) = Return df ->
     df_empty df = true \/ has_column df (py "Plasmid_ID") = false ->
     update_output read_csv (Some (contents_of mime file))
     = Return (InvalidFile, None)) /\
  (forall df, (text <- utf8_decode file ;; read_csv text) = Return df ->
     df_empty df = false -> has_column df (py "Plasmid_ID") = true ->
     update_output read_csv (Some (contents_of mime file))
     = Return (DataTable (map fst (columns df)) (to_dict_records df),
               Some (to_dict_records df))).
Proof.
  intros Hm Hf.
  assert (Hp : parse_contents read_csv (contents_of mime file)
               = (text <- utf8_decode file ;; read_csv text)).
  { unfold parse_contents. rewrite (@split_contents mime file Hm Hf).
    cbn [bind]. rewrite b64decode_encode by assumption. reflexivity. }
  unfold update_output.
  destruct (contents_of mime file) as [|c cs] eqn:E; [discriminate E|].
  rewrite Hp. repeat split.
  - intros e He. rewrite He. reflexivity.
  - intros df Hd Hbad. rewrite Hd. cbn [bind try_except].
    destruct Hbad as [H|H]; rewrite H; [|rewrite orb_true_r]; reflexivity.
  - intros df Hd He Hc. rewrite Hd. cbn [bind try_except].
    rewrite He, Hc. reflexivity.
Qed.

(** C6.  The network builder is deterministic: built twice on the same
    dataset and style, in whatever state the random generator of the
    process is, it gives the same figure, node positions included; and a
    build leaves that generator as it found it, so that two builds in a row
    in one process agree. *)
Theorem create_network_deterministic (df : DataFrame) (style : json)
  (g1 g2 : rng) :
  fst (create_network RandomState fruchterman_reingold valid_trace valid_layout
         df style g1)
  = fst (create_network RandomState fruchterman_reingold valid_trace
           valid_layout df style g2) /\
  snd (create_network RandomState fruchterman_reingold valid_trace valid_layout
         df style g1) = g1 /\
  fst (create_network RandomState fruchterman_reingold valid_trace valid_layout
         df style
         (snd (create_network RandomState fruchterman_reingold valid_trace
                 valid_layout df style g1)))
  = fst (create_network RandomState fruchterman_reingold valid_trace
           valid_layout df style g1).
Proof.
  assert (H : forall g,
             create_network RandomState fruchterman_reingold valid_trace
               valid_layout df style g
             = (fst (create_network RandomState fruchterman_reingold
                       valid_trace valid_layout df style g1), g)).
  { intros g. unfold create_network, spring_layout.
    destruct (df_empty df); [reflexivity|].
    destruct (add_rows df (rows df) []); reflexivity. }
  split; [|split].
  - rewrite (H g1), (H g2). reflexivity.
  - rewrite (H g1). reflexivity.
  - rewrite (H (snd _)). reflexivity.
Qed.

(** C2, where the code departs from it.  [render_content] has no
    [try ... except]: on a stored dataset in which two rows share a
    [Plasmid_ID], the matrix tab lets the [ValueError] of [pivot] escape;
    on a stored dataset without trait columns, selecting a trait on the
    network tab lets a [KeyError] escape, and so does opening the matrix
    tab. *)
Theorem render_content_raises (global : rng) :
  render_content RandomState fruchterman_reingold re_compile re_search
    valid_trace valid_layout (py "heatmap") default_style
    (Some [row_p1; row_p1_water]) None [] [] [] (JStr (py "Blues")) global
  = (Raise ValueError, global) /\
  render_content RandomState fruchterman_reingold re_compile re_search
    valid_trace valid_layout (py "network") default_style
    (Some [row_bare]) None [] [py "ARGs"] [] (JStr (py "Blues")) global
  = (Raise KeyError, global) /\
  render_content RandomState fruchterman_reingold re_compile re_search
    valid_trace valid_layout (py "heatmap") default_style
    (Some [row_bare]) None [] [] [] (JStr (py "Blues")) global
  = (Raise KeyError, global).
Proof.
  split; [|split]; reflexivity.
Qed.

(** C5.  Flow builder: on an empty dataset it returns the empty figure, with
    no node and no link; on a dataset of one row whose host, element and
    environment are pairwise different, the figure it returns has exactly
    the three labels host, element, environment and exactly two links, host
    to element and element to environment, each of weight one; and it does
    return that figure when the style has its fields and plotly accepts
    the properties. *)
Theorem create_sankey_small (df : DataFrame) (style : json) :
  (df_empty df = true ->
     create_sankey valid_trace valid_layout df style = Return empty_figure /\
     fig_data (@empty_figure coord) = []) /\
  (forall r,
     rows df = [r] ->
     has_column df (py "Host_Genome") = true ->
     has_column df (py "Plasmid_ID") = true ->
     has_column df (py "Environment") = true ->
     cell_eqb (cell_at r (py "Host_Genome")) (cell_at r (py "Plasmid_ID")) = false ->
     cell_eqb (cell_at r (py "Host_Genome")) (cell_at r (py "Environment")) = false ->
     cell_eqb (cell_at r (py "Plasmid_ID")) (cell_at r (py "Environment")) = false ->
     (forall fig,
        create_sankey valid_trace valid_layout df style = Return fig ->
        flow_labels fig
        = Some [cell_at r (py "Host_Genome"); cell_at r (py "Plasmid_ID");
                cell_at r (py "Environment")] /\
        flow_links fig
        = Some [(Some 0%nat, Some 1%nat, 1); (Some 1%nat, Some 2%nat, 1)]) /\
     (valid_style style = true ->
      (forall t, valid_trace t = true) -> (forall l, valid_layout l = true) ->
      exists fig, create_sankey valid_trace valid_layout df style = Return fig)).
Proof.
  split.
  - intros He. unfold create_sankey. rewrite He. split; reflexivity.
  - intros r Hr Hh Hp He Dhp Dhe Dpe. split.
    + intros fig H.
      apply (create_sankey_single_data valid_trace valid_layout df style
               Hr Hh Hp He Dhp Dhe Dpe H).
    + intros Hs Ht Hl.
      rewrite (create_sankey_single valid_trace valid_layout df style
                 Hr Hh Hp He Dhp Dhe Dpe).
      destruct style as [| | | | | |d]; try discriminate Hs.
      unfold valid_style in Hs.
      apply andb_true_iff in Hs. destruct Hs as [_ Hs].
      unfold subscript in *.
      destruct (dict_get d (py "node_color")) as [[| | | |a| |]|];
        try discriminate Hs.
      destruct (dict_get d (py "edge_color")) as [[| | | |b| |]|];
        try discriminate Hs.
      destruct (dict_get d (py "bg_color")) as [[| | | |c| |]|];
        try discriminate Hs.
      destruct (dict_get d (py "node_size")) as [[| |n1| | | |]|];
        try discriminate Hs.
      destruct (dict_get d (py "font_size")) as [[| |n2| | | |]|];
        try discriminate Hs.
      cbn [bind]. unfold new_trace, update_layout. rewrite Ht. cbn [bind].
      rewrite Hl. cbn [bind]. eexists. reflexivity.
Qed.

(** C4.  Matrix builder: for a dataset of one element whose four trait
    columns all hold the negative marker, the grid of the figure has the
    single row 0 0 0 0; with any one of the four values changed to a value
    that is not the negative marker, the row holds 1 in that trait's column
    and 0 in the others; and the builder returns the figure when the style
    has its two fields and plotly accepts the properties. *)
Theorem create_heatmap_single_element (df : DataFrame) (r : record)
  (scale style : json) :
  rows df = [r] ->
  forallb (has_column df) (py "Plasmid_ID" :: trait_columns) = true ->
  has_column df (py "Presence") = false ->
  (forall t, In t trait_columns -> matches_no (cell_at r t) = true) ->
  (forall fig,
     create_heatmap valid_trace valid_layout df scale style = Return fig ->
     matrix_of fig
     = Some ([cell_at r (py "Plasmid_ID")], matrix_columns, [[0; 0; 0; 0]])) /\
  (forall t v fig,
     In t trait_columns -> matches_no v = false ->
     create_heatmap valid_trace valid_layout
       (mkDF (columns df) [set_cell r t v]) scale style = Return fig ->
     matrix_of fig
     = Some ([cell_at r (py "Plasmid_ID")], matrix_columns,
             [map (fun c => if str_eqb c t then 1 else 0) matrix_columns])) /\
  (forall fs bg,
     subscript style (py "font_size") = Return fs ->
     subscript style (py "bg_color") = Return bg ->
     valid_trace (Heatmap [cell_at r (py "Plasmid_ID")] matrix_columns
                          [[0; 0; 0; 0]] scale) = true ->
     valid_layout (mkLayout (py "Presence of Plasmid-Associated Traits")
                            fs bg false) = true ->
     create_heatmap valid_trace valid_layout df scale style
     = Return (mkFigure
                 [Heatmap [cell_at r (py "Plasmid_ID")] matrix_columns
                          [[0; 0; 0; 0]] scale]
                 (Some (mkLayout (py "Presence of Plasmid-Associated Traits")
                                 fs bg false)))).
Proof.
  intros Hr Hcols Hpres Hno.
  assert (Hzero : map (fun c => binary (cell_at r c)) matrix_columns
                  = [0; 0; 0; 0]).
  { unfold matrix_columns. cbn [map]. rewrite !binary_matches_no.
    rewrite !Hno by (unfold trait_columns; cbn [In]; tauto). reflexivity. }
  split; [|split].
  - intros fig H.
    rewrite (create_heatmap_single_matrix valid_trace valid_layout df scale
               style Hr Hcols Hpres H).
    rewrite Hzero. reflexivity.
  - intros t v fig Ht Hv H.
    rewrite (@create_heatmap_single_matrix _ valid_trace valid_layout
               (mkDF (columns df) [set_cell r t v]) (set_cell r t v)
               scale style fig eq_refl Hcols Hpres H).
    rewrite cell_at_set.
    unfold matrix_columns. cbn [map]. rewrite !cell_at_set.
    rewrite !binary_matches_no.
    pose proof (Hno (py "ARGs")) as HA.
    pose proof (Hno (py "MGEs")) as HM.
    pose proof (Hno (py "T4SS")) as HT.
    pose proof (Hno (py "Virulence")) as HV.
    unfold trait_columns in Ht, HA, HM, HT, HV. cbn [In] in Ht, HA, HM, HT, HV.
    destruct Ht as [<-|[<-|[<-|[<-|[]]]]];
      repeat match goal with
             | |- context [str_eqb (py ?a) (py ?b)] =>
               let e := eval vm_compute in (str_eqb (py a) (py b)) in
               change (str_eqb (py a) (py b)) with e
             end;
      cbv iota;
      rewrite ?Hv, ?HA, ?HM, ?HT, ?HV by tauto; reflexivity.
  - intros fs bg Hfs Hbg Hvt Hvl.
    rewrite (create_heatmap_single valid_trace valid_layout df scale style
               Hr Hcols Hpres).
    rewrite Hzero. unfold new_trace, update_layout.
    rewrite Hvt. cbn [bind]. rewrite Hfs, Hbg. cbn [bind]. rewrite Hvl.
    reflexivity.
Qed.

(** C10, as the code has it.  A missing value counts as present.  For
    every dataset row whose value in a trait column is missing ([None] or
    NaN): the trait filter keeps the row, provided the row's value in
    every other trait filtered on is not a case-insensitive match for
    "no"; and the matrix builder puts 1 in the cell of that row's element
    and that trait. *)
Theorem missing_value_is_present (df : DataFrame) (r : record) (t : pystr) :
  In r (rows df) -> isna (cell_at r t) = true ->
  (forall traits df',
     In t traits ->
     (forall t', In t' traits -> t' <> t -> matches_no (cell_at r t') = false) ->
     filter_by_traits df traits = Return df' -> In r (rows df')) /\
  (forall scale style fig,
     In t trait_columns -> has_column df t = true ->
     create_heatmap valid_trace valid_layout df scale style = Return fig ->
     heat_cell fig (cell_at r (py "Plasmid_ID")) t = Some 1).
Proof.
  intros Hr Hna.
  assert (Hm : matches_no (cell_at r t) = false).
  { destruct (cell_at r t); try discriminate Hna; reflexivity. }
  split.
  - intros traits df' Ht Hother H.
    apply filter_by_traits_rows in H. destruct H as [_ Hrows].
    rewrite Hrows. apply filter_In. split; [exact Hr|].
    unfold passes. apply forallb_forall. intros t' Ht'.
    destruct (list_eq_dec Z.eq_dec t' t) as [->|Hne].
    + rewrite Hm. reflexivity.
    + rewrite (Hother t' Ht' Hne). reflexivity.
  - intros scale style fig Ht Hc H.
    rewrite (@create_heatmap_cell _ valid_trace valid_layout df scale style
               fig r t H Hc Hr Ht).
    rewrite binary_matches_no, Hm. reflexivity.
Qed.

End Collaborators.

Lemma update_output_loads_witness :
  ~ In 44 csv_mime /\ Forall is_byte (py "") /\ Forall is_byte (py "e") /\
  Forall is_byte (py "P") /\
  update_output toy_reader (Some (contents_of csv_mime (py "")))
  = Return (ErrorReadingFile OtherError, None) /\
  update_output toy_reader (Some (contents_of csv_mime (py "e")))
  = Return (InvalidFile, None) /\
  update_output toy_reader (Some (contents_of csv_mime (py "P")))
  = Return (DataTable (map fst text_columns) (to_dict_records two_plasmids),
            Some (to_dict_records two_plasmids)).
Proof.
  assert (Hm : ~ In 44 csv_mime).
  { intros H. simpl in H. intuition discriminate. }
  assert (H0 : Forall is_byte (py "")) by constructor.
  assert (H1 : Forall is_byte (py "e")) by (repeat constructor; discriminate).
  assert (H2 : Forall is_byte (py "P")) by (repeat constructor; discriminate).
  split; [exact Hm|]. split; [exact H0|]. split; [exact H1|].
  split; [exact H2|]. split; [|split].
  - apply (proj1 (@update_output_loads toy_reader csv_mime (py "") Hm H0)
             OtherError eq_refl).
  - apply (proj1 (proj2 (@update_output_loads toy_reader csv_mime (py "e") Hm H1))
             (mkDF text_columns []) eq_refl (or_introl eq_refl)).
  - apply (proj2 (proj2 (@update_output_loads toy_reader csv_mime (py "P") Hm H2))
             two_plasmids eq_refl eq_refl eq_refl).
Defined.

Lemma create_sankey_small_witness :
  df_empty (mkDF text_columns []) = true /\
  create_sankey accept_trace accept_layout (mkDF text_columns []) default_style
  = Return empty_figure /\
  flow_labels
    (figure_or_empty
       (create_sankey accept_trace accept_layout one_plasmid default_style))
  = Some [CStr (py "H1"); CStr (py "P1"); CStr (py "Soil")] /\
  flow_links
    (figure_or_empty
       (create_sankey accept_trace accept_layout one_plasmid default_style))
  = Some [(Some 0%nat, Some 1%nat, 1); (Some 1%nat, Some 2%nat, 1)] /\
  exists fig,
    create_sankey accept_trace accept_layout one_plasmid default_style
    = Return fig.
Proof.
  destruct (@create_sankey_small Z accept_trace accept_layout
              (mkDF text_columns []) default_style) as [He _].
  destruct (@create_sankey_small Z accept_trace accept_layout
              one_plasmid default_style) as [_ H1].
  specialize (H1 row_p1 eq_refl eq_refl eq_refl eq_refl eq_refl eq_refl eq_refl).
  destruct H1 as [Hdata Hret].
  split; [reflexivity|]. split; [apply (He eq_refl)|].
  destruct (Hdata
              (figure_or_empty
                 (create_sankey accept_trace accept_layout one_plasmid
                    default_style)) eq_refl) as [Hl Hk].
  split; [exact Hl|]. split; [exact Hk|].
  apply Hret; [reflexivity|intros t; reflexivity|intros l; reflexivity].
Defined.

Lemma create_heatmap_single_element_witness :
  matrix_of
    (figure_or_empty
       (create_heatmap accept_trace accept_layout one_absent blues
          default_style))
  = Some ([CStr (py "P3")], matrix_columns, [[0; 0; 0; 0]]) /\
  matrix_of
    (figure_or_empty
       (create_heatmap accept_trace accept_layout
          (mkDF text_columns [set_cell row_all_no (py "T4SS") (CStr (py "yes"))])
          blues default_style))
  = Some ([CStr (py "P3")], matrix_columns, [[0; 0; 1; 0]]) /\
  create_heatmap accept_trace accept_layout one_absent blues default_style
  = Return (mkFigure
              [Heatmap [CStr (py "P3")] matrix_columns [[0; 0; 0; 0]] blues]
              (Some (mkLayout (py "Presence of Plasmid-Associated Traits")
                              (JInt 14) (JStr (py "white")) false))).
Proof.
  assert (Hno : forall t, In t trait_columns ->
                          matches_no (cell_at row_all_no t) = true).
  { intros t [<-|[<-|[<-|[<-|[]]]]]; reflexivity. }
  destruct (@create_heatmap_single_element Z accept_trace accept_layout
              one_absent row_all_no blues default_style
              eq_refl eq_refl eq_refl Hno) as [HA [HB HC]].
  split; [|split].
  - apply (HA _ eq_refl).
  - apply (HB (py "T4SS") (CStr (py "yes")) _
              (or_intror (or_intror (or_introl eq_refl))) eq_refl eq_refl).
  - apply (HC (JInt 14) (JStr (py "white")) eq_refl eq_refl eq_refl eq_refl).
Defined.

(** C10, as the specification states it, fails: the row of the sample
    dataset for plasmid P4 has no value for [ARGs], and the filter on
    [ARGs] and [Virulence] returns a dataset without that row, because
    its [Virulence] value is "no". *)
Lemma missing_row_dropped_by_other_trait :
  In row_missing (rows with_missing) /\
  isna (cell_at row_missing (py "ARGs")) = true /\
  In (py "ARGs") [py "ARGs"; py "Virulence"] /\
  exists df',
    filter_by_traits with_missing [py "ARGs"; py "Virulence"] = Return df' /\
    ~ In row_missing (rows df').
Proof.
  split; [left; reflexivity|]. split; [reflexivity|].
  split; [left; reflexivity|].
  exists (mkDF text_columns []). split; [reflexivity|].
  intros H. exact H.
Qed.

Lemma missing_value_is_present_witness :
  In row_missing (rows with_missing) /\
  isna (cell_at row_missing (py "ARGs")) = true /\
  filter_by_traits with_missing [py "ARGs"]
  = Return (mkDF text_columns [row_missing]) /\
  In row_missing (rows (mkDF text_columns [row_missing])) /\
  heat_cell
    (figure_or_empty
       (create_heatmap accept_trace accept_layout with_missing blues
          default_style))
    (CStr (py "P4")) (py "ARGs")
  = Some 1.
Proof.
  assert (Hin : In row_missing (rows with_missing)) by (left; reflexivity).
  destruct (@missing_value_is_present Z accept_trace accept_layout
              with_missing row_missing (py "ARGs") Hin eq_refl) as [HF HM].
  split; [exact Hin|]. split; [reflexivity|]. split; [reflexivity|].
  split.
  - apply (HF [py "ARGs"] (mkDF text_columns [row_missing])
              (or_introl eq_refl)).
    + intros t' [<-|[]] Hne. contradiction Hne. reflexivity.
    + reflexivity.
  - apply (HM blues default_style _ (or_introl eq_refl) eq_refl eq_refl).
Defined.

End Properties.
(* ================================================================= *)
(** * Properties of the upload callbacks *)

Module UploadProperties.
Import Py Pandas Networkx Upload App Notions Samples.
Import PyFacts Base64Facts UploadFacts.

Section Reader.
Variable read_csv : pystr -> result DataFrame.

(** X1.  [update_output] never raises: whatever the upload component hands
    it, it returns a preview and the data for the store.  The store gets
    data only together with a preview table, and then the data are the
    records of a frame that [parse_contents] read from the upload, that is
    not empty and that has the column [Plasmid_ID]; in every other case
    the store gets [None]. *)
Theorem update_output_never_raises (contents : option pystr) :
  exists preview data,
    update_output read_csv contents = Return (preview, data) /\
    match data with
    | None => forall cols records, preview <> DataTable cols records
    | Some records =>
      exists text df,
        contents = Some text /\
        parse_contents read_csv text = Return df /\
        df_empty df = false /\ has_column df (py "Plasmid_ID") = true /\
        records = to_dict_records df /\
        preview = DataTable (map fst (columns df)) records
    end.
Proof.
  destruct contents as [[|c cs]|]; cbn [update_output].
  - exists PleaseUploadCsv, None. split; [reflexivity|discriminate].
  - destruct (parse_contents read_csv (c :: cs)) as [df|e] eqn:E;
      cbn [bind try_except].
    + destruct (df_empty df) eqn:He; cbn [orb].
      * exists InvalidFile, None. split; [reflexivity|discriminate].
      * destruct (has_column df (py "Plasmid_ID")) eqn:Hc; cbn [negb].
        -- eexists _, (Some _). split; [reflexivity|].
           exists (c :: cs), df. repeat split; assumption.
        -- exists InvalidFile, None. split; [reflexivity|discriminate].
    + exists (ErrorReadingFile e), None. split; [reflexivity|discriminate].
  - exists PleaseUploadCsv, None. split; [reflexivity|discriminate].
Qed.

(** X2.  An upload whose contents do not hold exactly one comma is not a
    [data:] URL the callbacks can take apart: the unpacking of
    [contents.split(',')] raises [ValueError].  [update_output], which
    splits inside its [try], reports the error and stores nothing;
    [load_style], which splits before its [try], lets the exception
    escape. *)
Theorem upload_without_single_comma (contents : pystr) (current : json) :
  contents <> [] -> count_occ Z.eq_dec contents 44 <> 1%nat ->
  parse_contents read_csv contents = Raise ValueError /\
  update_output read_csv (Some contents)
  = Return (ErrorReadingFile ValueError, None) /\
  load_style (Some contents) current = Raise ValueError.
Proof.
  intros Hne Hc.
  assert (Hu : unpack2 (split_on 44 contents) = Raise ValueError).
  { apply unpack2_length. rewrite split_on_length. lia. }
  assert (Hp : parse_contents read_csv contents = Raise ValueError).
  { unfold parse_contents. rewrite Hu. reflexivity. }
  split; [exact Hp|].
  destruct contents as [|c cs]; [contradiction Hne; reflexivity|].
  split.
  - cbn [update_output]. rewrite Hp. reflexivity.
  - unfold load_style, load_style_with. rewrite Hu. reflexivity.
Qed.

(** X3.  A payload made of characters of the base64 alphabet only, without
    padding, whose length is not a multiple of four is refused by
    [base64.b64decode] with [binascii.Error].  [load_style] decodes before
    its [try] and raises that error; [update_output] reports it and stores
    nothing. *)
Theorem upload_with_truncated_payload (head payload : pystr) (current : json) :
  ~ In 44 head ->
  Forall (fun c => b64_value c <> None) payload ->
  Z.of_nat (List.length payload) mod 4 <> 0 ->
  load_style (Some (head ++ 44 :: payload)) current = Raise BinasciiError /\
  update_output read_csv (Some (head ++ 44 :: payload))
  = Return (ErrorReadingFile BinasciiError, None).
Proof.
  intros Hh Hp Hn.
  assert (Hc : ~ In 44 payload).
  { intros Hin. rewrite Forall_forall in Hp.
    destruct (@alphabet_char 44 (Hp 44 Hin)) as [_ [N _]].
    contradiction N. reflexivity. }
  pose proof (@split_one_comma head payload Hh Hc) as Hs.
  pose proof (@b64decode_alphabet payload Hp Hn) as Hd.
  destruct (head ++ 44 :: payload) as [|c cs] eqn:E.
  { destruct head; discriminate E. }
  split.
  - unfold load_style, load_style_with. rewrite Hs. cbn [bind]. rewrite Hd.
    reflexivity.
  - cbn [update_output]. unfold parse_contents. rewrite Hs. cbn [bind].
    rewrite Hd. reflexivity.
Qed.

End Reader.

Lemma upload_without_single_comma_witness :
  py "P1;Soil" <> [] /\ count_occ Z.eq_dec (py "P1;Soil") 44 <> 1%nat /\
  update_output toy_reader (Some (py "P1;Soil"))
  = Return (ErrorReadingFile ValueError, None) /\
  load_style (Some (py "P1;Soil")) default_style = Raise ValueError.
Proof.
  assert (H1 : py "P1;Soil" <> []) by discriminate.
  assert (H2 : count_occ Z.eq_dec (py "P1;Soil") 44 <> 1%nat) by discriminate.
  split; [exact H1|]. split; [exact H2|].
  exact (proj2 (@upload_without_single_comma toy_reader (py "P1;Soil")
                  default_style H1 H2)).
Defined.

Lemma upload_with_truncated_payload_witness :
  load_style (Some (py "data:application/json;base64,e30")) default_style
  = Raise BinasciiError /\
  update_output toy_reader (Some (py "data:application/json;base64,e30"))
  = Return (ErrorReadingFile BinasciiError, None).
Proof.
  apply (@upload_with_truncated_payload toy_reader
           (py "data:application/json;base64") (py "e30") default_style).
  - intros H. simpl in H. intuition discriminate.
  - repeat constructor; discriminate.
  - discriminate.
Defined.

End UploadProperties.

(* ================================================================= *)
(** * Properties of the trait filter *)

Module FilterProperties.
Import Py Pandas Networkx Upload App Notions Samples.
Import PyFacts PandasFacts.

Lemma passes_same_traits (ts ts' : list pystr) (r : record) :
  (forall t, In t ts <-> In t ts') -> passes ts r = passes ts' r.
Proof.
  intros H. unfold passes.
  destruct (forallb _ ts') eqn:E'.
  - apply forallb_forall. intros t Ht. rewrite forallb_forall in E'.
    apply E', H, Ht.
  - destruct (forallb _ ts) eqn:E; [|reflexivity].
    rewrite <- E'. symmetry. apply forallb_forall. intros t Ht.
    rewrite forallb_forall in E. apply E, H, Ht.
Qed.

(** X4.  Filtering composes: filtering by the traits [ts1] and then, if
    that returned, filtering the result by [ts2] is filtering by [ts1]
    followed by [ts2] in one call, exceptions included. *)
Theorem filter_by_traits_app (ts1 ts2 : list pystr) :
  forall df,
  filter_by_traits df (ts1 ++ ts2)
  = (df1 <- filter_by_traits df ts1 ;; filter_by_traits df1 ts2).
Proof.
  induction ts1 as [|t ts1 IH]; intros df; [reflexivity|].
  cbn [app filter_by_traits].
  destruct (getitem df t) as [col|e]; [|reflexivity]. cbn [bind].
  destruct (str_accessor col) as [strs|e]; [|reflexivity]. cbn [bind].
  apply IH.
Qed.

(** X5.  On columns of text the result of the filter depends on the set of
    the traits only: two lists naming the same traits, in any order and
    with any repetitions, give the same dataset. *)
Theorem filter_by_traits_any_order (df : DataFrame) (ts ts' : list pystr) :
  (forall t, In t ts -> text_column df t) ->
  (forall t, In t ts <-> In t ts') ->
  filter_by_traits df ts' = filter_by_traits df ts.
Proof.
  intros Htext Hsame.
  destruct (@filter_by_traits_returns ts df Htext) as [d E].
  destruct (@filter_by_traits_returns ts' df) as [d' E'].
  { intros t Ht. apply Htext, Hsame, Ht. }
  rewrite E, E'. f_equal.
  apply filter_by_traits_rows in E. apply filter_by_traits_rows in E'.
  destruct E as [Ec Er]. destruct E' as [Ec' Er'].
  destruct d as [c r], d' as [c' r']. cbn [columns rows] in *.
  subst c c' r r'. f_equal.
  apply filter_ext. intros r. symmetry. apply passes_same_traits, Hsame.
Qed.

(** X6.  The exceptions of the filter.  When the traits before [t] name
    columns of text: a trait [t] that is not a column of the dataset makes
    the filter raise [KeyError], and a trait whose column is numeric or
    boolean makes it raise [AttributeError] (the [.str] accessor refuses
    the column), whatever traits follow and however many rows are left. *)
Theorem filter_by_traits_raises (df : DataFrame) (ts1 ts2 : list pystr)
  (t : pystr) :
  (forall t', In t' ts1 -> text_column df t') ->
  (has_column df t = false ->
   filter_by_traits df (ts1 ++ t :: ts2) = Raise KeyError) /\
  (forall d, col_dtype (columns df) t = Some d -> d <> DObject ->
   filter_by_traits df (ts1 ++ t :: ts2) = Raise AttributeError).
Proof.
  intros Htext.
  destruct (@filter_by_traits_returns ts1 df Htext) as [df1 E].
  pose proof (filter_by_traits_rows _ _ E) as [Ec _].
  rewrite filter_by_traits_app, E. cbn [bind filter_by_traits].
  unfold getitem, has_column. rewrite Ec. split.
  - destruct (col_dtype (columns df) t); [discriminate|reflexivity].
  - intros d -> Hd. cbn [bind]. unfold str_accessor. cbn [s_dtype].
    destruct d; [contradiction Hd|..]; reflexivity.
Qed.

Lemma filter_by_traits_any_order_witness :
  filter_by_traits two_plasmids [py "T4SS"; py "ARGs"; py "T4SS"]
  = filter_by_traits two_plasmids [py "ARGs"; py "T4SS"].
Proof.
  apply filter_by_traits_any_order.
  - intros t [<-|[<-|[]]]; (split; [reflexivity|]);
      intros r [<-|[<-|[]]]; reflexivity.
  - intros t. cbn [In]. tauto.
Defined.

Lemma filter_by_traits_raises_witness :
  filter_by_traits two_plasmids [py "ARGs"; py "Plasmids"; py "T4SS"]
  = Raise KeyError /\
  filter_by_traits
    (mkDF [(py "Plasmid_ID", DObject); (py "ARGs", DNumeric)]
          [[(py "Plasmid_ID", CStr (py "P1")); (py "ARGs", CNum 1)]])
    [py "ARGs"]
  = Raise AttributeError.
Proof.
  assert (Htext : forall t, In t [py "ARGs"] -> text_column two_plasmids t).
  { intros t [<-|[]]. split; [reflexivity|].
    intros r [<-|[<-|[]]]; reflexivity. }
  split.
  - apply (proj1 (@filter_by_traits_raises two_plasmids [py "ARGs"]
                    [py "T4SS"] (py "Plasmids") Htext)).
    reflexivity.
  - apply (proj2 (@filter_by_traits_raises
                    (mkDF [(py "Plasmid_ID", DObject); (py "ARGs", DNumeric)]
                          [[(py "Plasmid_ID", CStr (py "P1"));
                            (py "ARGs", CNum 1)]])
                    [] [] (py "ARGs") (fun _ F => match F with end))
             DNumeric eq_refl).
    discriminate.
Defined.

End FilterProperties.

(* ================================================================= *)
(** * Properties of the flow builder *)

Module FlowProperties.
Import Py Pandas Networkx Upload App Notions Samples.
Import PyFacts PandasFacts BuilderFacts FigureFacts.

Section Plotly.
Variable coord : Type.
Variable valid_trace : Trace coord -> bool.
Variable valid_layout : Layout -> bool.

(** X7.  The flow diagram of a dataset of any size.  When [create_sankey]
    returns a figure for a dataset that is not empty, its labels are the
    hosts, elements and environments of the dataset, each once, in the
    order of first appearance in that sequence; it has two links per row,
    first one from host to element for every row, then one from element to
    environment for every row, all of weight one; every end of a link is
    the position of a label that equals the value it stands for; and no
    two labels are equal. *)
Theorem create_sankey_links (df : DataFrame) (style : json)
  (fig : Figure coord) :
  df_empty df = false ->
  create_sankey valid_trace valid_layout df style = Return fig ->
  let labels :=
    unique (map (fun r => cell_at r (py "Host_Genome")) (rows df)
            ++ map (fun r => cell_at r (py "Plasmid_ID")) (rows df)
            ++ map (fun r => cell_at r (py "Environment")) (rows df)) in
  flow_labels fig = Some labels /\
  flow_links fig
  = Some (map (fun r => (index_from 0 labels (cell_at r (py "Host_Genome")),
                         index_from 0 labels (cell_at r (py "Plasmid_ID")), 1))
              (rows df)
          ++ map (fun r => (index_from 0 labels (cell_at r (py "Plasmid_ID")),
                            index_from 0 labels (cell_at r (py "Environment")), 1))
                 (rows df)) /\
  (forall r c,
     In r (rows df) ->
     In c [py "Host_Genome"; py "Plasmid_ID"; py "Environment"] ->
     exists i y, index_from 0 labels (cell_at r c) = Some i /\
                 nth_error labels i = Some y /\
                 cell_eqb y (cell_at r c) = true) /\
  (forall i j x y,
     nth_error labels i = Some x -> nth_error labels j = Some y ->
     cell_eqb x y = true -> i = j).
Proof.
  intros He H. cbn zeta.
  destruct (create_sankey_Return valid_trace valid_layout df style He H)
    as [th [col [lc Hd]]].
  unfold flow_labels, flow_links. rewrite Hd.
  split; [reflexivity|]. split; [|split].
  - f_equal. unfold map_labels.
    rewrite combine_repeat by (rewrite length_combine; lia).
    rewrite combine_app_same by (rewrite !length_map; reflexivity).
    rewrite !map_map, map_app. rewrite !combine_map, !map_map.
    reflexivity.
  - intros r c Hr Hc.
    set (all := map (fun r => cell_at r (py "Host_Genome")) (rows df)
                ++ map (fun r => cell_at r (py "Plasmid_ID")) (rows df)
                ++ map (fun r => cell_at r (py "Environment")) (rows df)).
    assert (Hin : In (cell_at r c) all).
    { unfold all. rewrite !in_app_iff, !in_map_iff.
      destruct Hc as [<-|[<-|[<-|[]]]]; eauto 6. }
    destruct (unique_in _ _ Hin) as [y [Hy Hyx]].
    destruct (index_from_found _ 0 _ y Hy Hyx) as [i [y' [Hi [Hn Hy']]]].
    exists i, y'. repeat split; assumption.
  - intros i j x y. apply unique_acc_distinct.
Qed.

End Plotly.

Lemma create_sankey_links_witness :
  df_empty two_plasmids = false /\
  flow_labels
    (figure_or_empty
       (create_sankey accept_trace accept_layout two_plasmids default_style))
  = Some [CStr (py "H1"); CStr (py "H2"); CStr (py "P1"); CStr (py "P2");
          CStr (py "Soil"); CStr (py "Water")] /\
  flow_links
    (figure_or_empty
       (create_sankey accept_trace accept_layout two_plasmids default_style))
  = Some [(Some 0%nat, Some 2%nat, 1); (Some 1%nat, Some 3%nat, 1);
          (Some 2%nat, Some 4%nat, 1); (Some 3%nat, Some 5%nat, 1)].
Proof.
  destruct (@create_sankey_links Z accept_trace accept_layout two_plasmids
              default_style
              (figure_or_empty
                 (create_sankey accept_trace accept_layout two_plasmids
                    default_style)) eq_refl eq_refl) as [Hl [Hk _]].
  split; [reflexivity|]. split; [exact Hl|exact Hk].
Defined.

End FlowProperties.

(* ================================================================= *)
(** * Properties of the matrix builder *)

Module MatrixProperties.
Import Py Pandas Networkx Upload App Notions Samples.
Import PyFacts PandasFacts BuilderFacts FigureFacts PivotFacts.

Section Plotly.
Variable coord : Type.
Variable valid_trace : Trace coord -> bool.
Variable valid_layout : Layout -> bool.

(** X8.  The matrix builder wants every element once.  On a dataset that
    is not empty, has the identifier and the four trait columns and no
    column called [Presence]: when two rows name the same element,
    [create_heatmap] raises [ValueError] (the pivot cannot reshape),
    whatever the style; when no row lacks its identifier and the rows name
    different elements, it returns a figure as soon as the style has its
    two fields and plotly accepts the properties. *)
Theorem create_heatmap_needs_distinct_ids (df : DataFrame)
  (scale style : json) :
  df_empty df = false ->
  has_column df (py "Presence") = false ->
  forallb (has_column df) (py "Plasmid_ID" :: trait_columns) = true ->
  (distinct_cells (plasmid_ids df) = false ->
   create_heatmap valid_trace valid_layout df scale style = Raise ValueError) /\
  (ids_present df ->
   distinct_cells (plasmid_ids df) = true ->
   forall fs bg,
   subscript style (py "font_size") = Return fs ->
   subscript style (py "bg_color") = Return bg ->
   (forall t, valid_trace t = true) -> (forall l, valid_layout l = true) ->
   exists fig,
     create_heatmap valid_trace valid_layout df scale style = Return fig).
Proof.
  intros He Hp Hc.
  rewrite (create_heatmap_pivot valid_trace valid_layout df scale style
             He Hp Hc).
  unfold pivot. rewrite melted_duplicates. split.
  - intros Hd. rewrite Hd. reflexivity.
  - intros _ Hd fs bg Hfs Hbg Ht Hl. rewrite Hd. cbn [negb bind].
    unfold new_trace, update_layout. rewrite Ht. cbn [bind].
    rewrite Hfs, Hbg. cbn [bind]. rewrite Hl. cbn [bind].
    eexists. reflexivity.
Qed.

(** X9.  The presence matrix of a dataset of any size.  When
    [create_heatmap] returns a figure for a dataset that is not empty and
    in which no row lacks its identifier, no two rows of the dataset name
    the same element; the rows of the matrix
    are labelled by the elements in sorted order and its columns by the
    four traits in alphabetical order; the grid has one row per row of the
    dataset, every row of the grid has four cells, every cell holds 0 or
    1; and the cell of an element and a trait holds 0 exactly when the
    dataset's value is a case-insensitive match for "no". *)
Theorem create_heatmap_matrix (df : DataFrame) (scale style : json)
  (fig : Figure coord) :
  df_empty df = false -> ids_present df ->
  create_heatmap valid_trace valid_layout df scale style = Return fig ->
  distinct_cells (plasmid_ids df) = true /\
  exists z,
    matrix_of fig = Some (sort cell_leb (plasmid_ids df), matrix_columns, z) /\
    List.length z = List.length (rows df) /\
    Forall (fun row => List.length row = 4%nat /\
                       Forall (fun v => v = 0 \/ v = 1) row) z /\
    forall r t,
      In r (rows df) -> In t trait_columns ->
      heat_cell fig (cell_at r (py "Plasmid_ID")) t
      = Some (if matches_no (cell_at r t) then 0 else 1).
Proof.
  intros He _ H.
  destruct (create_heatmap_Return valid_trace valid_layout df scale style
              He H) as [Hnd Hm].
  rewrite melted_duplicates in Hnd. apply negb_false_iff in Hnd.
  split; [exact Hnd|].
  assert (Hrows : rows df <> []).
  { unfold df_empty in He. destruct (columns df); [discriminate He|].
    destruct (rows df); [discriminate He|discriminate]. }
  rewrite melted_columns in Hm by exact Hrows.
  rewrite melted_ids, (unique_four _ Hnd) in Hm.
  eexists. split; [exact Hm|]. split; [|split].
  - rewrite !length_map, sort_length. unfold plasmid_ids.
    apply length_map.
  - apply Forall_forall. intros row Hrow.
    apply in_map_iff in Hrow. destruct Hrow as [row' [<- Hrow']].
    apply in_map_iff in Hrow'. destruct Hrow' as [i [<- _]].
    split; [reflexivity|].
    apply Forall_forall. intros v Hv.
    apply in_map_iff in Hv. destruct Hv as [e [<- He']].
    apply in_map_iff in He'. destruct He' as [c [<- _]].
    pose proof (entry_bit (melted_of df) i c) as Hb.
    destruct (entry (with_binary (melted_of df)) i c); [exact Hb|].
    left. reflexivity.
  - intros r t Hr Ht.
    pose proof (create_heatmap_columns valid_trace valid_layout df scale
                  style He H) as Hc.
    assert (Hct : has_column df t = true).
    { rewrite forallb_forall in Hc. apply Hc. right. exact Ht. }
    rewrite (@create_heatmap_cell _ valid_trace valid_layout df scale style
               fig r t H Hct Hr Ht).
    rewrite binary_matches_no. reflexivity.
Qed.

End Plotly.

Lemma create_heatmap_needs_distinct_ids_witness :
  create_heatmap accept_trace accept_layout
    (mkDF text_columns [row_p1; row_p2; row_p1_water]) blues default_style
  = Raise ValueError /\
  exists fig,
    create_heatmap accept_trace accept_layout two_plasmids blues default_style
    = Return fig.
Proof.
  assert (Hids : ids_present two_plasmids).
  { intros r [<-|[<-|[]]]; reflexivity. }
  split.
  - apply (proj1 (@create_heatmap_needs_distinct_ids Z accept_trace
                    accept_layout
                    (mkDF text_columns [row_p1; row_p2; row_p1_water])
                    blues default_style eq_refl eq_refl eq_refl)).
    reflexivity.
  - apply (proj2 (@create_heatmap_needs_distinct_ids Z accept_trace
                    accept_layout two_plasmids blues default_style
                    eq_refl eq_refl eq_refl)
             Hids eq_refl (JInt 14) (JStr (py "white")) eq_refl eq_refl).
    + intros t. reflexivity.
    + intros l. reflexivity.
Defined.

Lemma create_heatmap_matrix_witness :
  matrix_of
    (figure_or_empty
       (create_heatmap accept_trace accept_layout two_plasmids blues
          default_style))
  = Some ([CStr (py "P1"); CStr (py "P2")], matrix_columns,
          [[1; 0; 0; 0]; [0; 0; 0; 1]]) /\
  heat_cell
    (figure_or_empty
       (create_heatmap accept_trace accept_layout two_plasmids blues
          default_style))
    (CStr (py "P2")) (py "ARGs")
  = Some 0.
Proof.
  assert (Hids : ids_present two_plasmids).
  { intros r [<-|[<-|[]]]; reflexivity. }
  destruct (@create_heatmap_matrix Z accept_trace accept_layout two_plasmids
              blues default_style
              (figure_or_empty
                 (create_heatmap accept_trace accept_layout two_plasmids
                    blues default_style)) eq_refl Hids eq_refl)
    as [_ [z [_ [_ [_ Hcell]]]]].
  split; [reflexivity|].
  apply (Hcell row_p2 (py "ARGs")).
  - right. left. reflexivity.
  - left. reflexivity.
Defined.

End MatrixProperties.

(* ================================================================= *)
(** * Properties of the network builder *)

Module NetworkProperties.
Import Py Pandas Networkx Upload App Notions Samples.
Import PyFacts PandasFacts BuilderFacts FigureFacts PivotFacts GraphFacts.

Section Layout.
Variable coord : Type.
Variable rng : Type.
Variable RandomState : Z -> rng.
Variable fruchterman_reingold :
  Graph -> repulsion -> rng -> (cell -> coord * coord) * rng.
Variable valid_trace : Trace coord -> bool.
Variable valid_layout : Layout -> bool.

(** X10.  The graph [create_network] builds from a dataset that has the
    columns [Plasmid_ID] and [Environment] and no missing value in them:
    the loop over the rows returns; the nodes are the plasmids and the
    environments of the dataset, each once, in the order the rows bring
    them; every row's plasmid and environment are joined by an edge of
    the graph; and every edge of the graph joins the plasmid and the
    environment of some row. *)
Theorem network_graph_of_rows (df : DataFrame) :
  has_column df (py "Plasmid_ID") = true ->
  has_column df (py "Environment") = true ->
  (forall r, In r (rows df) ->
             isna (cell_at r (py "Plasmid_ID")) = false /\
             isna (cell_at r (py "Environment")) = false) ->
  exists G,
    add_rows df (rows df) [] = Return G /\
    nodes G = unique (endpoints df) /\
    (forall r, In r (rows df) ->
       exists ab, In ab (edges G) /\
                  joins ab (cell_at r (py "Plasmid_ID"))
                           (cell_at r (py "Environment")) = true) /\
    (forall ab, In ab (edges G) ->
       exists r, In r (rows df) /\
                 joins ab (cell_at r (py "Plasmid_ID"))
                          (cell_at r (py "Environment")) = true).
Proof.
  intros Hp He Hna.
  assert (Hn : forall r, In r (rows df) ->
                 cell_at r (py "Plasmid_ID") <> CNone /\
                 cell_at r (py "Environment") <> CNone).
  { intros r Hr. destruct (Hna r Hr) as [A B].
    split; intros E; [rewrite E in A|rewrite E in B]; discriminate. }
  destruct (@add_rows_nodes df (rows df) Hp He Hn []) as [G [EG NG]].
  cbn [nodes map app] in NG. fold (endpoints df) in NG.
  fold (unique (endpoints df)) in NG.
  exists G. split; [exact EG|]. split; [exact NG|].
  pose proof (fun a b => @add_rows_adjacent df (rows df) Hp He Hn [] G a b EG)
    as Hadj.
  cbn [adjacent existsb orb] in Hadj.
  split.
  - intros r Hr.
    apply edges_from_complete.
    + rewrite NG. apply unique_acc_distinct_list.
    + rewrite Hadj. apply existsb_exists. exists r. split; [exact Hr|].
      unfold joins. cbn [fst snd]. rewrite !cell_eqb_refl. reflexivity.
    + rewrite Hadj. apply existsb_exists. exists r. split; [exact Hr|].
      unfold joins. cbn [fst snd]. rewrite !cell_eqb_refl. apply orb_true_r.
    + reflexivity.
    + reflexivity.
  - intros [a b] Hab. apply edges_from_adjacent in Hab.
    rewrite Hadj in Hab. apply existsb_exists in Hab. exact Hab.
Qed.

(** X11.  What the network figure holds.  When [create_network] returns a
    figure for a dataset that is not empty and in which no row lacks its
    plasmid or its environment, the graph built from the rows has for
    nodes the plasmids and environments of the dataset, each once, so at
    least one, and the layout is always run with the repulsion 0.3
    divided by the number of nodes, on a generator seeded with 42 (the
    fallback 0.3 of the source is never used); the figure has two traces,
    the lines with three points per edge of the graph, the third a gap,
    and the markers with one point per node, labelled by the node; and
    its layout has the drag mode [pan]. *)
Theorem create_network_figure (df : DataFrame) (style : json) (global : rng)
  (fig : Figure coord) :
  df_empty df = false -> endpoints_present df ->
  fst (create_network RandomState fruchterman_reingold valid_trace
         valid_layout df style global) = Return fig ->
  exists G line_color size color layout,
    add_rows df (rows df) [] = Return G /\
    nodes G = unique (endpoints df) /\
    (0 < List.length (nodes G))%nat /\
    let pos := fst (fruchterman_reingold G (KOver (List.length (nodes G)))
                      (RandomState 42)) in
    fig_data fig
    = [ScatterLines
         (flat_map (fun e => [Some (fst (pos (fst e)));
                              Some (fst (pos (snd e))); None]) (edges G))
         (flat_map (fun e => [Some (snd (pos (fst e)));
                              Some (snd (pos (snd e))); None]) (edges G))
         line_color;
       ScatterMarkers (map (fun v => fst (pos v)) (nodes G))
                      (map (fun v => snd (pos v)) (nodes G))
                      (nodes G) size color] /\
    fig_layout fig = Some layout /\ dragmode_pan layout = true.
Proof.
  intros He Hna H. unfold create_network in H. rewrite He in H.
  destruct (add_rows df (rows df) []) as [G|e] eqn:EG; [|discriminate H].
  assert (Hcols : has_column df (py "Plasmid_ID") = true /\
                  has_column df (py "Environment") = true).
  { unfold df_empty in He. destruct (columns df); [discriminate He|].
    destruct (rows df) as [|r0 rs]; [discriminate He|].
    cbn [add_rows] in EG.
    destruct (has_column df (py "Plasmid_ID")); [|discriminate EG].
    split; [reflexivity|]. cbn [negb] in EG.
    apply bind_Return in EG. destruct EG as [G1 [_ EG]].
    destruct (has_column df (py "Environment")); [reflexivity|].
    discriminate EG. }
  destruct Hcols as [Hp Hv].
  assert (HN : nodes G = unique (endpoints df)).
  { destruct (@add_rows_nodes df (rows df) Hp Hv) with (G := @nil node)
      as [G' [EG' NG']].
    - intros r Hr. destruct (Hna r Hr) as [A B].
      split; intros E; [rewrite E in A|rewrite E in B]; discriminate.
    - rewrite EG in EG'. injection EG' as <-. exact NG'. }
  assert (Hpos : (0 < List.length (nodes G))%nat).
  { apply (proj2 (@add_rows_grows df (rows df) [] G EG)). intros E.
    unfold df_empty in He. rewrite E in He.
    destruct (columns df); discriminate He. }
  assert (Hk : (0 <? List.length (nodes G))%nat = true)
    by (apply Nat.ltb_lt; exact Hpos).
  rewrite Hk in H. unfold spring_layout in H. cbv iota beta in H.
  cbn [fst] in H.
  apply bind_Return in H. destruct H as [lc [_ H]].
  apply bind_Return in H. destruct H as [lines [Hl H]].
  apply new_trace_Return in Hl. subst lines.
  apply bind_Return in H. destruct H as [size [_ H]].
  apply bind_Return in H. destruct H as [color [_ H]].
  apply bind_Return in H. destruct H as [markers [Hm H]].
  apply new_trace_Return in Hm. subst markers.
  apply bind_Return in H. destruct H as [bg [_ H]].
  apply bind_Return in H. destruct H as [fs [_ H]].
  apply bind_Return in H. destruct H as [layout [Hl1 H]].
  apply bind_Return in H. destruct H as [layout' [Hl2 H]].
  apply update_layout_Return in Hl2. subst layout'.
  injection H as <-.
  exists G, lc, size, color. eexists.
  split; [reflexivity|]. split; [exact HN|]. split; [exact Hpos|].
  cbn zeta. split; [reflexivity|]. split; reflexivity.
Qed.

(** X12.  [None] cannot be a node.  On a dataset that has the columns
    [Plasmid_ID] and [Environment]: when the first row with the value
    [None] in one of the two columns is reached, [create_network] raises
    [ValueError], whatever the style, and leaves the random generator of
    the process as it found it. *)
Theorem create_network_none_node (df : DataFrame) (style : json)
  (global : rng) (pre post : list record) (r : record) :
  has_column df (py "Plasmid_ID") = true ->
  has_column df (py "Environment") = true ->
  rows df = pre ++ r :: post ->
  (forall r', In r' pre -> cell_at r' (py "Plasmid_ID") <> CNone /\
                           cell_at r' (py "Environment") <> CNone) ->
  cell_at r (py "Plasmid_ID") = CNone \/ cell_at r (py "Environment") = CNone ->
  create_network RandomState fruchterman_reingold valid_trace valid_layout
    df style global
  = (Raise ValueError, global).
Proof.
  intros Hp He Hrows Hpre Hnone.
  assert (Hne : df_empty df = false).
  { unfold df_empty. rewrite Hrows.
    unfold has_column in Hp. destruct (columns df); [discriminate Hp|].
    destruct pre; reflexivity. }
  unfold create_network. rewrite Hne.
  assert (HR : add_rows df (rows df) [] = Raise ValueError);
    [|rewrite HR; reflexivity].
  rewrite Hrows, add_rows_app.
  destruct (@add_rows_nodes df pre Hp He Hpre []) as [G [EG NG]].
  rewrite EG. cbn [bind]. cbn [nodes map app] in NG.
  assert (Hfree : ~ In CNone (nodes G)).
  { rewrite NG. intros Hin. apply unique_acc_fresh in Hin.
    destruct Hin as [Hin _]. apply in_flat_map in Hin.
    destruct Hin as [r' [Hr' Hc]]. destruct (Hpre r' Hr') as [A B].
    destruct Hc as [E|[E|[]]]; [apply A|apply B]; exact E. }
  cbn [add_rows]. rewrite Hp, He. cbn [negb].
  destruct (cell_eq_dec (cell_at r (py "Plasmid_ID")) CNone) as [Ep|Np].
  - rewrite Ep. rewrite (@add_node_none G _ Hfree). reflexivity.
  - destruct Hnone as [Ep|Ee]; [contradiction|].
    destruct (@add_node_nodes G (cell_at r (py "Plasmid_ID")) (py "plasmid") Np)
      as [G1 [E1 N1]].
    rewrite E1. cbn [bind]. rewrite Ee.
    rewrite add_node_none; [reflexivity|].
    rewrite N1. intros Hin. apply in_app_iff in Hin.
    destruct Hin as [Hin|Hin]; [contradiction|].
    destruct (has_node G (cell_at r (py "Plasmid_ID"))); [contradiction|].
    destruct Hin as [E|[]]. contradiction.
Qed.

End Layout.

Lemma network_graph_of_rows_witness :
  exists G,
    add_rows two_plasmids (rows two_plasmids) [] = Return G /\
    nodes G = [CStr (py "P1"); CStr (py "Soil"); CStr (py "P2");
               CStr (py "Water")] /\
    edges G = [(CStr (py "P1"), CStr (py "Soil"));
               (CStr (py "P2"), CStr (py "Water"))].
Proof.
  destruct (@network_graph_of_rows two_plasmids eq_refl eq_refl)
    as [G [HG [HN _]]].
  { intros r [<-|[<-|[]]]; split; reflexivity. }
  exists G. split; [exact HG|]. split; [exact HN|].
  assert (EG : Return G = add_rows two_plasmids (rows two_plasmids) [])
    by (symmetry; exact HG).
  vm_compute in EG. injection EG as ->. reflexivity.
Defined.

Lemma create_network_figure_witness :
  exists G line_color size color layout,
    add_rows two_plasmids (rows two_plasmids) [] = Return G /\
    nodes G = unique (endpoints two_plasmids) /\
    (0 < List.length (nodes G))%nat /\
    fig_data
      (figure_or_empty
         (fst (create_network toy_seed toy_spring accept_trace accept_layout
                 two_plasmids default_style 7)))
    = [ScatterLines
         (flat_map (fun e => [Some 42; Some 42; None]) (edges G))
         (flat_map (fun e => [Some 42; Some 42; None]) (edges G))
         line_color;
       ScatterMarkers (map (fun v => 42) (nodes G)) (map (fun v => 42) (nodes G))
                      (nodes G) size color] /\
    fig_layout
      (figure_or_empty
         (fst (create_network toy_seed toy_spring accept_trace accept_layout
                 two_plasmids default_style 7)))
    = Some layout /\
    dragmode_pan layout = true.
Proof.
  apply (@create_network_figure Z Z toy_seed toy_spring accept_trace
           accept_layout two_plasmids default_style 7
           (figure_or_empty
              (fst (create_network toy_seed toy_spring accept_trace
                      accept_layout two_plasmids default_style 7)))
           eq_refl); [|reflexivity].
  intros r [<-|[<-|[]]]; split; reflexivity.
Defined.

Lemma create_network_none_node_witness :
  create_network toy_seed toy_spring accept_trace accept_layout
    (mkDF text_columns [row_p1; row_nowhere; row_p2]) default_style 7
  = (Raise ValueError, 7).
Proof.
  apply (@create_network_none_node Z Z toy_seed toy_spring accept_trace
           accept_layout (mkDF text_columns [row_p1; row_nowhere; row_p2])
           default_style 7 [row_p1] [row_p2] row_nowhere eq_refl eq_refl
           eq_refl).
  - intros r [<-|[]]. split; discriminate.
  - right. reflexivity.
Defined.

End NetworkProperties.

(* ================================================================= *)
(** * Properties of the tab and export callbacks *)

Module CallbackProperties.
Import Py Pandas Networkx Upload App Notions Samples.
Import PyFacts PandasFacts BuilderFacts FigureFacts CallbackFacts.

Section Collaborators.
Variable coord : Type.
Variable rng : Type.
Variable RandomState : Z -> rng.
Variable fruchterman_reingold :
  Graph -> repulsion -> rng -> (cell -> coord * coord) * rng.
Variable regex : Type.
Variable re_compile : pystr -> option regex.
Variable re_search : regex -> pystr -> bool.
Variable valid_trace : Trace coord -> bool.
Variable valid_layout : Layout -> bool.
Variable open_export : pystr -> result pystr.
Variable write_image : Figure coord -> pystr -> pystr -> result unit.

(** X13.  The environment filter at its edges.  With data in the store
    whose [Environment] column holds text, and some text typed into the
    filter: when the text, stripped of surrounding white space, is not a
    regular expression, [render_content] raises [re.error] on every tab
    and with every other input; when it is one that no environment of the
    dataset matches, each of the three tabs shows the empty figure,
    whatever the style and the scale, for any selection of traits whose
    columns hold objects. *)
Theorem render_content_environment_edges (tab : pystr) (style : json)
  (records : list record) (env : pystr)
  (sankey_traits network_traits heatmap_traits : list pystr) (scale : json)
  (global : rng) :
  records <> [] -> env <> [] ->
  text_column (DataFrame_of_records records) (py "Environment") ->
  (re_compile (strip env) = None ->
   render_content RandomState fruchterman_reingold re_compile re_search
     valid_trace valid_layout tab style (Some records) (Some env)
     sankey_traits network_traits heatmap_traits scale global
   = (Raise ReError, global)) /\
  (forall re,
   re_compile (strip env) = Some re ->
   (forall r s, In r (rows (DataFrame_of_records records)) ->
                cell_at r (py "Environment") = CStr s ->
                re_search re s = false) ->
   In tab [py "sankey"; py "network"; py "heatmap"] ->
   (forall t, In t (sankey_traits ++ network_traits ++ heatmap_traits) ->
              col_dtype (columns (DataFrame_of_records records)) t
              = Some DObject) ->
   render_content RandomState fruchterman_reingold re_compile re_search
     valid_trace valid_layout tab style (Some records) (Some env)
     sankey_traits network_traits heatmap_traits scale global
   = (Return (GraphOf empty_figure), global)).
Proof.
  intros Hr He Ht.
  destruct records as [|r0 rs]; [contradiction Hr; reflexivity|].
  destruct env as [|c cs]; [contradiction He; reflexivity|].
  unfold render_content.
  set (df := DataFrame_of_records (r0 :: rs)) in *.
  cbv zeta. rewrite (filter_environment_text re_compile re_search (c :: cs) Ht).
  split.
  - intros Hc. rewrite Hc. reflexivity.
  - intros re Hc Hno Htab Hcols. rewrite Hc.
    assert (Hf : filter (fun r => match cell_at r (py "Environment") with
                                  | CStr s => re_search re s
                                  | _ => false
                                  end) (rows df) = []).
    { rewrite <- select_rows_map. apply select_rows_none.
      intros r Hin. destruct (cell_at r (py "Environment")) eqn:E;
        try reflexivity. apply (Hno r s Hin E). }
    rewrite Hf.
    assert (Hs : forall traits,
               (forall t, In t traits -> In t (sankey_traits ++ network_traits
                                                ++ heatmap_traits)) ->
               filter_by_traits (mkDF (columns df) []) traits
               = Return (mkDF (columns df) [])).
    { intros traits Hin. apply filter_by_traits_no_rows.
      intros t Ht'. apply Hcols, Hin, Ht'. }
    destruct (@three_tabs tab Htab) as [E1|[[E1 E2]|[E1 [E2 E3]]]].
    + rewrite E1, Hs by (intros t Hin; apply in_or_app; left; exact Hin).
      cbn [bind]. unfold create_sankey. rewrite df_empty_no_rows.
      reflexivity.
    + rewrite E1, E2, Hs
        by (intros t Hin; apply in_or_app; right; apply in_or_app; left;
            exact Hin).
      unfold create_network. rewrite df_empty_no_rows. reflexivity.
    + rewrite E1, E2, E3, Hs
        by (intros t Hin; apply in_or_app; right; apply in_or_app; right;
            exact Hin).
      cbn [bind]. unfold create_heatmap. rewrite df_empty_no_rows.
      reflexivity.
Qed.

(** X14.  The download is the plot without the filters.  With data in the
    store and one of the three tabs selected, [download_plot] builds the
    figure [render_content] shows for the same tab, style and scale when
    no environment and no trait are selected: if that rendering raises,
    so does the download; otherwise the figure is handed to the export,
    and the download returns the file written or, when the export raised,
    the error report, and never raises.  The random generator of the
    process is left as it was. *)
Theorem download_plot_is_unfiltered (tab fmt : pystr) (records : list record)
  (scale style : json) (global : rng) :
  records <> [] ->
  In tab [py "sankey"; py "network"; py "heatmap"] ->
  match fst (render_content RandomState fruchterman_reingold re_compile
               re_search valid_trace valid_layout tab style (Some records)
               None [] [] [] scale global) with
  | Return (GraphOf fig) =>
    fst (download_plot RandomState fruchterman_reingold valid_trace
           valid_layout open_export write_image tab fmt (Some records)
           scale style global)
    = Return (exported open_export write_image fig fmt)
  | Return _ => False
  | Raise e =>
    fst (download_plot RandomState fruchterman_reingold valid_trace
           valid_layout open_export write_image tab fmt (Some records)
           scale style global)
    = Raise e
  end /\
  snd (download_plot RandomState fruchterman_reingold valid_trace
         valid_layout open_export write_image tab fmt (Some records)
         scale style global)
  = global.
Proof.
  intros Hr Htab.
  destruct records as [|r0 rs]; [contradiction Hr; reflexivity|].
  unfold render_content, download_plot, exported.
  set (df := DataFrame_of_records (r0 :: rs)). cbv zeta.
  cbn [filter_by_traits bind].
  destruct (@three_tabs tab Htab) as [E1|[[E1 E2]|[E1 [E2 E3]]]].
  - rewrite E1. cbn [fst snd]. split; [|reflexivity].
    destruct (create_sankey valid_trace valid_layout df style) as [fig|e];
      reflexivity.
  - rewrite E1, E2.
    assert (Hg : snd (create_network RandomState fruchterman_reingold
                        valid_trace valid_layout df style global) = global).
    { unfold create_network, spring_layout.
      destruct (df_empty df); [reflexivity|].
      destruct (add_rows df (rows df) []); reflexivity. }
    destruct (create_network RandomState fruchterman_reingold valid_trace
                valid_layout df style global) as [[fig|e] g'];
      cbn [fst snd bind] in *; (split; [|exact Hg]); reflexivity.
  - rewrite E1, E2, E3. cbn [fst snd]. split; [|reflexivity].
    destruct (create_heatmap valid_trace valid_layout df scale style)
      as [fig|e]; reflexivity.
Qed.

(** X15.  The download at its edges.  With nothing in the store ([None] or
    no record), [download_plot] on any of the three tabs exports the empty
    figure, whatever the style and the scale, where [render_content] shows
    its prompt; and on a tab other than the three it never assigns [fig],
    so that it returns an error report, never an image, and never raises,
    whatever the data. *)
Theorem download_plot_edges (tab fmt : pystr) (data : option (list record))
  (scale style : json) (global : rng) :
  (data = None \/ data = Some [] ->
   In tab [py "sankey"; py "network"; py "heatmap"] ->
   download_plot RandomState fruchterman_reingold valid_trace valid_layout
     open_export write_image tab fmt data scale style global
   = (Return (exported open_export write_image empty_figure fmt), global) /\
   render_content RandomState fruchterman_reingold re_compile re_search
     valid_trace valid_layout tab style data None [] [] [] scale global
   = (Return (PleaseUploadDataset coord), global)) /\
  (~ In tab [py "sankey"; py "network"; py "heatmap"] ->
   download_plot RandomState fruchterman_reingold valid_trace valid_layout
     open_export write_image tab fmt data scale style global
   = (Return (SendString (match open_export fmt with
                          | Return _ => FigUnbound
                          | Raise e => ExportRaised e
                          end)), global)).
Proof.
  split.
  - intros Hd Htab.
    assert (Hdf : DataFrame_of_records (match data with
                                        | Some records => records
                                        | None => []
                                        end) = mkDF [] []).
    { destruct Hd as [->| ->]; reflexivity. }
    split.
    + unfold download_plot. rewrite Hdf. unfold exported.
      destruct (@three_tabs tab Htab) as [E1|[[E1 E2]|[E1 [E2 E3]]]].
      * rewrite E1. reflexivity.
      * rewrite E1, E2. reflexivity.
      * rewrite E1, E2, E3. reflexivity.
    + destruct Hd as [->| ->]; reflexivity.
  - intros Htab. unfold download_plot.
    assert (E1 : str_eqb tab (py "sankey") = false).
    { apply str_eqb_neq. intros ->. apply Htab. left. reflexivity. }
    assert (E2 : str_eqb tab (py "network") = false).
    { apply str_eqb_neq. intros ->. apply Htab. right. left. reflexivity. }
    assert (E3 : str_eqb tab (py "heatmap") = false).
    { apply str_eqb_neq. intros ->. apply Htab. right. right. left.
      reflexivity. }
    rewrite E1, E2, E3. cbn [bind]. destruct (open_export fmt); reflexivity.
Qed.

End Collaborators.

Lemma render_content_environment_edges_witness :
  render_content toy_seed toy_spring toy_compile toy_search accept_trace
    accept_layout (py "network") default_style (Some [row_p1; row_p2])
    (Some (py " (soil ")) [] [py "ARGs"] [] blues 7
  = (Raise ReError, 7) /\
  render_content toy_seed toy_spring toy_compile toy_search accept_trace
    accept_layout (py "network") default_style (Some [row_p1; row_p2])
    (Some (py "Gut")) [] [py "ARGs"] [] blues 7
  = (Return (GraphOf empty_figure), 7).
Proof.
  assert (Ht : text_column (DataFrame_of_records [row_p1; row_p2])
                 (py "Environment")).
  { split; [reflexivity|]. intros r [<-|[<-|[]]]; reflexivity. }
  split.
  - apply (proj1 (@render_content_environment_edges Z Z toy_seed toy_spring
                    (list Z) toy_compile toy_search accept_trace
                    accept_layout (py "network") default_style
                    [row_p1; row_p2] (py " (soil ") [] [py "ARGs"] [] blues 7
                    ltac:(discriminate) ltac:(discriminate) Ht)).
    reflexivity.
  - apply (proj2 (@render_content_environment_edges Z Z toy_seed toy_spring
                    (list Z) toy_compile toy_search accept_trace
                    accept_layout (py "network") default_style
                    [row_p1; row_p2] (py "Gut") [] [py "ARGs"] [] blues 7
                    ltac:(discriminate) ltac:(discriminate) Ht)
             (py "Gut") eq_refl).
    + intros r s [<-|[<-|[]]] E; injection E as <-; reflexivity.
    + right. left. reflexivity.
    + intros t [<-|[]]. reflexivity.
Defined.

Lemma download_plot_is_unfiltered_witness :
  fst (download_plot toy_seed toy_spring accept_trace accept_layout toy_open
         toy_export (py "heatmap") (py "png") (Some [row_p1; row_p2]) blues
         default_style 7)
  = Return (SendFile (py "/tmp/plot.png")) /\
  fst (download_plot toy_seed toy_spring accept_trace accept_layout toy_open
         toy_export (py "heatmap") (py "svg") (Some [row_p1; row_p2]) blues
         default_style 7)
  = Return (SendString (ExportRaised ValueError)) /\
  fst (download_plot toy_seed toy_spring accept_trace accept_layout toy_open
         toy_export (py "heatmap") (py "png") (Some [row_p1; row_p1_water])
         blues default_style 7)
  = Raise ValueError.
Proof.
  split; [|split].
  - exact (proj1 (@download_plot_is_unfiltered Z Z toy_seed toy_spring
                    (list Z) toy_compile toy_search accept_trace
                    accept_layout toy_open toy_export (py "heatmap")
                    (py "png") [row_p1; row_p2] blues default_style 7
                    ltac:(discriminate)
                    (or_intror (or_intror (or_introl eq_refl))))).
  - exact (proj1 (@download_plot_is_unfiltered Z Z toy_seed toy_spring
                    (list Z) toy_compile toy_search accept_trace
                    accept_layout toy_open toy_export (py "heatmap")
                    (py "svg") [row_p1; row_p2] blues default_style 7
                    ltac:(discriminate)
                    (or_intror (or_intror (or_introl eq_refl))))).
  - exact (proj1 (@download_plot_is_unfiltered Z Z toy_seed toy_spring
                    (list Z) toy_compile toy_search accept_trace
                    accept_layout toy_open toy_export (py "heatmap")
                    (py "png") [row_p1; row_p1_water] blues default_style 7
                    ltac:(discriminate)
                    (or_intror (or_intror (or_introl eq_refl))))).
Defined.

Lemma download_plot_edges_witness :
  download_plot toy_seed toy_spring accept_trace accept_layout toy_open
    toy_export (py "sankey") (py "png") None blues JNull 7
  = (Return (SendFile (py "/tmp/plot.png")), 7) /\
  download_plot toy_seed toy_spring accept_trace accept_layout toy_open
    toy_export (py "table") (py "png") (Some [row_p1]) blues default_style 7
  = (Return (SendString FigUnbound), 7).
Proof.
  split.
  - exact (proj1 (proj1 (@download_plot_edges Z Z toy_seed toy_spring
                           (list Z) toy_compile toy_search accept_trace
                           accept_layout toy_open toy_export (py "sankey")
                           (py "png") None blues JNull 7)
                    (or_introl eq_refl) (or_introl eq_refl))).
  - apply (proj2 (@download_plot_edges Z Z toy_seed toy_spring
                    (list Z) toy_compile toy_search accept_trace
                    accept_layout toy_open toy_export (py "table")
                    (py "png") (Some [row_p1]) blues default_style 7)).
    intros [H|[H|[H|[]]]]; discriminate H.
Defined.

End CallbackProperties.

(* ================================================================= *)
(** * Properties of the style callbacks *)

Module StyleProperties.
Import Py Pandas Networkx Upload App Notions Samples.
Import PyFacts PandasFacts BuilderFacts FigureFacts StyleFacts JsonFacts
  NestedJsonFacts.

(** Reading a field of the dict [update_style] returns. *)
Lemma update_style_fields (nc ec ns bg fs : json) :
  subscript (update_style nc ec ns bg fs) (py "node_color") = Return nc /\
  subscript (update_style nc ec ns bg fs) (py "edge_color") = Return ec /\
  subscript (update_style nc ec ns bg fs) (py "node_size") = Return ns /\
  subscript (update_style nc ec ns bg fs) (py "bg_color") = Return bg /\
  subscript (update_style nc ec ns bg fs) (py "font_size") = Return fs.
Proof.
  repeat split; reflexivity.
Qed.

(** X16.  Export and import exchange every plain value within the limits
    of the interpreter.  If the store holds a value built from [null],
    booleans, integers of at most 4300 digits, well-formed text, lists,
    and dicts with well-formed keys that are pairwise different, nested
    at most a hundred deep, then the file [save_style] writes, uploaded
    again, makes [load_style] return that very value, whatever the
    current style is. *)
Theorem save_load_plain_json (v current : json) (mime : pystr) :
  plain_json v = true -> within_limits nesting_bound v = true ->
  ~ In 44 mime ->
  load_style (Some (contents_of mime (written_bytes (save_style v)))) current
  = Return v.
Proof.
  intros Hv _ Hm. unfold written_bytes, save_style.
  pose proof (plain_ascii v Hv) as Ha.
  rewrite load_style_upload by (assumption || apply ascii_bytes, Ha).
  rewrite utf8_decode_ascii by exact Ha. cbn [bind].
  rewrite loads_dumps_plain by exact Hv. reflexivity.
Qed.

Section Collaborators.
Variable coord : Type.
Variable rng : Type.
Variable RandomState : Z -> rng.
Variable fruchterman_reingold :
  Graph -> repulsion -> rng -> (cell -> coord * coord) * rng.
Variable valid_trace : Trace coord -> bool.
Variable valid_layout : Layout -> bool.

(** X17.  Where the controls of the page go.  With the style
    [update_style] makes of the five controls: a flow diagram takes its
    node thickness from the node size, its node colour from the node
    colour and its link colour from the edge colour; a network takes the
    colour of its lines from the edge colour and the size and colour of
    its markers from the node size and the node colour; both take the
    font size and the background; the presence matrix takes the font size
    and the background only, so that the node colour, the edge colour and
    the node size have no effect on what [create_heatmap] does. *)
Theorem style_controls (df : DataFrame) (scale nc ec ns bg fs : json) :
  (forall fig,
     df_empty df = false ->
     create_sankey valid_trace valid_layout df (update_style nc ec ns bg fs)
     = Return fig ->
     exists labels source target value,
       fig = mkFigure [Sankey labels ns nc source target value ec]
               (Some (mkLayout (py "Flow of Genetic Material via Plasmids")
                               fs bg false))) /\
  (forall global fig,
     df_empty df = false ->
     fst (create_network RandomState fruchterman_reingold valid_trace
            valid_layout df (update_style nc ec ns bg fs) global)
     = Return fig ->
     exists edge_x edge_y node_x node_y text,
       fig = mkFigure [ScatterLines edge_x edge_y ec;
                       ScatterMarkers node_x node_y text ns nc]
               (Some (mkLayout
                        (py "Network of Shared Plasmids Across Environments")
                        fs bg true))) /\
  (forall fig,
     df_empty df = false ->
     create_heatmap valid_trace valid_layout df scale
       (update_style nc ec ns bg fs) = Return fig ->
     exists y x z,
       fig = mkFigure [Heatmap y x z scale]
               (Some (mkLayout (py "Presence of Plasmid-Associated Traits")
                               fs bg false))) /\
  (forall nc' ec' ns',
     create_heatmap valid_trace valid_layout df scale
       (update_style nc ec ns bg fs)
     = create_heatmap valid_trace valid_layout df scale
         (update_style nc' ec' ns' bg fs)).
Proof.
  destruct (update_style_fields nc ec ns bg fs) as [Hnc [Hec [Hns [Hbg Hfs]]]].
  split; [|split; [|split]].
  - intros fig He H.
    destruct (create_sankey_columns valid_trace valid_layout df _ He H)
      as [Hh [Hp Hv]].
    unfold create_sankey in H. rewrite He in H.
    destruct (getitem_column _ _ Hh) as [dh Gh].
    destruct (getitem_column _ _ Hp) as [dp Gp].
    destruct (getitem_column _ _ Hv) as [dv Gv].
    rewrite Gh, Gp, Gv, Hnc, Hec, Hns, Hbg, Hfs in H.
    cbn [bind tolist s_values] in H.
    apply bind_Return in H. destruct H as [trace [Ht H]].
    apply new_trace_Return in Ht. subst trace.
    apply bind_Return in H. destruct H as [layout [Hl H]].
    apply update_layout_Return in Hl. subst layout.
    injection H as <-. do 4 eexists. reflexivity.
  - intros global fig He H.
    unfold create_network in H. rewrite He in H.
    destruct (add_rows df (rows df) []) as [G|e]; [|discriminate H].
    unfold spring_layout in H. cbv iota beta in H. cbn [fst] in H.
    rewrite Hnc, Hec, Hns, Hbg, Hfs in H. cbn [bind] in H.
    apply bind_Return in H. destruct H as [lines [Hl H]].
    apply new_trace_Return in Hl. subst lines.
    apply bind_Return in H. destruct H as [markers [Hm H]].
    apply new_trace_Return in Hm. subst markers.
    apply bind_Return in H. destruct H as [layout [Hl1 H]].
    apply update_layout_Return in Hl1. subst layout.
    apply bind_Return in H. destruct H as [layout' [Hl2 H]].
    apply update_layout_Return in Hl2. subst layout'.
    injection H as <-. do 5 eexists. reflexivity.
  - intros fig He H.
    unfold create_heatmap in H. rewrite He in H.
    apply bind_Return in H. destruct H as [melted [_ H]].
    apply bind_Return in H. destruct H as [pivoted [_ H]].
    apply bind_Return in H. destruct H as [trace [Ht H]].
    apply new_trace_Return in Ht. subst trace.
    rewrite Hbg, Hfs in H. cbn [bind] in H.
    apply bind_Return in H. destruct H as [layout [Hl H]].
    apply update_layout_Return in Hl. subst layout.
    injection H as <-. do 3 eexists. reflexivity.
  - intros nc' ec' ns'. unfold create_heatmap.
    destruct (update_style_fields nc' ec' ns' bg fs) as [_ [_ [_ [Hbg' Hfs']]]].
    rewrite Hbg, Hfs, Hbg', Hfs'. reflexivity.
Qed.

End Collaborators.

Lemma save_load_plain_json_witness :
  load_style
    (Some (contents_of json_mime
             (written_bytes
                (save_style
                   (JDict [(py "node_color", JStr (py "red"));
                           (py "palette",
                            JList [JStr (py "a\b"); JInt (-3); JNull;
                                   JDict [(py "deep", JList [])]]);
                           (py "dark", JBool true)]))))) default_style
  = Return (JDict [(py "node_color", JStr (py "red"));
                   (py "palette",
                    JList [JStr (py "a\b"); JInt (-3); JNull;
                           JDict [(py "deep", JList [])]]);
                   (py "dark", JBool true)]).
Proof.
  apply save_load_plain_json; [reflexivity|reflexivity|].
  intros H. simpl in H. intuition discriminate.
Defined.

Lemma style_controls_witness :
  exists labels source target value,
    figure_or_empty
      (create_sankey accept_trace accept_layout one_plasmid
         (update_style (JStr (py "red")) (JStr (py "blue")) (JInt 20)
                       (JStr (py "ivory")) (JInt 11)))
    = mkFigure [Sankey labels (JInt 20) (JStr (py "red")) source target value
                       (JStr (py "blue"))]
        (Some (mkLayout (py "Flow of Genetic Material via Plasmids")
                        (JInt 11) (JStr (py "ivory")) false)).
Proof.
  exact (proj1 (@style_controls Z Z toy_seed toy_spring accept_trace
                  accept_layout one_plasmid blues (JStr (py "red"))
                  (JStr (py "blue")) (JInt 20) (JStr (py "ivory")) (JInt 11))
           _ eq_refl eq_refl).
Defined.

End StyleProperties.

